(** * Relay transport and protocol engine: a shallow embedding

    The development follows the Python sources of the repository:
    - [serial_protocol.py]     (class RelayProtocol: the serial codec and port),
    - [relay_controller_v2.py] (class RelayController: the serial controller),
    - [hid_relay.py]           (class HIDRelay: the two-byte HID profile),
    - [src/relay_unified.py]   (class RelayDevice: the padded HID profile).

    Python integers are [Z]; byte strings written to a device are [list Z];
    text read from the serial port is a [string]; Python lists updated by
    index use stdpp's lookup and insert with the IndexError written out.
    Code that does I/O, sleeps or raises lives in a state-and-exception
    monad whose state carries the object's fields, the outside device, a
    millisecond clock and the trace of I/O events. *)

From Stdlib Require Import ZArith List String Ascii Bool Lia.
From stdpp Require Import base list.
Import ListNotations.
Local Open Scope string_scope.
Local Open Scope list_scope.
Local Open Scope Z_scope.

(** ** Python-level outcomes *)

Module Py.

(** The exceptions the modelled code raises or may receive from a driver. *)
Inductive exn : Type :=
| ValueError (msg : string)
| RuntimeError (msg : string)
| IndexError
| KeyError (key : string)
| AttributeError
| UnicodeDecodeError
| IOFault (msg : string).      (* serial.SerialException, OSError, IOError of hidapi *)

(** A call either returns a value or raises. *)
Inductive result (A : Type) : Type :=
| Return (a : A)
| Raise (e : exn).
Arguments Return {A} a.
Arguments Raise {A} e.

(** State and exception monad: the state survives a raise, as in Python. *)
Definition M (S A : Type) : Type := S -> result A * S.

Definition ret {S A} (a : A) : M S A := fun s => (Return a, s).
Definition raise {S A} (e : exn) : M S A := fun s => (Raise e, s).
Definition bind {S A B} (m : M S A) (k : A -> M S B) : M S B :=
  fun s => match m s with
           | (Return a, s') => k a s'
           | (Raise e, s') => (Raise e, s')
           end.
(** [try: m except Exception as e: h e] *)
Definition try_except {S A} (m : M S A) (h : exn -> M S A) : M S A :=
  fun s => match m s with
           | (Return a, s') => (Return a, s')
           | (Raise e, s') => h e s'
           end.
Definition get {S} : M S S := fun s => (Return s, s).
Definition modify {S} (f : S -> S) : M S unit := fun s => (Return tt, f s).

End Py.
Export Py.

Declare Scope py_scope.
Delimit Scope py_scope with py.
Notation "x <- c1 ;; c2" := (bind c1 (fun x => c2))
  (at level 100, c1 at next level, c2 at level 200, right associativity) : py_scope.
Notation "c1 ;; c2" := (bind c1 (fun _ => c2))
  (at level 100, c2 at level 200, right associativity) : py_scope.
Local Open Scope py_scope.

(** ** serial_protocol.py: the codec (pure part) *)

Module RelayProtocol.

(** Protocol constants *)
Definition START_FLAG : Z := 0xA0.
Definition STATE_ON : Z := 0x01.
Definition STATE_OFF : Z := 0x00.
Definition QUERY_CMD : Z := 0xFF.

(** Python's [sum] over a list of ints. *)
Definition sum (data : list Z) : Z := fold_right Z.add 0 data.

(** [calculate_checksum]: [sum(data) & 0xFF] *)
Definition calculate_checksum (data : list Z) : Z := Z.land (sum data) 0xFF.

(** [relay_num not in [1, 2]] *)
Definition valid_relay (relay_num : Z) : bool := (relay_num =? 1) || (relay_num =? 2).

(** [build_command]: ValueError for a relay number outside [1, 2]; else the
    three bytes start flag, address, operation followed by their checksum.
    [bytes(cmd)] is the identity here: every element is within 0..255
    (see [build_command_bytes]). *)
Definition build_command (relay_num : Z) (state : bool) : result (list Z) :=
  if negb (valid_relay relay_num) then Raise (ValueError "Relay number must be 1 or 2")
  else
    let cmd := [START_FLAG; relay_num; if state then 0x01 else 0x00] in
    Return (cmd ++ [calculate_checksum cmd]).

(** [needle in haystack] on str *)
Definition contains (needle haystack : string) : bool :=
  match String.index 0 needle haystack with
  | Some _ => true
  | None => false
  end.

(** [parse_status]: substring search for the per-channel markers. *)
Definition parse_status (response : string) : bool * bool :=
  let relay1 := contains "CH1:ON" response in
  let relay2 := contains "CH2:ON" response in
  (relay1, relay2).

End RelayProtocol.

(** ** The host side shared by all transports: device, clock, trace *)

Module Host.

(** What a run leaves behind.  Every frame handed to a driver's write is
    recorded (whether or not the driver then fails), so are the sleeps, the
    closing of a port and the lines sent to [logger.error]. *)
Inductive event : Type :=
| EvWrite (data : list Z)
| EvSleep (ms : Z)
| EvClose
| EvError (msg : string)
| EvErrorExn (msg : string) (e : exn).

(** The outside device [D], a clock in milliseconds and the trace. *)
Record world (D : Type) : Type := World {
  device : D;
  clock : Z;
  trace : list event
}.
Arguments World {D} _ _ _.
Arguments device {D} _.
Arguments clock {D} _.
Arguments trace {D} _.

Section World.
Context {D : Type}.

Definition log (e : event) : M (world D) unit :=
  modify (fun w => World (device w) (clock w) (trace w ++ [e])).

(** A driver call: the device answers and moves on. *)
Definition io {A} (f : D -> result A * D) : M (world D) A :=
  fun w => let (r, d') := f (device w) in (r, World d' (clock w) (trace w)).

(** [time.time()] in milliseconds.  The clock of the model counts the
    time slept; the time a driver call takes is not counted. *)
Definition now : M (world D) Z := w <- get ;; ret (clock w).

(** [time.sleep(ms / 1000)]: the clock advances and the device lives on
    for that long ([tick]). *)
Definition sleep (tick : Z -> D -> D) (ms : Z) : M (world D) unit :=
  modify (fun w => World (tick ms (device w)) (clock w + ms) (trace w ++ [EvSleep ms])).
End World.

(** [l[i]] for an index that is not negative; IndexError out of range. *)
Definition getitem {S A} (l : list A) (i : Z) : M S A :=
  match l !! Z.to_nat i with
  | Some x => ret x
  | None => raise IndexError
  end.

(** [range(n)] *)
Definition range (n : nat) : list Z := map Z.of_nat (seq 0 n).

(** The frames written during a run, oldest first. *)
Fixpoint writes (t : list event) : list (list Z) :=
  match t with
  | [] => []
  | EvWrite f :: t' => f :: writes t'
  | _ :: t' => writes t'
  end.

(** The sleeps of a run, oldest first. *)
Fixpoint sleeps (t : list event) : list Z :=
  match t with
  | [] => []
  | EvSleep ms :: t' => ms :: sleeps t'
  | _ :: t' => sleeps t'
  end.

End Host.
Export Host.

(** ** serial_protocol.py: the port *)

(** pyserial as the code uses it: [write] returns the number of bytes
    written, [in_waiting] the number of bytes in the input buffer,
    [read_until(b'\n')] the raw bytes of a line (one character per byte);
    each may raise.  [dev_open] is [serial.Serial(port=find_relay_port(), ...)]
    in [RelayProtocol.__init__]: it raises when no port is found or the port
    cannot be opened.  [dev_tick] lets the device live while the host
    sleeps. *)
Class SerialDevice (D : Type) : Type := {
  dev_open : D -> result unit * D;
  dev_write : list Z -> D -> result Z * D;
  dev_in_waiting : D -> result Z * D;
  dev_read_until : D -> result string * D;
  dev_tick : Z -> D -> D
}.

Module Serial.
Import RelayProtocol.

(** The RelayProtocol object: its [serial] attribute always exists after
    [__init__]; [is_open] is pyserial's flag, changed by [close()] only. *)
Record protocol_obj : Type := Protocol { is_open : bool }.

(** The RelayController object together with the world it talks to. *)
Record state (D : Type) : Type := State {
  protocol : option protocol_obj;     (* self.protocol, None before connect() *)
  connected : bool;                   (* self.connected *)
  relay_states : list bool;           (* self.relay_states *)
  outside : world D
}.
Arguments State {D} _ _ _ _.
Arguments protocol {D} _.
Arguments connected {D} _.
Arguments relay_states {D} _.
Arguments outside {D} _.

Section Port.
Context {D : Type} `{SerialDevice D}.

Definition lift {A} (m : M (world D) A) : M (state D) A :=
  fun s => let (r, w') := m (outside s) in
           (r, State (protocol s) (connected s) (relay_states s) w').

Definition set_protocol (p : option protocol_obj) : M (state D) unit :=
  modify (fun s => State p (connected s) (relay_states s) (outside s)).
Definition set_relay_states (l : list bool) : M (state D) unit :=
  modify (fun s => State (protocol s) (connected s) l (outside s)).

(** [self.protocol.serial.is_open]; AttributeError when [self.protocol]
    is None. *)
Definition serial_is_open : M (state D) bool :=
  s <- get ;;
  match protocol s with
  | Some p => ret (is_open p)
  | None => raise AttributeError
  end.

(** [send_command] *)
Definition send_command (cmd : list Z) : M (state D) bool :=
  opened <- serial_is_open ;;
  if negb opened then raise (RuntimeError "Serial port not open")
  else
    lift (log (EvWrite cmd)) ;;
    bytes_written <- lift (io (dev_write cmd)) ;;
    ret (bytes_written =? Z.of_nat (length cmd)).

(** [.decode('ascii')] *)
Definition decode_ascii (raw : string) : M (state D) string :=
  if forallb (fun c => (nat_of_ascii c <? 128)%nat) (list_ascii_of_string raw)
  then ret raw else raise UnicodeDecodeError.

(** The polling loop of [read_response].  Every turn that does not return
    sleeps 10 ms, so [fuel] turns are enough once [10 * fuel] exceeds the
    timeout (see [poll_fuel_enough]); running out of fuel is the loop's exit. *)
Fixpoint poll (fuel : nat) (start_time timeout_ms : Z) : M (state D) (option string) :=
  match fuel with
  | O => ret None
  | S fuel' =>
      t <- lift now ;;
      if (t - start_time) <? timeout_ms then
        n <- lift (io dev_in_waiting) ;;
        if negb (n =? 0) then
          raw <- lift (io dev_read_until) ;;
          text <- decode_ascii raw ;;
          ret (Some text)
        else
          lift (sleep dev_tick 10) ;;
          poll fuel' start_time timeout_ms
      else ret None
  end.

(** [read_response] *)
Definition read_response (timeout_ms : Z) : M (state D) (option string) :=
  opened <- serial_is_open ;;
  if negb opened then raise (RuntimeError "Serial port not open")
  else
    start_time <- lift now ;;
    poll (S (Z.to_nat timeout_ms)) start_time timeout_ms.

(** [RelayProtocol.set_relay] *)
Definition set_relay (relay_num : Z) (st : bool) : M (state D) bool :=
  match build_command relay_num st with
  | Return cmd => send_command cmd
  | Raise e => raise e
  end.

(** [query_status]: [if response] is false for None and for the empty
    string. *)
Definition query_status : M (state D) (bool * bool) :=
  send_command [QUERY_CMD] ;;
  response <- read_response 100 ;;
  match response with
  | Some (String c r) => ret (parse_status (String c r))
  | Some EmptyString | None => raise (RuntimeError "No response to status query")
  end.

(** [RelayProtocol.close] *)
Definition close : M (state D) unit :=
  opened <- serial_is_open ;;
  if opened then
    lift (log EvClose) ;;
    set_protocol (Some (Protocol false))
  else ret tt.

End Port.
End Serial.

(** ** relay_controller_v2.py: class RelayController *)

Module RelayController.
Import RelayProtocol Serial.

(** The fields [__init__] leaves behind (the configuration file apart). *)
Definition init {D} (w : world D) : state D := State None false [false; false] w.

Section Controller.
Context {D : Type} `{SerialDevice D}.

Definition error (msg : string) : M (state D) unit := lift (log (EvError msg)).
Definition error_exn (msg : string) (e : exn) : M (state D) unit :=
  lift (log (EvErrorExn msg e)).

Definition set_connected (b : bool) : M (state D) unit :=
  modify (fun s => State (protocol s) b (relay_states s) (outside s)).

(** [connect]: a new protocol object on a freshly opened port, then the
    status query that seeds the cache. *)
Definition connect : M (state D) bool :=
  try_except
    (lift (io dev_open) ;;
     set_protocol (Some (Protocol true)) ;;
     st <- query_status ;;
     set_relay_states [fst st; snd st] ;;
     set_connected true ;;
     ret true)
    (fun e =>
       error_exn "Connection failed" e ;;
       ret false).

(** [tuple(self.relay_states)] *)
Definition cached : M (state D) (list bool) := s <- get ;; ret (relay_states s).

(** [self.relay_states[i] = v] *)
Definition setitem_relay_states (i : Z) (v : bool) : M (state D) unit :=
  s <- get ;;
  if (Z.to_nat i <? length (relay_states s))%nat
  then set_relay_states (<[Z.to_nat i := v]> (relay_states s))
  else raise IndexError.

(** [get_relay_states] *)
Definition get_relay_states : M (state D) (list bool) :=
  s <- get ;;
  if negb (connected s) then
    error "Not connected to relay" ;;
    cached
  else
    try_except
      (st <- query_status ;;
       set_relay_states [fst st; snd st] ;;
       cached)
      (fun e =>
         error_exn "Error reading relay states" e ;;
         cached).

(** [set_relay].  The two info lines format [states[0]] and [states[1]]
    inside the try, which is an IndexError on a shorter tuple. *)
Definition set_relay (relay_num : Z) (st : bool) : M (state D) bool :=
  s <- get ;;
  if negb (connected s) then
    error "Not connected to relay" ;;
    ret false
  else if negb (valid_relay relay_num) then
    error "Invalid relay number. Must be 1 or 2" ;;
    ret false
  else
    try_except
      (current_states <- get_relay_states ;;
       getitem current_states 0 ;;
       getitem current_states 1 ;;
       sent <- Serial.set_relay relay_num st ;;
       if sent then
         setitem_relay_states (relay_num - 1) st ;;
         lift (sleep dev_tick 100) ;;
         actual_states <- get_relay_states ;;
         actual <- getitem actual_states (relay_num - 1) ;;
         if Bool.eqb actual st then ret true
         else
           error "Relay state verification failed!" ;;
           getitem actual_states 0 ;;
           getitem actual_states 1 ;;
           ret false
       else
         error "Failed to send command!" ;;
         ret false)
      (fun e =>
         error_exn "Error setting relay" e ;;
         ret false).

(** The loop of [set_all_relays]: [break] on the first failure. *)
Fixpoint set_each (relays : list Z) (st : bool) : M (state D) bool :=
  match relays with
  | [] => ret true
  | relay :: rest =>
      ok <- set_relay relay st ;;
      if negb ok then ret false
      else
        lift (sleep dev_tick 100) ;;
        set_each rest st
  end.

(** [set_all_relays] *)
Definition set_all_relays (st : bool) : M (state D) bool :=
  s <- get ;;
  if negb (connected s) then
    error "Not connected to relay" ;;
    ret false
  else set_each [1; 2] st.

(** The loop of [cleanup]: the result of [set_relay] is dropped. *)
Fixpoint switch_off (relays : list Z) : M (state D) unit :=
  match relays with
  | [] => ret tt
  | relay :: rest =>
      set_relay relay false ;;
      lift (sleep dev_tick 100) ;;
      switch_off rest
  end.

(** [cleanup]; it returns None on every path. *)
Definition cleanup : M (state D) unit :=
  s <- get ;;
  if connected s then
    try_except
      (switch_off [1; 2] ;;
       s' <- get ;;
       match protocol s' with
       | Some _ => close
       | None => ret tt
       end)
      (fun e => error_exn "Cleanup error" e)
  else ret tt.

End Controller.
End RelayController.

(** ** hid_relay.py: class HIDRelay *)

(** hidapi as the code uses it: [write(data)], [read(max_length,
    timeout_ms)] and [close()]; each may raise. *)
Class HidDevice (H : Type) : Type := {
  hid_write : list Z -> H -> result Z * H;
  hid_read : Z -> Z -> H -> result (list Z) * H;
  hid_close : H -> result unit * H;
  hid_tick : Z -> H -> H
}.

Module HIDRelay.
Import RelayProtocol.

(** [self.device]: None before [connect()], the handle afterwards. *)
Record state (H : Type) : Type := State {
  device_set : bool;
  outside : world H
}.
Arguments State {H} _ _.
Arguments device_set {H} _.
Arguments outside {H} _.

Section Hid.
Context {H : Type} `{HidDevice H}.

Definition lift {A} (m : M (world H) A) : M (state H) A :=
  fun s => let (r, w') := m (outside s) in (r, State (device_set s) w').

(** [send_command] on a list: the report id 0 goes first; the frame is
    written as it is. *)
Definition send_command (data : list Z) : M (state H) bool :=
  s <- get ;;
  if negb (device_set s) then raise (RuntimeError "Device not connected")
  else
    try_except
      (let data := [0x00] ++ data in
       lift (log (EvWrite data)) ;;
       lift (io (hid_write data)) ;;
       lift (sleep hid_tick 50) ;;
       try_except
         (response <- lift (io (hid_read 64 100)) ;;
          ret true)
         (fun _ => ret true))
      (fun e =>
         lift (log (EvErrorExn "Command failed" e)) ;;
         ret false).

(** The opcode [set_relay] picks. *)
Definition relay_opcode (relay_num : Z) (st : bool) : Z :=
  if relay_num =? 1 then (if st then 0xFE else 0x01)
  else (if st then 0xFD else 0x02).

(** [set_relay] *)
Definition set_relay (relay_num : Z) (st : bool) : M (state H) bool :=
  if negb (valid_relay relay_num) then raise (ValueError "Relay number must be 1 or 2")
  else
    let cmd := relay_opcode relay_num st in
    send_command [cmd].

(** [set_all_relays] *)
Definition set_all_relays (st : bool) : M (state H) bool :=
  let cmd := if st then 0xFF else 0x00 in
  send_command [cmd].

(** [close]: the bare [except: pass] swallows everything. *)
Definition close : M (state H) unit :=
  s <- get ;;
  if device_set s then
    try_except
      (set_all_relays false ;;
       lift (log EvClose) ;;
       lift (io hid_close))
      (fun _ => ret tt)
  else ret tt.

End Hid.
End HIDRelay.

(** ** src/relay_unified.py: class RelayDevice *)

Module RelayDevice.

(** [RelayCommands.HID_COMMANDS]: a dict from the command name to a
    function of the channel. *)
Definition HID_COMMANDS (command_type : string) : option (Z -> list Z) :=
  if String.eqb command_type "OPEN_ONE" then Some (fun channel => [0x0; 0xFF; channel])
  else if String.eqb command_type "CLOSE_ONE" then Some (fun channel => [0x0; 0xFD; channel])
  else if String.eqb command_type "OPEN_ALL" then Some (fun _ => [0x0; 0xFF; 0x0])
  else if String.eqb command_type "CLOSE_ALL" then Some (fun _ => [0x0; 0xFD; 0x0])
  else if String.eqb command_type "GET_STATUS" then Some (fun _ => [0x0; 0x00; 0x0])
  else None.

(** [max_retries = 3] in [_send_command], and the pause between two
    attempts, [time.sleep(0.1)]. *)
Definition max_retries : nat := 3.
Definition retry_delay_ms : Z := 100.

Record state (H : Type) : Type := State {
  platform : string;        (* sys.platform *)
  device_set : bool;        (* self.device is not None *)
  connected : bool;
  outside : world H
}.
Arguments State {H} _ _ _ _.
Arguments platform {H} _.
Arguments device_set {H} _.
Arguments connected {H} _.
Arguments outside {H} _.

Section Unified.
Context {H : Type} `{HidDevice H}.

Definition lift {A} (m : M (world H) A) : M (state H) A :=
  fun s => let (r, w') := m (outside s) in
           (r, State (platform s) (device_set s) (connected s) w').

Definition set_connected (b : bool) : M (state H) unit :=
  modify (fun s => State (platform s) (device_set s) b (outside s)).

(** [cmd + [0x0] * (8 - len(cmd))]: a list times a negative number is
    the empty list. *)
Definition pad8 (cmd : list Z) : list Z :=
  cmd ++ repeat 0x0 (Z.to_nat (8 - Z.of_nat (length cmd))).

(** The retry loop of [_send_command] over [range(max_retries)]: a
    successful write and read returns True from the function; the last
    attempt re-raises; the others sleep and go on.  A loop that runs out
    falls to the end of the function, which returns None. *)
Fixpoint attempts (full_cmd : list Z) (todo : list Z) : M (state H) (option bool) :=
  match todo with
  | [] => ret None
  | attempt :: rest =>
      try_except
        (lift (log (EvWrite full_cmd)) ;;
         lift (io (hid_write full_cmd)) ;;
         response <- lift (io (hid_read 8 100)) ;;
         ret (Some true))
        (fun e =>
           if attempt =? Z.of_nat max_retries - 1 then raise e
           else
             lift (sleep hid_tick retry_delay_ms) ;;
             attempts full_cmd rest)
  end.

(** [_send_command]; Python's True, False and None are [Some true],
    [Some false] and [None]. *)
Definition _send_command (command_type : string) (channel : Z) : M (state H) (option bool) :=
  try_except
    (s <- get ;;
     if negb (device_set s) || negb (connected s) then ret (Some false)
     else if String.eqb (platform s) "darwin" then
       match HID_COMMANDS command_type with
       | None => raise (KeyError command_type)
       | Some f =>
           let cmd := f channel in
           let full_cmd := pad8 cmd in
           attempts full_cmd (range max_retries)
       end
     else ret None)
    (fun e =>
       lift (log (EvErrorExn "Command error" e)) ;;
       set_connected false ;;
       ret (Some false)).

(** [open_channel] and [close_channel]: relay on and relay off. *)
Definition open_channel (channel : Z) : M (state H) (option bool) :=
  _send_command "OPEN_ONE" channel.
Definition close_channel (channel : Z) : M (state H) (option bool) :=
  _send_command "CLOSE_ONE" channel.

End Unified.
End RelayDevice.

(** ** Devices to run the code against *)

(** A cable that is out: every driver call raises. *)
Inductive unplugged : Type := Unplugged.

#[global] Instance unplugged_serial : SerialDevice unplugged := {
  dev_open d := (Raise (IOFault "could not open port"), d);
  dev_write _ d := (Raise (IOFault "write failed"), d);
  dev_in_waiting d := (Raise (IOFault "device not configured"), d);
  dev_read_until d := (Raise (IOFault "device not configured"), d);
  dev_tick _ d := d
}.

#[global] Instance unplugged_hid : HidDevice unplugged := {
  hid_write _ d := (Raise (IOFault "write error"), d);
  hid_read _ _ d := (Raise (IOFault "read error"), d);
  hid_close d := (Return tt, d);
  hid_tick _ d := d
}.

(** The serial relay board as the protocol comment of serial_protocol.py
    describes it: a frame [start, address, operation, checksum] switches the
    addressed relay, a single 0xFF is answered with a text line that carries
    the markers [parse_status] looks for.  Three faults can be injected: the
    cable is out ([link_up] false), the board does not answer queries
    ([answers] false), a relay does not move ([jammed] holds its address). *)
Module Board.
Import RelayProtocol.

Record board : Type := Board {
  link_up : bool;
  answers : bool;
  jammed : list Z;
  relays : bool * bool;
  rx : list string          (* lines waiting in the host's input buffer *)
}.

Definition newline : string := String (ascii_of_nat 10) EmptyString.

Definition marker (on : bool) : string := if on then "ON" else "OFF".

Definition status_line (r : bool * bool) : string :=
  ("CH1:" ++ marker (fst r) ++ " CH2:" ++ marker (snd r) ++ newline)%string.

Definition with_rx (b : board) (q : list string) : board :=
  Board (link_up b) (answers b) (jammed b) (relays b) q.
Definition with_relays (b : board) (r : bool * bool) : board :=
  Board (link_up b) (answers b) (jammed b) r (rx b).

Definition is_jammed (b : board) (address : Z) : bool :=
  existsb (Z.eqb address) (jammed b).

(** What the board does with the bytes of one write. *)
Definition receive (frame : list Z) (b : board) : board :=
  match frame with
  | [q] => if (q =? QUERY_CMD) && answers b
           then with_rx b (rx b ++ [status_line (relays b)]) else b
  | [start; address; operation; check] =>
      if (start =? START_FLAG) && (check =? calculate_checksum [start; address; operation])
         && negb (is_jammed b address)
      then
        if operation =? STATE_ON then
          if address =? 1 then with_relays b (true, snd (relays b))
          else if address =? 2 then with_relays b (fst (relays b), true)
          else b
        else if operation =? STATE_OFF then
          if address =? 1 then with_relays b (false, snd (relays b))
          else if address =? 2 then with_relays b (fst (relays b), false)
          else b
        else b
      else b
  | _ => b
  end.

Definition bytes_waiting (b : board) : Z :=
  fold_right (fun line n => Z.of_nat (String.length line) + n) 0 (rx b).

#[global] Instance board_serial : SerialDevice board := {
  dev_open b :=
    if link_up b then (Return tt, b) else (Raise (IOFault "could not open port"), b);
  dev_write frame b :=
    if link_up b then (Return (Z.of_nat (length frame)), receive frame b)
    else (Raise (IOFault "write failed"), b);
  dev_in_waiting b :=
    if link_up b then (Return (bytes_waiting b), b)
    else (Raise (IOFault "device not configured"), b);
  dev_read_until b :=
    if link_up b then
      match rx b with
      | line :: rest => (Return line, with_rx b rest)
      | [] => (Return EmptyString, b)
      end
    else (Raise (IOFault "device not configured"), b);
  dev_tick _ b := b
}.

(** A healthy board with both relays off, one that does not answer
    queries, one whose cable is out, one whose relay [address] is jammed. *)
Definition healthy : board := Board true true [] (false, false) [].
Definition mute : board := Board true false [] (false, false) [].
Definition cut : board := Board false true [] (false, false) [].
Definition stuck (address : Z) : board := Board true true [address] (false, false) [].

End Board.

(** The HID relay of hid_relay.py: the opcode byte after the report id
    switches one relay or both; reads find nothing to read. *)
Module HidBoard.

Record hid_board : Type := HidBoard {
  hid_relays : bool * bool;
  hid_open : bool
}.

Definition apply_opcode (opcode : Z) (r : bool * bool) : bool * bool :=
  if opcode =? 0xFE then (true, snd r)
  else if opcode =? 0x01 then (false, snd r)
  else if opcode =? 0xFD then (fst r, true)
  else if opcode =? 0x02 then (fst r, false)
  else if opcode =? 0xFF then (true, true)
  else if opcode =? 0x00 then (false, false)
  else r.

#[global] Instance hid_board_device : HidDevice hid_board := {
  hid_write frame b :=
    if hid_open b then
      match frame with
      | _ :: opcode :: _ =>
          (Return (Z.of_nat (length frame)), HidBoard (apply_opcode opcode (hid_relays b)) true)
      | _ => (Return (Z.of_nat (length frame)), b)
      end
    else (Raise (IOFault "not open"), b);
  hid_read _ _ b :=
    if hid_open b then (Return [], b) else (Raise (IOFault "not open"), b);
  hid_close b := (Return tt, HidBoard (hid_relays b) false);
  hid_tick _ b := b
}.

End HidBoard.

(** ** Vocabulary of the properties *)

Module Props.
Import RelayProtocol.

(** The command frames among the frames written: all but the one-byte
    status query. *)
Definition is_query (frame : list Z) : bool :=
  match frame with
  | [q] => q =? QUERY_CMD
  | _ => false
  end.
Definition commands (t : list event) : list (list Z) :=
  List.filter (fun frame => negb (is_query frame)) (writes t).

(** The events a run added to the trace [before] it. *)
Definition added (before after : list event) : list event :=
  skipn (length before) after.

(** A stretch of trace in which the host only slept. *)
Definition only_sleeps (t : list event) : Prop :=
  Forall (fun e => exists ms, e = EvSleep ms) t.

(** A stretch of trace with no command frame and no plain error line:
    what a status query may leave. *)
Definition benign (t : list event) : Prop :=
  commands t = [] /\ forall msg, ~ In (EvError msg) t.

(** The frame [build_command] returns for a valid relay number. *)
Definition frame_of (relay_num : Z) (st : bool) : list Z :=
  [0xA0; relay_num; if st then 0x01 else 0x00;
   (0xA0 + relay_num + (if st then 0x01 else 0x00)) mod 256].

(** The channel states the specification speaks of, and the cache of the
    controller (a Python bool per channel) read in those terms. *)
Inductive channel_state : Type := Unknown | Off | On.
Definition cache_view (cached : bool) : channel_state := if cached then On else Off.

(** The public operations of RelayController. *)
Inductive operation : Type :=
| OpConnect
| OpGetRelayStates
| OpSetRelay (relay_num : Z) (st : bool)
| OpSetAllRelays (st : bool)
| OpCleanup.

Section Runs.
Context {D : Type} `{SerialDevice D}.

(** The next [polls] looks at the input buffer, 10 ms apart, find it
    empty. *)
Fixpoint no_data (polls : nat) (d : D) : Prop :=
  match polls with
  | O => True
  | S n => exists d', dev_in_waiting d = (Return 0, d') /\ no_data n (dev_tick 10 d')
  end.

(** The device after [polls] such looks. *)
Fixpoint idle (polls : nat) (d : D) : D :=
  match polls with
  | O => d
  | S n => idle n (dev_tick 10 (snd (dev_in_waiting d)))
  end.

(** The state an operation leaves, whatever it returned. *)
Definition run_op (o : operation) (s : Serial.state D) : Serial.state D :=
  match o with
  | OpConnect => snd (RelayController.connect s)
  | OpGetRelayStates => snd (RelayController.get_relay_states s)
  | OpSetRelay relay_num st => snd (RelayController.set_relay relay_num st s)
  | OpSetAllRelays st => snd (RelayController.set_all_relays st s)
  | OpCleanup => snd (RelayController.cleanup s)
  end.

Definition run_ops (ops : list operation) (s : Serial.state D) : Serial.state D :=
  fold_left (fun s o => run_op o s) ops s.
End Runs.

(** What can be observed of a controller on the serial board: the
    object's fields and the board's relays and pending input. *)
Definition observable (s : Serial.state Board.board)
  : option Serial.protocol_obj * bool * list bool * (bool * bool) * list string :=
  (Serial.protocol s, Serial.connected s, Serial.relay_states s,
   Board.relays (device (Serial.outside s)), Board.rx (device (Serial.outside s))).

(** One [set_relay] of a connected controller seen from outside, on a
    board whose input buffer is drained: where it leaves the board and the
    cache.  The frame reaches the board when the cable is in and the two
    info lines could be formatted (the board answered, or the cache had two
    entries); the cache ends as the board's answer, or, on a board that does
    not answer, as the old cache with the request written in. *)
Definition board_next (relay_num : Z) (st : bool) (cache : list bool) (b : Board.board)
  : Board.board :=
  if Board.link_up b && (Board.answers b || (2 <=? length cache)%nat)
  then Board.receive (frame_of relay_num st) b else b.

Definition cache_next (relay_num : Z) (st : bool) (cache : list bool) (b : Board.board)
  : list bool :=
  if Board.link_up b then
    if Board.answers b then
      let r := Board.relays (Board.receive (frame_of relay_num st) b) in [fst r; snd r]
    else if (2 <=? length cache)%nat then <[Z.to_nat (relay_num - 1) := st]> cache
    else cache
  else cache.

(** A connected controller with [cache] on the serial board [b], and the
    same on a cable that is out; a connected HIDRelay on a HID board with
    both relays off; a connected RelayDevice on a cable that is out. *)
Definition session (b : Board.board) (cache : list bool) : Serial.state Board.board :=
  Serial.State (Some (Serial.Protocol true)) true cache (World b 0 []).
Definition lost_session (cache : list bool) : Serial.state unplugged :=
  Serial.State (Some (Serial.Protocol true)) true cache (World Unplugged 0 []).
Definition hid_session : HIDRelay.state HidBoard.hid_board :=
  HIDRelay.State true (World (HidBoard.HidBoard (false, false) true) 0 []).
Definition lost_unified : RelayDevice.state unplugged :=
  RelayDevice.State "darwin" true true (World Unplugged 0 []).

End Props.
Import Props.

(** ** relay_controller_v2.py: main *)

Module ControllerMain.
Import RelayProtocol Serial RelayController.

(** [try: m finally: f]: [f] runs whatever [m] did; an exception of [f]
    replaces the outcome of [m]. *)
Definition try_finally {S A} (m : M S A) (f : M S unit) : M S A :=
  fun s => match m s with
           | (r, s') => match f s' with
                        | (Return _, s'') => (r, s'')
                        | (Raise e, s'') => (Raise e, s'')
                        end
           end.

Section Main.
Context {D : Type} `{SerialDevice D}.

(** [main] from the point where the controller object exists: connect,
    the test sequence with its one-second pauses, and [cleanup] in the
    [finally].  The results of the calls are dropped, as in the source. *)
Definition main : M (state D) unit :=
  try_finally
    (try_except
       (ok <- connect ;;
        if negb ok then
          error "Failed to connect to relay!" ;;
          ret tt
        else
          set_relay 1 true ;;
          lift (sleep dev_tick 1000) ;;
          set_relay 1 false ;;
          lift (sleep dev_tick 1000) ;;
          set_relay 2 true ;;
          lift (sleep dev_tick 1000) ;;
          set_relay 2 false ;;
          lift (sleep dev_tick 1000) ;;
          set_all_relays true ;;
          lift (sleep dev_tick 1000) ;;
          set_all_relays false ;;
          ret tt)
       (fun e => error_exn "Test error" e))
    cleanup.

End Main.
End ControllerMain.

(** ** hid_relay.py: connect *)

(** The calls of hidapi around opening a device: [hid.enumerate()],
    [device.open(vendor_id, product_id)], [device.set_nonblocking(1)] and
    the two string queries; each may raise. *)
Class HidHandle (H : Type) : Type := {
  hid_enumerate : H -> result unit * H;
  hid_open : Z -> Z -> H -> result unit * H;
  hid_set_nonblocking : H -> result unit * H;
  hid_get_manufacturer_string : H -> result unit * H;
  hid_get_product_string : H -> result unit * H
}.

Module HIDRelayConnect.
Import HIDRelay.

(** The default identifiers of [HIDRelay.__init__]. *)
Definition vendor_id : Z := 0x16c0.
Definition product_id : Z := 0x05df.

Section Connect.
Context {H : Type} `{HidDevice H} `{HidHandle H}.

Definition set_device (present : bool) : M (state H) unit :=
  modify (fun s => State present (outside s)).

(** [connect]: [self.device] is assigned the new handle before it is
    opened. *)
Definition connect : M (state H) bool :=
  try_except
    (lift (io hid_enumerate) ;;
     set_device true ;;
     lift (io (hid_open vendor_id product_id)) ;;
     lift (io hid_set_nonblocking) ;;
     lift (io hid_get_manufacturer_string) ;;
     lift (io hid_get_product_string) ;;
     ret true)
    (fun e =>
       lift (log (EvErrorExn "Failed to connect" e)) ;;
       ret false).

End Connect.
End HIDRelayConnect.

(** ** src/relay_unified.py: the life cycle of RelayDevice and its status *)

Module RelayDeviceLife.
Import RelayDevice.

(** The three assignments at the head of [__init__]: the platform, no
    device, not connected. *)
Definition fresh {H} (platform_name : string) (w : world H) : state H :=
  State platform_name false false w.

Section Life.
Context {H : Type} `{HidDevice H} `{HidHandle H}.

Definition set_device (present : bool) : M (state H) unit :=
  modify (fun s => State (platform s) present (connected s) (outside s)).

(** [_init_device]; [new_handle] is how [import hid; self.device =
    hid.device()] ends.  On any other platform the code raises
    NotImplementedError, in Python a RuntimeError; whatever is raised here
    is logged and leaves [self.device] None. *)
Definition _init_device (new_handle : result unit) : M (state H) unit :=
  try_except
    (s <- get ;;
     if String.eqb (platform s) "darwin" then
       match new_handle with
       | Return _ => set_device true
       | Raise e => raise e
       end
     else raise (RuntimeError ("Platform " ++ platform s ++ " not supported")))
    (fun e =>
       lift (log (EvErrorExn "Device initialization error" e)) ;;
       set_device false).

(** [__init__]: the assignments, [_init_device], then the registration of
    the cleanup handlers; [registered] is how [atexit.register] and the two
    [signal.signal] end ([signal.signal] raises ValueError outside the main
    thread).  Nothing catches an exception of the registration: it leaves
    the constructor and no object is built. *)
Definition init (platform_name : string) (new_handle registered : result unit)
    (w : world H) : result (state H) :=
  match _init_device new_handle (fresh platform_name w) with
  | (Return _, s) =>
      match registered with
      | Return _ => Return s
      | Raise e => Raise e
      end
  | (Raise e, _) => Raise e
  end.

(** [open]; on a platform other than macOS the function falls off its
    end and returns None. *)
Definition open : M (state H) (option bool) :=
  try_except
    (s <- get ;;
     if negb (device_set s) then ret (Some false)
     else if String.eqb (platform s) "darwin" then
       lift (io (hid_open 0x16c0 0x05df)) ;;
       lift (io hid_get_manufacturer_string) ;;
       set_connected true ;;
       ret (Some true)
     else ret None)
    (fun e =>
       lift (log (EvErrorExn "Open error" e)) ;;
       ret (Some false)).

(** [close] *)
Definition close : M (state H) unit :=
  try_except
    (s <- get ;;
     (if device_set s && connected s then
        (if String.eqb (platform s) "darwin" then
           lift (log EvClose) ;;
           lift (io hid_close)
         else ret tt) ;;
        set_connected false
      else ret tt) ;;
     set_device false)
    (fun e => lift (log (EvErrorExn "Close error" e))).

(** [open_all_channels] and [close_all_channels]; the channel is the
    default argument 1, which these commands ignore. *)
Definition open_all_channels : M (state H) (option bool) := _send_command "OPEN_ALL" 1.
Definition close_all_channels : M (state H) (option bool) := _send_command "CLOSE_ALL" 1.

(** [cleanup] *)
Definition cleanup : M (state H) unit :=
  s <- get ;;
  if connected s then
    try_except
      (close_all_channels ;;
       lift (sleep hid_tick 100) ;;
       close)
      (fun e => lift (log (EvErrorExn "Cleanup error" e)))
  else ret tt.

(** [bool(status & (1 << i))] *)
Definition bit_set (status : Z) (i : Z) : bool :=
  negb (Z.land status (Z.shiftl 1 i) =? 0).

(** The dict comprehension of [get_status], in the order of its keys. *)
Definition status_dict (status : Z) : list (string * bool) :=
  [("relay1", bit_set status 0); ("relay2", bit_set status 1)].

(** [get_status]: the query goes through [_send_command], which reads one
    report itself; the status is taken from the report read after it. *)
Definition get_status : M (state H) (option (list (string * bool))) :=
  try_except
    (s <- get ;;
     if negb (device_set s) || negb (connected s) then ret None
     else if String.eqb (platform s) "darwin" then
       _send_command "GET_STATUS" 1 ;;
       response <- lift (io (hid_read 8 100)) ;;
       status <- getitem response 0 ;;
       ret (Some (status_dict status))
     else ret None)
    (fun e =>
       lift (log (EvErrorExn "Status error" e)) ;;
       set_connected false ;;
       ret None).

End Life.
End RelayDeviceLife.

(** The devices seen through [HidHandle]: the cable that is out refuses
    everything, the HID board opens. *)
#[global] Instance unplugged_handle : HidHandle unplugged := {
  hid_enumerate d := (Return tt, d);
  hid_open _ _ d := (Raise (IOFault "open failed"), d);
  hid_set_nonblocking d := (Raise (IOFault "not open"), d);
  hid_get_manufacturer_string d := (Raise (IOFault "not open"), d);
  hid_get_product_string d := (Raise (IOFault "not open"), d)
}.

#[global] Instance hid_board_handle : HidHandle HidBoard.hid_board := {
  hid_enumerate b := (Return tt, b);
  hid_open _ _ b := (Return tt, HidBoard.HidBoard (HidBoard.hid_relays b) true);
  hid_set_nonblocking b := (Return tt, b);
  hid_get_manufacturer_string b := (Return tt, b);
  hid_get_product_string b := (Return tt, b)
}.

(** A port on which the answer to whatever was asked shows up only
    [due] ms later. *)
Module SlowPort.

Record slow_port : Type := Slow {
  due : Z;
  line : string;
  taken : bool
}.

#[global] Instance slow_serial : SerialDevice slow_port := {
  dev_open p := (Return tt, p);
  dev_write frame p := (Return (Z.of_nat (length frame)), p);
  dev_in_waiting p :=
    (Return (if (due p <=? 0) && negb (taken p)
             then Z.of_nat (String.length (line p)) else 0), p);
  dev_read_until p :=
    if (due p <=? 0) && negb (taken p)
    then (Return (line p), Slow (due p) (line p) true)
    else (Return EmptyString, p);
  dev_tick ms p := Slow (due p - ms) (line p) (taken p)
}.

End SlowPort.

(** A port that opens and never has anything to read, and whose writes
    end the way [on_write] says. *)
Module ScriptedPort.

Record scripted : Type := Scripted { on_write : list Z -> result Z }.

#[global] Instance scripted_serial : SerialDevice scripted := {
  dev_open p := (Return tt, p);
  dev_write frame p := (on_write p frame, p);
  dev_in_waiting p := (Return 0, p);
  dev_read_until p := (Return EmptyString, p);
  dev_tick _ p := p
}.

(** Every write raises; every write comes one byte short. *)
Definition broken : scripted := Scripted (fun _ => Raise (IOFault "write failed")).
Definition short : scripted := Scripted (fun frame => Return (Z.of_nat (length frame) - 1)).

End ScriptedPort.

(** A HID device whose next [write_failures] writes raise, whose reads
    raise when [read_fails] holds and otherwise hand out the waiting input
    reports one by one (an empty list when none is left, as a read that
    times out does). *)
Module FlakyHid.

Record flaky : Type := Flaky {
  write_failures : nat;
  read_fails : bool;
  reports : list (list Z)
}.

#[global] Instance flaky_hid : HidDevice flaky := {
  hid_write frame d :=
    match write_failures d with
    | S n => (Raise (IOFault "write error"), Flaky n (read_fails d) (reports d))
    | O => (Return (Z.of_nat (length frame)), d)
    end;
  hid_read _ _ d :=
    if read_fails d then (Raise (IOFault "read error"), d)
    else match reports d with
         | r :: rest => (Return r, Flaky (write_failures d) false rest)
         | [] => (Return [], d)
         end;
  hid_close d := (Return tt, d);
  hid_tick _ d := d
}.

#[global] Instance flaky_handle : HidHandle flaky := {
  hid_enumerate d := (Return tt, d);
  hid_open _ _ d := (Return tt, d);
  hid_set_nonblocking d := (Return tt, d);
  hid_get_manufacturer_string d := (Return tt, d);
  hid_get_product_string d := (Return tt, d)
}.

End FlakyHid.

(** The serial board with a delay on its answers: the answer to a status
    query reaches the host's input buffer [latency] ms after the query was
    written (at once when [latency] is not positive).  Commands are carried
    out as on [Board.board]. *)
Module LateBoard.
Import RelayProtocol.

Record late_board : Type := Late {
  core : Board.board;
  latency : Z;
  under_way : list (Z * string)   (* answers on their way: ms left, line *)
}.

(** The answers whose time has come move to the input buffer, in order. *)
Definition arrive (b : late_board) : late_board :=
  Late (Board.with_rx (core b)
          (Board.rx (core b)
           ++ map snd (List.filter (fun a => fst a <=? 0) (under_way b))))
       (latency b)
       (List.filter (fun a => negb (fst a <=? 0)) (under_way b)).

(** What the board does with the bytes of one write. *)
Definition receive (frame : list Z) (b : late_board) : late_board :=
  match frame with
  | [q] => if (q =? QUERY_CMD) && Board.answers (core b)
           then arrive (Late (core b) (latency b)
                          (under_way b
                           ++ [(latency b, Board.status_line (Board.relays (core b)))]))
           else b
  | _ => Late (Board.receive frame (core b)) (latency b) (under_way b)
  end.

#[global] Instance late_serial : SerialDevice late_board := {
  dev_open b :=
    if Board.link_up (core b) then (Return tt, b)
    else (Raise (IOFault "could not open port"), b);
  dev_write frame b :=
    if Board.link_up (core b) then (Return (Z.of_nat (length frame)), receive frame b)
    else (Raise (IOFault "write failed"), b);
  dev_in_waiting b :=
    if Board.link_up (core b) then (Return (Board.bytes_waiting (core b)), b)
    else (Raise (IOFault "device not configured"), b);
  dev_read_until b :=
    if Board.link_up (core b) then
      match Board.rx (core b) with
      | line :: rest => (Return line, Late (Board.with_rx (core b) rest) (latency b) (under_way b))
      | [] => (Return EmptyString, b)
      end
    else (Raise (IOFault "device not configured"), b);
  dev_tick ms b :=
    arrive (Late (core b) (latency b) (map (fun a => (fst a - ms, snd a)) (under_way b)))
}.

(** A board at rest: nothing unread in the host's input buffer and no
    answer on its way. *)
Definition at_rest (b : late_board) : Prop :=
  Board.rx (core b) = [] /\ under_way b = [].

End LateBoard.

(** A tap on a driver: the device [D] goes on as it would, every frame
    [write] is called with is kept in [seen], whether or not the call then
    raises, and the calls of [close] are counted in [closes]. *)
Module Tap.

Record tapped (D : Type) : Type := Tapped {
  inner : D;
  seen : list (list Z);
  closes : nat
}.
Arguments Tapped {D} _ _ _.
Arguments inner {D} _.
Arguments seen {D} _.
Arguments closes {D} _.

Definition tapped_serial {D} `{SerialDevice D} : SerialDevice (tapped D) := {|
  dev_open t := let (r, d) := dev_open (inner t) in (r, Tapped d (seen t) (closes t));
  dev_write frame t :=
    let (r, d) := dev_write frame (inner t) in (r, Tapped d (seen t ++ [frame]) (closes t));
  dev_in_waiting t :=
    let (r, d) := dev_in_waiting (inner t) in (r, Tapped d (seen t) (closes t));
  dev_read_until t :=
    let (r, d) := dev_read_until (inner t) in (r, Tapped d (seen t) (closes t));
  dev_tick ms t := Tapped (dev_tick ms (inner t)) (seen t) (closes t)
|}.

Definition tapped_hid {H} `{HidDevice H} : HidDevice (tapped H) := {|
  hid_write frame t :=
    let (r, h) := hid_write frame (inner t) in (r, Tapped h (seen t ++ [frame]) (closes t));
  hid_read n ms t :=
    let (r, h) := hid_read n ms (inner t) in (r, Tapped h (seen t) (closes t));
  hid_close t := let (r, h) := hid_close (inner t) in (r, Tapped h (seen t) (S (closes t)));
  hid_tick ms t := Tapped (hid_tick ms (inner t)) (seen t) (closes t)
|}.

(** A controller, and a HIDRelay, with a fresh tap on its device. *)
Definition tap_serial {D} (s : Serial.state D) : Serial.state (tapped D) :=
  Serial.State (Serial.protocol s) (Serial.connected s) (Serial.relay_states s)
    (World (Tapped (device (Serial.outside s)) [] 0) (clock (Serial.outside s))
       (trace (Serial.outside s))).

Definition tap_hid {H} (s : HIDRelay.state H) : HIDRelay.state (tapped H) :=
  HIDRelay.State (HIDRelay.device_set s)
    (World (Tapped (device (HIDRelay.outside s)) [] 0) (clock (HIDRelay.outside s))
       (trace (HIDRelay.outside s))).

(** The trace and the tap agree: the frames of the trace are [base]
    followed by what the tap has seen. *)
Definition heard {D} (base : list (list Z)) (w : world (tapped D)) : Prop :=
  writes (trace w) = base ++ seen (device w).
Definition heard_by {D} (base : list (list Z)) (s : Serial.state (tapped D)) : Prop :=
  heard base (Serial.outside s).

(** [m] keeps [P]: from a state in [P] it ends in [P], whatever it
    returns or raises. *)
Definition keeps {S A} (P : S -> Prop) (m : M S A) : Prop :=
  forall s, P s -> P (snd (m s)).

End Tap.

(** ** More vocabulary *)

Module MoreProps.

(** An outcome that is a value, not an exception. *)
Definition returns {A} (r : result A) : Prop := exists a, r = Return a.

(** One attempt of [RelayDevice._send_command] fails on device [h] and
    leaves [h']: the write raises, or the write returns and the read
    raises. *)
Definition attempt_fails_on {H} `{HidDevice H} (full_cmd : list Z) (h h' : H) : Prop :=
  (exists e, hid_write full_cmd h = (Raise e, h'))
  \/ (exists n h1 e, hid_write full_cmd h = (Return n, h1)
                     /\ hid_read 8 100 h1 = (Raise e, h')).

(** [j] attempts in a row fail, each followed by the pause of 100 ms,
    taking the device from [h] to [h']. *)
Fixpoint attempts_fail {H} `{HidDevice H} (j : nat) (full_cmd : list Z) (h h' : H) : Prop :=
  match j with
  | O => h' = h
  | S j' => exists h1, attempt_fails_on full_cmd h h1
                       /\ attempts_fail j' full_cmd (hid_tick 100 h1) h'
  end.

(** The relay of a channel in the pair of the board's relays. *)
Definition channel_of (relay_num : Z) (r : bool * bool) : bool :=
  if relay_num =? 1 then fst r else snd r.

(** The public operations of RelayDevice. *)
Inductive unified_operation : Type :=
| UOpen
| UClose
| UOpenChannel (channel : Z)
| UCloseChannel (channel : Z)
| UOpenAllChannels
| UCloseAllChannels
| UGetStatus
| UCleanup.

Definition is_open_op (o : unified_operation) : bool :=
  match o with
  | UOpen => true
  | _ => false
  end.

Section UnifiedRuns.
Context {H : Type} `{HidDevice H} `{HidHandle H}.

(** The state an operation of RelayDevice leaves, whatever it returned. *)
Definition run_unified_op (o : unified_operation) (s : RelayDevice.state H)
  : RelayDevice.state H :=
  match o with
  | UOpen => snd (RelayDeviceLife.open s)
  | UClose => snd (RelayDeviceLife.close s)
  | UOpenChannel channel => snd (RelayDevice.open_channel channel s)
  | UCloseChannel channel => snd (RelayDevice.close_channel channel s)
  | UOpenAllChannels => snd (RelayDeviceLife.open_all_channels s)
  | UCloseAllChannels => snd (RelayDeviceLife.close_all_channels s)
  | UGetStatus => snd (RelayDeviceLife.get_status s)
  | UCleanup => snd (RelayDeviceLife.cleanup s)
  end.

Definition run_unified (ops : list unified_operation) (s : RelayDevice.state H)
  : RelayDevice.state H :=
  fold_left (fun s o => run_unified_op o s) ops s.

(** Whether an operation raised. *)
Definition unified_op_returns (o : unified_operation) (s : RelayDevice.state H) : Prop :=
  match o with
  | UOpen => returns (fst (RelayDeviceLife.open s))
  | UClose => returns (fst (RelayDeviceLife.close s))
  | UOpenChannel channel => returns (fst (RelayDevice.open_channel channel s))
  | UCloseChannel channel => returns (fst (RelayDevice.close_channel channel s))
  | UOpenAllChannels => returns (fst (RelayDeviceLife.open_all_channels s))
  | UCloseAllChannels => returns (fst (RelayDeviceLife.close_all_channels s))
  | UGetStatus => returns (fst (RelayDeviceLife.get_status s))
  | UCleanup => returns (fst (RelayDeviceLife.cleanup s))
  end.
End UnifiedRuns.

(** A connected RelayDevice on macOS talking to the flaky device [d]. *)
Definition flaky_session (d : FlakyHid.flaky) : RelayDevice.state FlakyHid.flaky :=
  RelayDevice.State "darwin" true true (World d 0 []).

End MoreProps.
Import MoreProps.

(** Unfold the monad's plumbing and reduce the record projections. *)
Ltac mrun :=
  cbv beta iota zeta delta
    [bind try_except ret raise get modify now io log sleep getitem
     Serial.lift Serial.set_protocol Serial.set_relay_states Serial.serial_is_open
     RelayController.error RelayController.error_exn RelayController.cached
     RelayController.set_connected
     fst snd negb device clock trace Serial.protocol Serial.connected
     Serial.relay_states Serial.outside Serial.is_open].

(** The same for the two HID classes. *)
Ltac hrun :=
  cbv beta iota zeta delta
    [bind try_except ret raise get modify now io log sleep getitem
     HIDRelay.lift fst snd negb device clock trace
     HIDRelay.device_set HIDRelay.outside].

Ltac urun :=
  cbv beta iota zeta delta
    [bind try_except ret raise get modify now io log sleep getitem
     RelayDevice.lift RelayDevice.set_connected fst snd negb orb device clock trace
     RelayDevice.platform RelayDevice.device_set RelayDevice.connected
     RelayDevice.outside].

(** Close a footprint goal whose run added nothing to the trace. *)
Ltac stay :=
  do 3 eexists; exists []; rewrite app_nil_r; split; [reflexivity|constructor].

(** * Properties *)

(** ** The serial codec *)

Section Codec.
Import RelayProtocol.

Lemma checksum_mod (data : list Z) : calculate_checksum data = sum data mod 256.
Proof.
  unfold calculate_checksum. change 0xFF with (Z.ones 8).
  rewrite Z.land_ones by lia. reflexivity.
Qed.

Lemma valid_relay_iff (n : Z) : valid_relay n = true <-> n = 1 \/ n = 2.
Proof. unfold valid_relay. rewrite orb_true_iff, !Z.eqb_eq. tauto. Qed.

Lemma build_command_valid (n : Z) (st : bool) :
  valid_relay n = true -> build_command n st = Return (frame_of n st).
Proof.
  intros Hv. unfold build_command. rewrite Hv. cbn [negb app].
  rewrite checksum_mod. unfold frame_of, sum, START_FLAG. cbn [fold_right].
  destruct st.
  - now replace (160 + (n + (1 + 0))) with (160 + n + 1) by lia.
  - now replace (160 + (n + (0 + 0))) with (160 + n + 0) by lia.
Qed.

Lemma build_command_invalid (n : Z) (st : bool) :
  valid_relay n = false ->
  build_command n st = Raise (ValueError "Relay number must be 1 or 2").
Proof. intros Hv. unfold build_command. now rewrite Hv. Qed.

(** Every byte of a command frame is a byte: [bytes(cmd)] cannot fail. *)
Lemma build_command_bytes (n : Z) (st : bool) (frame : list Z) :
  build_command n st = Return frame -> Forall (fun b => 0 <= b < 256) frame.
Proof.
  intros Hb. destruct (valid_relay n) eqn:Hv.
  - rewrite build_command_valid in Hb by assumption. injection Hb as <-.
    apply valid_relay_iff in Hv. unfold frame_of.
    repeat constructor; try lia; destruct st; try lia;
      apply Z.mod_pos_bound; lia.
  - rewrite build_command_invalid in Hb by assumption. discriminate.
Qed.

(** [contains] is Python's [in] on str: the needle occurs at some offset. *)
Lemma contains_occurs (needle haystack : string) :
  needle <> EmptyString ->
  contains needle haystack = true
  <-> exists m, substring m (String.length needle) haystack = needle.
Proof.
  intros Hne. unfold contains. split.
  - destruct (String.index 0 needle haystack) as [m|] eqn:Hi; [|discriminate].
    intros _. exists m. eapply index_correct1. exact Hi.
  - intros [m Hm]. destruct (String.index 0 needle haystack) as [m'|] eqn:Hi; [reflexivity|].
    exfalso. apply (index_correct3 0 m needle haystack Hi Hne); [apply Nat.le_0_l|exact Hm].
Qed.

(** C1: for a channel n in {1, 2} and any state, the serial build_command
    returns exactly the four bytes [0xA0, n, op, checksum], op being 0x01
    for on and 0x00 for off and the checksum the sum of the first three
    bytes modulo 256; build_command(1, On) is [0xA0, 0x01, 0x01, 0xA2] and
    build_command(2, Off) is [0xA0, 0x02, 0x00, 0xA2]. *)
Theorem serial_build_command_frame (n : Z) (st : bool) :
  n = 1 \/ n = 2 ->
  let op := if st then 0x01 else 0x00 in
  build_command n st = Return [0xA0; n; op; (0xA0 + n + op) mod 256]
  /\ build_command 1 true = Return [0xA0; 0x01; 0x01; 0xA2]
  /\ build_command 2 false = Return [0xA0; 0x02; 0x00; 0xA2].
Proof.
  intros Hn. split; [|split; reflexivity].
  apply build_command_valid. now apply valid_relay_iff.
Qed.

Lemma serial_build_command_frame_witness :
  build_command 2 true = Return [0xA0; 2; 0x01; (0xA0 + 2 + 0x01) mod 256]
  /\ build_command 1 true = Return [0xA0; 0x01; 0x01; 0xA2]
  /\ build_command 2 false = Return [0xA0; 0x02; 0x00; 0xA2].
Proof. apply (serial_build_command_frame 2 true). right. reflexivity. Defined.

End Codec.

(** ** Running the serial port code *)

Section PortFacts.
Import RelayProtocol Serial.
Context {D : Type} `{SerialDevice D}.

Lemma only_sleeps_writes t : only_sleeps t -> writes t = [].
Proof.
  induction 1 as [|e t [ms ->] _ IH]; [reflexivity|]. exact IH.
Qed.

Lemma only_sleeps_no_error t msg : only_sleeps t -> ~ In (EvError msg) t.
Proof.
  induction 1 as [|e t [ms ->] _ IH]; intros Hin; [easy|].
  destruct Hin as [Heq|Hin]; [discriminate|auto].
Qed.

Lemma writes_app t1 t2 : writes (t1 ++ t2) = writes t1 ++ writes t2.
Proof.
  induction t1 as [|e t1 IH]; [reflexivity|].
  destruct e; cbn; rewrite ?IH; reflexivity.
Qed.

Lemma sleeps_app t1 t2 : sleeps (t1 ++ t2) = sleeps t1 ++ sleeps t2.
Proof.
  induction t1 as [|e t1 IH]; [reflexivity|].
  destruct e; cbn; rewrite ?IH; reflexivity.
Qed.

Lemma commands_app t1 t2 : commands (t1 ++ t2) = commands t1 ++ commands t2.
Proof. unfold commands. rewrite writes_app. apply List.filter_app. Qed.

(** The polling loop touches neither the object nor the wire's output: it
    only sleeps. *)
Lemma poll_footprint fuel start tm p c l d k t :
  exists r d' k' t',
    poll fuel start tm (State p c l (World d k t))
    = (r, State p c l (World d' k' (t ++ t'))) /\ only_sleeps t'.
Proof.
  revert d k t. induction fuel as [|fuel IH]; intros d k t.
  - exists (Return None), d, k, []. rewrite app_nil_r. split; [reflexivity|constructor].
  - cbn [poll]. mrun.
    destruct (k - start <? tm); [|stay].
    destruct (dev_in_waiting d) as [[n|e] d1]; [|stay].
    destruct (n =? 0); mrun.
    + destruct (IH (dev_tick 10 d1) (k + 10) (t ++ [EvSleep 10]))
        as (r & d' & k' & t' & -> & Hs).
      exists r, d', k', (EvSleep 10 :: t'). rewrite <- app_assoc. split; [reflexivity|].
      constructor; eauto.
    + destruct (dev_read_until d1) as [[raw|e] d2]; [|stay].
      unfold decode_ascii. destruct (forallb _ _); mrun; stay.
Qed.

Lemma added_app (t t' : list event) : added t (t ++ t') = t'.
Proof.
  unfold added. rewrite skipn_app, Nat.sub_diag, skipn_all. reflexivity.
Qed.

(** [send_command] on an open port: one write, whose outcome decides. *)
Lemma send_command_open cmd c l d k t :
  send_command cmd (State (Some (Protocol true)) c l (World d k t))
  = match dev_write cmd d with
    | (Return n, d') =>
        (Return (n =? Z.of_nat (length cmd)),
         State (Some (Protocol true)) c l (World d' k (t ++ [EvWrite cmd])))
    | (Raise e, d') =>
        (Raise e, State (Some (Protocol true)) c l (World d' k (t ++ [EvWrite cmd])))
    end.
Proof.
  unfold send_command. mrun. destruct (dev_write cmd d) as [[n|e] d']; reflexivity.
Qed.

(** [send_command] on a closed port raises before any write. *)
Lemma send_command_closed cmd (s : state D) :
  protocol s = Some (Protocol false) ->
  send_command cmd s = (Raise (RuntimeError "Serial port not open"), s).
Proof.
  intros Hp. destruct s as [p c l w]. cbn in Hp. subst p.
  unfold send_command. mrun. reflexivity.
Qed.

Lemma read_response_footprint tm c l d k t :
  exists r d' k' t',
    read_response tm (State (Some (Protocol true)) c l (World d k t))
    = (r, State (Some (Protocol true)) c l (World d' k' (t ++ t'))) /\ only_sleeps t'.
Proof. unfold read_response. mrun. apply poll_footprint. Qed.

(** A status query on an open port: the query byte goes out, then the host
    only sleeps. *)
Lemma query_status_footprint c l d k t :
  exists r d' k' t',
    query_status (State (Some (Protocol true)) c l (World d k t))
    = (r, State (Some (Protocol true)) c l
            (World d' k' (t ++ EvWrite [QUERY_CMD] :: t')))
    /\ only_sleeps t'.
Proof.
  unfold query_status. unfold bind at 1. rewrite send_command_open.
  destruct (dev_write [QUERY_CMD] d) as [[n|e] d1].
  - unfold bind.
    destruct (read_response_footprint 100 c l d1 k (t ++ [EvWrite [QUERY_CMD]]))
      as (r & d' & k' & t' & -> & Hs).
    rewrite <- app_assoc. cbn [app].
    destruct r as [[[|ch text]|]|e]; mrun; eauto 10.
  - exists (Raise e), d1, k, []. split; [reflexivity|constructor].
Qed.

(** With no data in sight the polling loop runs out its time. *)
Lemma poll_silent n : forall fuel start tm p c l d k t,
  (n < fuel)%nat -> no_data n d -> k - start = tm - 10 * Z.of_nat n ->
  poll fuel start tm (State p c l (World d k t))
  = (Return None,
     State p c l (World (idle n d) (k + 10 * Z.of_nat n) (t ++ repeat (EvSleep 10) n))).
Proof.
  induction n as [|n IH]; intros fuel start tm p c l d k t Hf Hq Hk.
  - destruct fuel as [|fuel]; [lia|]. cbn [poll]. mrun.
    replace (k - start <? tm) with false by (symmetry; apply Z.ltb_ge; lia).
    cbn [repeat idle]. rewrite app_nil_r.
    replace (k + 10 * Z.of_nat 0) with k by lia. reflexivity.
  - destruct fuel as [|fuel]; [lia|]. cbn [poll idle]. mrun.
    replace (k - start <? tm) with true by (symmetry; apply Z.ltb_lt; lia).
    destruct Hq as (d1 & -> & Hq). cbn [Z.eqb snd].
    rewrite (IH fuel start tm p c l (dev_tick 10 d1) (k + 10) (t ++ [EvSleep 10]));
      [|lia|assumption|lia].
    rewrite <- app_assoc. cbn [repeat app].
    replace (k + 10 + 10 * Z.of_nat n) with (k + 10 * Z.of_nat (S n)) by lia.
    reflexivity.
Qed.

(** Data that is already there is read at the first look. *)
Lemma read_response_ready c l d k t n d1 raw d2 :
  dev_in_waiting d = (Return n, d1) -> n <> 0 ->
  dev_read_until d1 = (Return raw, d2) ->
  forallb (fun ch => (nat_of_ascii ch <? 128)%nat) (list_ascii_of_string raw) = true ->
  read_response 100 (State (Some (Protocol true)) c l (World d k t))
  = (Return (Some raw), State (Some (Protocol true)) c l (World d2 k t)).
Proof.
  intros Hin Hn Hrd Hascii. unfold read_response. mrun. cbn [poll]. mrun.
  rewrite Z.sub_diag. change (0 <? 100) with true. mrun. rewrite Hin.
  apply Z.eqb_neq in Hn. rewrite Hn. mrun. rewrite Hrd.
  unfold decode_ascii. rewrite Hascii. reflexivity.
Qed.

Lemma read_response_silent c l d k t :
  no_data 10 d ->
  read_response 100 (State (Some (Protocol true)) c l (World d k t))
  = (Return None,
     State (Some (Protocol true)) c l
       (World (idle 10 d) (k + 100) (t ++ repeat (EvSleep 10) 10))).
Proof.
  intros Hq. unfold read_response. mrun.
  rewrite (poll_silent 10 (S (Z.to_nat 100)) k 100 (Some (Protocol true)) c l d k t);
    [reflexivity|cbn; lia|assumption|lia].
Qed.

End PortFacts.

(** ** Status queries that get no answer *)

Section NoResponse.
Import RelayProtocol Serial RelayController.
Context {D : Type} `{SerialDevice D}.

(** More fuel than the timeout asks for changes nothing: the cut-off of
    [poll] is never what ends the loop. *)
Lemma poll_fuel_enough fuel : forall start tm p c l d k t,
  tm - (k - start) <= 10 * Z.of_nat fuel ->
  poll (S fuel) start tm (State p c l (World d k t))
  = poll fuel start tm (State p c l (World d k t)).
Proof.
  induction fuel as [|fuel IH]; intros start tm p c l d k t Hk.
  - cbn [poll]. mrun.
    replace (k - start <? tm) with false by (symmetry; apply Z.ltb_ge; lia).
    reflexivity.
  - change (poll (S (S fuel))) with (fun start tm =>
      t <- lift now ;;
      if (t - start) <? tm then
        n <- lift (io dev_in_waiting) ;;
        if negb (n =? 0) then
          raw <- lift (io dev_read_until) ;;
          text <- decode_ascii raw ;;
          ret (Some text)
        else
          lift (sleep dev_tick 10) ;;
          poll (S fuel) start tm
      else ret None).
    cbn [poll]. mrun.
    destruct (k - start <? tm); [|reflexivity].
    destruct (dev_in_waiting d) as [[n|e] d1]; [|reflexivity].
    destruct (n =? 0); [|reflexivity].
    apply (IH start tm p c l (dev_tick 10 d1) (k + 10) (t ++ [EvSleep 10])). lia.
Qed.

Lemma query_status_silent c l d k t n d1 :
  dev_write [QUERY_CMD] d = (Return n, d1) -> no_data 10 d1 ->
  query_status (State (Some (Protocol true)) c l (World d k t))
  = (Raise (RuntimeError "No response to status query"),
     State (Some (Protocol true)) c l
       (World (idle 10 d1) (k + 100)
          ((t ++ [EvWrite [QUERY_CMD]]) ++ repeat (EvSleep 10) 10))).
Proof.
  intros Hw Hq. unfold query_status. unfold bind at 1.
  rewrite send_command_open, Hw. unfold bind.
  rewrite (read_response_silent c l d1 k (t ++ [EvWrite [QUERY_CMD]]) Hq).
  reflexivity.
Qed.

(** C3 (as amended): when the status query is written and no data arrives
    during the 100 ms of polling, read_response returns None at the end of
    the timeout, query_status turns that into RuntimeError "No response to
    status query", and the controller's get_relay_states catches the error
    and returns the cached states, leaving the cache, the connected flag and
    the port as they were. *)
Theorem silent_query_outcome (s : state D) (n : Z) (d1 : D) :
  protocol s = Some (Protocol true) ->
  dev_write [QUERY_CMD] (device (outside s)) = (Return n, d1) ->
  no_data 10 d1 ->
  (let s1 := snd (send_command [QUERY_CMD] s) in
   fst (read_response 100 s1) = Return None
   /\ clock (outside (snd (read_response 100 s1))) = clock (outside s) + 100)
  /\ fst (query_status s) = Raise (RuntimeError "No response to status query")
  /\ (connected s = true ->
      fst (get_relay_states s) = Return (relay_states s)
      /\ relay_states (snd (get_relay_states s)) = relay_states s
      /\ connected (snd (get_relay_states s)) = true
      /\ protocol (snd (get_relay_states s)) = protocol s).
Proof.
  destruct s as [p c l [d k t]]. cbn [protocol outside device connected relay_states clock].
  intros -> Hw Hq. split; [|split].
  - rewrite send_command_open, Hw. cbn [snd].
    rewrite (read_response_silent c l d1 k (t ++ [EvWrite [QUERY_CMD]]) Hq).
    split; reflexivity.
  - rewrite (query_status_silent c l d k t n d1 Hw Hq). reflexivity.
  - intros ->. unfold get_relay_states. mrun.
    rewrite (query_status_silent true l d k t n d1 Hw Hq).
    repeat split; reflexivity.
Qed.

End NoResponse.

Lemma silent_query_outcome_witness :
  fst (Serial.query_status (session Board.mute [true; false]))
  = Raise (RuntimeError "No response to status query")
  /\ fst (RelayController.get_relay_states (session Board.mute [true; false]))
     = Return [true; false].
Proof.
  destruct (silent_query_outcome (session Board.mute [true; false]) 1 Board.mute)
    as (_ & Hq & Hg).
  - reflexivity.
  - reflexivity.
  - cbn. repeat (eexists; split; [reflexivity|]). exact I.
  - split; [exact Hq|]. apply Hg. reflexivity.
Defined.

(** C3, the claim as stated fails: on a board that does not answer,
    query_status does not return an absent mapping, it raises. *)
Lemma silent_query_raises :
  fst (Serial.query_status (session Board.mute [false; false]))
  = Raise (RuntimeError "No response to status query")
  /\ forall absent, fst (Serial.query_status (session Board.mute [false; false]))
                    <> Return absent.
Proof. split; [vm_compute; reflexivity | intros absent; vm_compute; discriminate]. Qed.

(** ** What one controller call can do *)

Section ControllerFacts.
Import RelayProtocol Serial RelayController.
Context {D : Type} `{SerialDevice D}.

Lemma benign_nil : benign [].
Proof. split; [reflexivity|intros msg []]. Qed.

Lemma benign_app t1 t2 : benign t1 -> benign t2 -> benign (t1 ++ t2).
Proof.
  intros [Hc1 He1] [Hc2 He2]. split.
  - rewrite commands_app, Hc1, Hc2. reflexivity.
  - intros msg Hin. apply in_app_or in Hin. destruct Hin; [eapply He1|eapply He2]; eauto.
Qed.

Lemma benign_sleeps t : only_sleeps t -> benign t.
Proof.
  intros Hs. split.
  - unfold commands. rewrite only_sleeps_writes by assumption. reflexivity.
  - intros msg. now apply only_sleeps_no_error.
Qed.

Lemma benign_query t : benign t -> benign (EvWrite [QUERY_CMD] :: t).
Proof.
  intros [Hc He]. split.
  - unfold commands in *. cbn. exact Hc.
  - intros msg [Heq|Hin]; [discriminate|eapply He; eauto].
Qed.

Lemma benign_exn msg e : benign [EvErrorExn msg e].
Proof. split; [reflexivity|]. intros m [Heq|[]]. discriminate. Qed.

(** [get_relay_states] of a connected controller never raises; it returns
    the cache it leaves, which is the old one or a fresh pair; it sends no
    command frame. *)
Lemma get_relay_states_footprint p l d k t :
  exists l' d' k' t',
    get_relay_states (State p true l (World d k t))
    = (Return l', State p true l' (World d' k' (t ++ t')))
    /\ (l' = l \/ exists r1 r2, l' = [r1; r2])
    /\ benign t'.
Proof.
  unfold get_relay_states. mrun.
  destruct p as [[[|]]|].
  - destruct (query_status_footprint true l d k t) as (r & d' & k' & t' & -> & Hs).
    destruct r as [[r1 r2]|e]; mrun.
    + exists [r1; r2], d', k', (EvWrite [QUERY_CMD] :: t'). split; [reflexivity|].
      split; [eauto|]. apply benign_query, benign_sleeps, Hs.
    + eexists l, d', k', _. rewrite <- app_assoc. split; [reflexivity|].
      split; [auto|]. cbn [app].
      apply benign_query. apply benign_app; [apply benign_sleeps, Hs|apply benign_exn].
  - unfold query_status. unfold bind at 1. rewrite send_command_closed by reflexivity.
    mrun. eexists l, d, k, _. split; [reflexivity|]. split; [auto|apply benign_exn].
  - unfold query_status, send_command. mrun.
    eexists l, d, k, _. split; [reflexivity|]. split; [auto|apply benign_exn].
Qed.

Lemma commands_frame n st : commands [EvWrite (frame_of n st)] = [frame_of n st].
Proof. reflexivity. Qed.

Lemma fresh_or_same_length (l l' : list bool) :
  l' = l \/ (exists r1 r2, l' = [r1; r2]) -> length l = 2%nat -> length l' = 2%nat.
Proof. intros [->|(r1 & r2 & ->)] Hl; [exact Hl|reflexivity]. Qed.

Lemma lookup_none_two (l : list bool) (i : Z) :
  l !! Z.to_nat i = None -> length l = 2%nat -> (i = 0 \/ i = 1) -> False.
Proof.
  intros Hn Hl Hi. apply lookup_ge_None in Hn. destruct Hi as [-> | ->]; cbn in Hn; lia.
Qed.

(** The pieces of trace a call of [set_relay] is made of. *)
Ltac cmds :=
  rewrite ?commands_app, ?commands_frame;
  repeat match goal with
         | Hb : benign ?t |- context [commands ?t] => rewrite (proj1 Hb)
         end;
  try (left; reflexivity); try (right; reflexivity); try reflexivity.

Ltac no_verification_error Hin :=
  repeat (apply in_app_or in Hin; destruct Hin as [Hin|Hin]);
  try (destruct Hin as [Hin|[]]; discriminate Hin);
  match goal with
  | Hb : benign ?t, Hin : In _ ?t |- _ => exact (False_ind _ (proj2 Hb _ Hin))
  end.

(** One call of [set_relay], whatever the device does: it returns a bool
    and never raises; it keeps the port and the connected flag; a cache of
    two stays a cache of two; it writes at most one command frame, the frame
    of the request, and exactly that one on an open port; a logged
    verification failure means the cache holds the opposite of the request;
    a True result means the cache holds the request. *)
Lemma set_relay_spec n st p c l d k t :
  exists b l' d' k' t',
    set_relay n st (State p c l (World d k t))
    = (Return b, State p c l' (World d' k' (t ++ t')))
    /\ (length l = 2%nat -> length l' = 2%nat)
    /\ (commands t' = [] \/ commands t' = [frame_of n st])
    /\ (c = true -> valid_relay n = true -> length l = 2%nat ->
        p = Some (Protocol true) -> commands t' = [frame_of n st])
    /\ (In (EvError "Relay state verification failed!") t' ->
        b = false /\ l' !! Z.to_nat (n - 1) = Some (negb st))
    /\ (b = true -> l' !! Z.to_nat (n - 1) = Some st).
Proof.
  unfold set_relay. mrun.
  destruct c.
  2:{ eexists false, l, d, k, _. split; [reflexivity|].
      split; [auto|]. split; [left; reflexivity|]. split; [intros; discriminate|].
      split; [|discriminate]. intros [Hin|[]]; discriminate Hin. }
  mrun. destruct (valid_relay n) eqn:Hv.
  2:{ eexists false, l, d, k, _. split; [reflexivity|].
      split; [auto|]. split; [left; reflexivity|]. split; [intros; discriminate|].
      split; [|discriminate]. intros [Hin|[]]; discriminate Hin. }
  mrun.
  destruct (get_relay_states_footprint p l d k t) as (l1 & d1 & k1 & t1 & -> & Hl1 & Hb1).
  pose proof (fresh_or_same_length _ _ Hl1) as Hlen1.
  assert (Hvn : n - 1 = 0 \/ n - 1 = 1) by (apply valid_relay_iff in Hv; lia).
  mrun.
  destruct (l1 !! Z.to_nat 0) as [a0|] eqn:H0.
  2:{ eexists false, l1, d1, k1, _. rewrite <- !app_assoc. split; [reflexivity|].
      split; [exact Hlen1|]. split; [cmds|]. split.
      - intros _ _ Hl _. exfalso. eapply (lookup_none_two l1 0); eauto.
      - split; [|discriminate]. intros Hin. no_verification_error Hin. }
  destruct (l1 !! Z.to_nat 1) as [a1|] eqn:H1.
  2:{ eexists false, l1, d1, k1, _. rewrite <- !app_assoc. split; [reflexivity|].
      split; [exact Hlen1|]. split; [cmds|]. split.
      - intros _ _ Hl _. exfalso. eapply (lookup_none_two l1 1); eauto.
      - split; [|discriminate]. intros Hin. no_verification_error Hin. }
  unfold Serial.set_relay. rewrite (build_command_valid n st Hv).
  destruct p as [[[|]]|].
  2:{ rewrite send_command_closed by reflexivity. mrun.
      eexists false, l1, d1, k1, _. rewrite <- !app_assoc. split; [reflexivity|].
      split; [exact Hlen1|]. split; [cmds|]. split; [intros; discriminate|].
      split; [|discriminate]. intros Hin. no_verification_error Hin. }
  2:{ unfold send_command. mrun.
      eexists false, l1, d1, k1, _. rewrite <- !app_assoc. split; [reflexivity|].
      split; [exact Hlen1|]. split; [cmds|]. split; [intros; discriminate|].
      split; [|discriminate]. intros Hin. no_verification_error Hin. }
  rewrite send_command_open.
  destruct (dev_write (frame_of n st) d1) as [[n0|e] d2].
  2:{ mrun. eexists false, l1, d2, k1, _. rewrite <- !app_assoc. split; [reflexivity|].
      split; [exact Hlen1|]. split; [cmds|]. split; [intros; cmds|].
      split; [|discriminate]. intros Hin. no_verification_error Hin. }
  mrun. destruct (n0 =? Z.of_nat (length (frame_of n st))).
  2:{ mrun. eexists false, l1, d2, k1, _. rewrite <- !app_assoc. split; [reflexivity|].
      split; [exact Hlen1|]. split; [cmds|]. split; [intros; cmds|].
      split; [|discriminate]. intros Hin. no_verification_error Hin. }
  unfold setitem_relay_states. mrun.
  destruct (Z.to_nat (n - 1) <? length l1)%nat eqn:Hi.
  2:{ mrun. eexists false, l1, d2, k1, _. rewrite <- !app_assoc. split; [reflexivity|].
      split; [exact Hlen1|]. split; [cmds|]. split; [intros; cmds|].
      split; [|discriminate]. intros Hin. no_verification_error Hin. }
  mrun.
  destruct (get_relay_states_footprint (Some (Protocol true))
              (<[Z.to_nat (n - 1) := st]> l1) (dev_tick 100 d2) (k1 + 100)
              (((t ++ t1) ++ [EvWrite (frame_of n st)]) ++ [EvSleep 100]))
    as (l2 & d3 & k3 & t2 & -> & Hl2 & Hb2).
  assert (Hlen2 : length l = 2%nat -> length l2 = 2%nat).
  { intros Hl. apply (fresh_or_same_length _ _ Hl2). rewrite length_insert. auto. }
  mrun.
  destruct (l2 !! Z.to_nat (n - 1)) as [actual|] eqn:Hact.
  2:{ eexists false, l2, d3, k3, _. rewrite <- !app_assoc. split; [reflexivity|].
      split; [exact Hlen2|]. split; [cmds|]. split; [intros; cmds|].
      split; [|discriminate]. intros Hin. no_verification_error Hin. }
  destruct (Bool.eqb actual st) eqn:Heq.
  { eexists true, l2, d3, k3, _. rewrite <- !app_assoc. split; [reflexivity|].
    split; [exact Hlen2|]. split; [cmds|]. split; [intros; cmds|].
    split.
    - intros Hin. no_verification_error Hin.
    - intros _. apply eqb_prop in Heq. now subst actual. }
  mrun.
  assert (Hneg : actual = negb st) by (destruct actual, st; (reflexivity || discriminate Heq)).
  subst actual.
  destruct (l2 !! Z.to_nat 0) as [b0|] eqn:H20.
  2:{ eexists false, l2, d3, k3, _. rewrite <- !app_assoc. split; [reflexivity|].
      split; [exact Hlen2|]. split; [cmds|]. split; [intros; cmds|].
      split; [|discriminate]. intros _. split; [reflexivity|exact Hact]. }
  destruct (l2 !! Z.to_nat 1) as [b1|] eqn:H21.
  2:{ eexists false, l2, d3, k3, _. rewrite <- !app_assoc. split; [reflexivity|].
      split; [exact Hlen2|]. split; [cmds|]. split; [intros; cmds|].
      split; [|discriminate]. intros _. split; [reflexivity|exact Hact]. }
  eexists false, l2, d3, k3, _. rewrite <- !app_assoc. split; [reflexivity|].
  split; [exact Hlen2|]. split; [cmds|]. split; [intros; cmds|].
  split; [|discriminate]. intros _. split; [reflexivity|exact Hact].
Qed.

End ControllerFacts.

(** ** The HID profiles *)

Section HidFacts.
Context {H : Type} `{HidDevice H}.

(** [HIDRelay.send_command] on a connected object returns a bool and hands
    the driver exactly one frame: the report id 0 followed by the data. *)
Lemma hid_send_command_frame data (h : H) k t :
  exists b h' k' t',
    HIDRelay.send_command data (HIDRelay.State true (World h k t))
    = (Return b, HIDRelay.State true (World h' k' (t ++ t')))
    /\ writes t' = [0x00 :: data].
Proof.
  unfold HIDRelay.send_command. hrun.
  destruct (hid_write ([0] ++ data) h) as [[n|e] h1].
  - destruct (hid_read 64 100 (hid_tick 50 h1)) as [[resp|e] h2];
      eexists true, _, _, _; rewrite <- !app_assoc; (split; [reflexivity|]); reflexivity.
  - eexists false, _, _, _. rewrite <- !app_assoc. split; reflexivity.
Qed.

(** [HIDRelay.close] on a connected object: the all-off frame, then the
    handle is closed; nothing is raised. *)
Lemma hid_close_frame (h : H) k t :
  exists h' k' t',
    HIDRelay.close (HIDRelay.State true (World h k t))
    = (Return tt, HIDRelay.State true (World h' k' (t ++ t')))
    /\ writes t' = [[0x00; 0x00]] /\ In EvClose t'.
Proof.
  unfold HIDRelay.close. hrun. unfold HIDRelay.set_all_relays.
  destruct (hid_send_command_frame [0x00] h k t) as (b & h1 & k1 & t1 & -> & Hw).
  hrun. destruct (hid_close h1) as [[[]|e] h2];
    eexists _, _, (t1 ++ [EvClose]); rewrite <- !app_assoc;
    (split; [reflexivity|]); rewrite writes_app, Hw;
    (split; [reflexivity|apply in_or_app; right; left; reflexivity]).
Qed.

(** C8 (as amended), the HID frames as hid_relay.py writes them: for
    each of the six commands of a connected HIDRelay the frame handed
    to the driver is exactly two bytes, the report id 0 and the opcode of
    the table (relay 1 on 0xFE, off 0x01; relay 2 on 0xFD, off 0x02; all on
    0xFF; all off 0x00), with no padding; the padding to eight bytes is what
    RelayDevice of relay_unified.py does to its own three-byte commands. *)
Theorem hid_frames_two_bytes (s : HIDRelay.state H) :
  HIDRelay.device_set s = true ->
  let frames (m : M (HIDRelay.state H) bool) :=
    writes (added (trace (HIDRelay.outside s))
                  (trace (HIDRelay.outside (snd (m s))))) in
  frames (HIDRelay.set_relay 1 true) = [[0x00; 0xFE]]
  /\ frames (HIDRelay.set_relay 1 false) = [[0x00; 0x01]]
  /\ frames (HIDRelay.set_relay 2 true) = [[0x00; 0xFD]]
  /\ frames (HIDRelay.set_relay 2 false) = [[0x00; 0x02]]
  /\ frames (HIDRelay.set_all_relays true) = [[0x00; 0xFF]]
  /\ frames (HIDRelay.set_all_relays false) = [[0x00; 0x00]]
  /\ (forall name cmd channel,
        RelayDevice.HID_COMMANDS name = Some cmd ->
        length (RelayDevice.pad8 (cmd channel)) = 8%nat
        /\ exists opcode c, RelayDevice.pad8 (cmd channel) = [0; opcode; c; 0; 0; 0; 0; 0]).
Proof.
  destruct s as [ds [h k t]]. cbn [HIDRelay.device_set HIDRelay.outside]. intros ->.
  assert (Hf : forall data,
    writes (added t
      (trace (HIDRelay.outside
                (snd (HIDRelay.send_command data (HIDRelay.State true (World h k t)))))))
    = [0 :: data]).
  { intros data.
    destruct (hid_send_command_frame data h k t) as (b & h' & k' & t' & -> & Hw).
    cbn [snd HIDRelay.outside trace]. rewrite added_app. exact Hw. }
  do 6 (split; [apply Hf|]).
  intros name cmd channel Hc. unfold RelayDevice.HID_COMMANDS in Hc.
  repeat match type of Hc with
         | (if ?c then _ else _) = _ => destruct c
         end; inversion Hc; (split; [reflexivity|do 2 eexists; reflexivity]).
Qed.

End HidFacts.

Lemma hid_frames_two_bytes_witness :
  writes (trace (HIDRelay.outside (snd (HIDRelay.set_relay 1 true hid_session))))
  = [[0x00; 0xFE]]
  /\ writes (trace (HIDRelay.outside (snd (HIDRelay.set_all_relays false hid_session))))
     = [[0x00; 0x00]].
Proof.
  destruct (hid_frames_two_bytes hid_session) as (H1 & _ & _ & _ & _ & H6 & _).
  - reflexivity.
  - split; [exact H1|exact H6].
Defined.

(** C8, the claim as stated fails: the frame hid_relay.py writes for
    "relay 1 on" is two bytes long; it is not the frame padded to the eight
    bytes of a report. *)
Lemma hid_frame_not_padded :
  let frames :=
    writes (trace (HIDRelay.outside (snd (HIDRelay.set_relay 1 true hid_session)))) in
  frames = [[0x00; 0xFE]]
  /\ map (@length Z) frames = [2%nat]
  /\ frames <> [RelayDevice.pad8 [0x00; 0xFE]].
Proof. vm_compute. repeat split; discriminate. Qed.

(** ** Channel numbers outside 1 and 2 *)

Section InvalidChannel.
Import RelayProtocol.

(** C4 (as amended): for a channel id outside {1, 2} and any state, the
    serial build_command, RelayProtocol.set_relay and the HID set_relay
    raise ValueError "Relay number must be 1 or 2" at once, with no I/O and
    the state untouched; the connected RelayController.set_relay returns
    False with nothing but the error line "Invalid relay number", no write,
    no sleep, no retry and no exception; a controller that is not connected
    returns False for that reason instead. *)
Theorem invalid_channel_outcomes {D} `{SerialDevice D} {Dh} `{HidDevice Dh}
    (c : Z) (st : bool) (s : Serial.state D) (hs : HIDRelay.state Dh) :
  c <> 1 -> c <> 2 ->
  build_command c st = Raise (ValueError "Relay number must be 1 or 2")
  /\ Serial.set_relay c st s
     = (Raise (ValueError "Relay number must be 1 or 2"), s)
  /\ HIDRelay.set_relay c st hs
     = (Raise (ValueError "Relay number must be 1 or 2"), hs)
  /\ (Serial.connected s = true ->
      exists s',
        RelayController.set_relay c st s = (Return false, s')
        /\ added (trace (Serial.outside s)) (trace (Serial.outside s'))
           = [EvError "Invalid relay number. Must be 1 or 2"]
        /\ device (Serial.outside s') = device (Serial.outside s)
        /\ Serial.relay_states s' = Serial.relay_states s)
  /\ (Serial.connected s = false ->
      exists s',
        RelayController.set_relay c st s = (Return false, s')
        /\ added (trace (Serial.outside s)) (trace (Serial.outside s'))
           = [EvError "Not connected to relay"]).
Proof.
  intros Hc1 Hc2.
  assert (Hv : valid_relay c = false).
  { destruct (valid_relay c) eqn:Hv; [|reflexivity].
    apply valid_relay_iff in Hv. tauto. }
  split; [now apply build_command_invalid|].
  split; [unfold Serial.set_relay; now rewrite build_command_invalid|].
  split; [unfold HIDRelay.set_relay; now rewrite Hv|].
  destruct s as [p cn l [d k t]]. cbn [Serial.connected Serial.outside trace].
  split; intros ->; unfold RelayController.set_relay; mrun; rewrite ?Hv; mrun;
    eexists; (split; [reflexivity|]); cbn [Serial.outside trace device Serial.relay_states];
    rewrite added_app; auto.
Qed.

End InvalidChannel.

Lemma invalid_channel_outcomes_witness :
  RelayProtocol.build_command 3 true = Raise (ValueError "Relay number must be 1 or 2")
  /\ fst (RelayController.set_relay 3 true (session Board.healthy [false; false]))
     = Return false.
Proof.
  destruct (invalid_channel_outcomes 3 true (session Board.healthy [false; false])
              hid_session) as (Hb & _ & _ & Hc & _); [lia|lia|].
  split; [exact Hb|].
  destruct (Hc eq_refl) as (s' & Heq & _). now rewrite Heq.
Defined.

(** C4, the claim as stated fails: for channel 3 the HID set_relay does not
    return an outcome, it raises, and nothing in HIDRelay catches it; and a
    serial controller that is not connected answers channel 3 with the
    "Not connected" failure, not with the invalid-channel one. *)
Lemma hid_invalid_channel_raises :
  HIDRelay.set_relay 3 true hid_session
  = (Raise (ValueError "Relay number must be 1 or 2"), hid_session)
  /\ (forall outcome s', HIDRelay.set_relay 3 true hid_session <> (Return outcome, s'))
  /\ trace (Serial.outside
              (snd (RelayController.set_relay 3 true
                      (RelayController.init (World Board.healthy 0 [])))))
     = [EvError "Not connected to relay"].
Proof.
  split; [reflexivity|]. split; [|reflexivity].
  intros outcome s'. vm_compute. discriminate.
Qed.

(** ** The cache after a failed verification *)

Section Verification.
Import RelayProtocol Serial RelayController.
Context {D : Type} `{SerialDevice D}.

(** C10 (as amended): set_relay writes the requested state into the cache
    before the read-back, but the read-back replaces the cache with what the
    device reports; so a call that logs the verification failure returns
    False and leaves, for the channel, the observed state, which is the
    opposite of the requested one; the cache holds the requested state
    whenever the call returns True. *)
Theorem verification_failure_cache (s : state D) (n : Z) (st : bool) :
  In (EvError "Relay state verification failed!")
     (added (trace (outside s)) (trace (outside (snd (set_relay n st s))))) ->
  fst (set_relay n st s) = Return false
  /\ relay_states (snd (set_relay n st s)) !! Z.to_nat (n - 1) = Some (negb st)
  /\ relay_states (snd (set_relay n st s)) !! Z.to_nat (n - 1) <> Some st.
Proof.
  destruct s as [p c l [d k t]].
  destruct (set_relay_spec n st p c l d k t)
    as (b & l' & d' & k' & t' & -> & _ & _ & _ & Hver & _).
  cbn [fst snd outside trace relay_states]. rewrite added_app. intros Hin.
  destruct (Hver Hin) as [-> Hl]. rewrite Hl.
  repeat split. destruct st; discriminate.
Qed.

(** A True result means the cache holds the request. *)
Lemma set_relay_true_cache (s : state D) (n : Z) (st : bool) :
  fst (set_relay n st s) = Return true ->
  relay_states (snd (set_relay n st s)) !! Z.to_nat (n - 1) = Some st.
Proof.
  destruct s as [p c l [d k t]].
  destruct (set_relay_spec n st p c l d k t)
    as (b & l' & d' & k' & t' & -> & _ & _ & _ & _ & Htrue).
  cbn [fst snd relay_states]. intros Hb. apply Htrue. congruence.
Qed.

End Verification.

Lemma verification_failure_cache_witness :
  fst (RelayController.set_relay 1 true (session (Board.stuck 1) [false; false]))
  = Return false
  /\ Serial.relay_states
       (snd (RelayController.set_relay 1 true (session (Board.stuck 1) [false; false])))
     !! Z.to_nat (1 - 1) = Some (negb true)
  /\ Serial.relay_states
       (snd (RelayController.set_relay 1 true (session (Board.stuck 1) [false; false])))
     !! Z.to_nat (1 - 1) <> Some true.
Proof.
  apply (verification_failure_cache (session (Board.stuck 1) [false; false]) 1 true).
  vm_compute. tauto.
Defined.

(** C10, the claim as stated fails: relay 1 is jammed off, set_relay(1,
    True) writes the frame in full, the read-back reports the relay off, the
    call returns False after logging the verification failure, and the
    cache for channel 1 is the observed False, not the requested True. *)
Lemma failed_verification_keeps_observed :
  let s := session (Board.stuck 1) [false; false] in
  let s' := snd (RelayController.set_relay 1 true s) in
  fst (RelayController.set_relay 1 true s) = Return false
  /\ writes (trace (Serial.outside s')) = [[0xFF]; [0xA0; 0x01; 0x01; 0xA2]; [0xFF]]
  /\ In (EvError "Relay state verification failed!") (trace (Serial.outside s'))
  /\ Serial.relay_states s' = [false; false]
  /\ Serial.relay_states s' !! 0%nat <> Some true.
Proof. vm_compute. repeat split; try tauto; discriminate. Qed.

(** ** Write failures: who retries *)

Section WriteFailures.
Import RelayProtocol.

(** One failed attempt of [RelayDevice._send_command]: the last one
    re-raises, any other pauses and goes on. *)
Lemma attempt_fails {Dh} `{HidDevice Dh} full_cmd attempt rest pf ds c (h h' : Dh) e k t :
  hid_write full_cmd h = (Raise e, h') ->
  RelayDevice.attempts full_cmd (attempt :: rest)
    (RelayDevice.State pf ds c (World h k t))
  = if attempt =? Z.of_nat RelayDevice.max_retries - 1
    then (Raise e, RelayDevice.State pf ds c (World h' k (t ++ [EvWrite full_cmd])))
    else RelayDevice.attempts full_cmd rest
           (RelayDevice.State pf ds c
              (World (hid_tick RelayDevice.retry_delay_ms h')
                 (k + RelayDevice.retry_delay_ms)
                 ((t ++ [EvWrite full_cmd]) ++ [EvSleep RelayDevice.retry_delay_ms]))).
Proof.
  intros Hw. cbn [RelayDevice.attempts]. urun. rewrite Hw.
  destruct (attempt =? Z.of_nat RelayDevice.max_retries - 1); reflexivity.
Qed.

(** The three attempts of [RelayDevice._send_command] when every write
    raises: write, pause, write, pause, write, and the last error goes up. *)
Lemma attempts_all_fail {Dh} `{HidDevice Dh} full_cmd pf ds c (h : Dh) k t :
  (forall f h0, exists e h', hid_write f h0 = (Raise e, h')) ->
  exists e h',
    RelayDevice.attempts full_cmd (range RelayDevice.max_retries)
      (RelayDevice.State pf ds c (World h k t))
    = (Raise e,
       RelayDevice.State pf ds c
         (World h' (k + RelayDevice.retry_delay_ms + RelayDevice.retry_delay_ms)
            (t ++ [EvWrite full_cmd; EvSleep RelayDevice.retry_delay_ms;
                   EvWrite full_cmd; EvSleep RelayDevice.retry_delay_ms;
                   EvWrite full_cmd]))).
Proof.
  intros Hfail. change (range RelayDevice.max_retries) with [0; 1; 2].
  destruct (Hfail full_cmd h) as (e1 & h1 & Hw1).
  rewrite (attempt_fails _ _ _ _ _ _ _ _ _ _ _ Hw1). cbn [Z.eqb].
  change (0 =? Z.of_nat RelayDevice.max_retries - 1) with false. cbv iota.
  destruct (Hfail full_cmd (hid_tick RelayDevice.retry_delay_ms h1)) as (e2 & h2 & Hw2).
  rewrite (attempt_fails _ _ _ _ _ _ _ _ _ _ _ Hw2).
  change (1 =? Z.of_nat RelayDevice.max_retries - 1) with false. cbv iota.
  destruct (Hfail full_cmd (hid_tick RelayDevice.retry_delay_ms h2)) as (e3 & h3 & Hw3).
  rewrite (attempt_fails _ _ _ _ _ _ _ _ _ _ _ Hw3).
  change (2 =? Z.of_nat RelayDevice.max_retries - 1) with true. cbv iota.
  exists e3, h3. rewrite <- !app_assoc. reflexivity.
Qed.

(** [_send_command] of a connected RelayDevice on macOS when every write
    raises: three attempts, then False and the device marked
    disconnected. *)
Lemma unified_send_all_fail {Dh} `{HidDevice Dh} name cmd channel (h : Dh) k t :
  (forall f h0, exists e h', hid_write f h0 = (Raise e, h')) ->
  RelayDevice.HID_COMMANDS name = Some cmd ->
  exists e h',
    RelayDevice._send_command name channel
      (RelayDevice.State "darwin" true true (World h k t))
    = (Return (Some false),
       RelayDevice.State "darwin" true false
         (World h' (k + RelayDevice.retry_delay_ms + RelayDevice.retry_delay_ms)
            (t ++ [EvWrite (RelayDevice.pad8 (cmd channel));
                   EvSleep RelayDevice.retry_delay_ms;
                   EvWrite (RelayDevice.pad8 (cmd channel));
                   EvSleep RelayDevice.retry_delay_ms;
                   EvWrite (RelayDevice.pad8 (cmd channel));
                   EvErrorExn "Command error" e]))).
Proof.
  intros Hfail Hc. unfold RelayDevice._send_command. urun.
  cbn [String.eqb Ascii.eqb Bool.eqb]. cbv iota. rewrite Hc.
  destruct (attempts_all_fail (RelayDevice.pad8 (cmd channel)) "darwin" true true h k t Hfail)
    as (e & h' & ->).
  exists e, h'. rewrite <- app_assoc. reflexivity.
Qed.

(** A status query whose write raises leaves the cache alone. *)
Lemma get_relay_states_write_fails {D} `{SerialDevice D} l (d d' : D) e k t :
  dev_write [QUERY_CMD] d = (Raise e, d') ->
  RelayController.get_relay_states
    (Serial.State (Some (Serial.Protocol true)) true l (World d k t))
  = (Return l,
     Serial.State (Some (Serial.Protocol true)) true l
       (World d' k (t ++ [EvWrite [QUERY_CMD];
                          EvErrorExn "Error reading relay states" e]))).
Proof.
  intros Hw. unfold RelayController.get_relay_states. mrun.
  unfold Serial.query_status. unfold bind at 1. rewrite send_command_open, Hw.
  mrun. rewrite <- app_assoc. reflexivity.
Qed.

(** The serial controller when every write raises: the status query fails,
    the command frame is tried once, and the call returns False. *)
Lemma set_relay_all_fail {D} `{SerialDevice D} n st c0 c1 (d : D) k t :
  (forall f d0, exists e d', dev_write f d0 = (Raise e, d')) ->
  valid_relay n = true ->
  exists e1 e2 d',
    RelayController.set_relay n st
      (Serial.State (Some (Serial.Protocol true)) true [c0; c1] (World d k t))
    = (Return false,
       Serial.State (Some (Serial.Protocol true)) true [c0; c1]
         (World d' k
            (t ++ [EvWrite [QUERY_CMD];
                   EvErrorExn "Error reading relay states" e1;
                   EvWrite (frame_of n st);
                   EvErrorExn "Error setting relay" e2]))).
Proof.
  intros Hfail Hv. unfold RelayController.set_relay. mrun. rewrite Hv. mrun.
  destruct (Hfail [QUERY_CMD] d) as (e1 & d1 & Hw1).
  rewrite (get_relay_states_write_fails _ _ _ _ _ _ Hw1). mrun.
  change ([c0; c1] !! Z.to_nat 0) with (Some c0).
  change ([c0; c1] !! Z.to_nat 1) with (Some c1). mrun.
  unfold Serial.set_relay. rewrite (build_command_valid n st Hv).
  rewrite send_command_open.
  destruct (Hfail (frame_of n st) d1) as (e2 & d2 & ->). mrun.
  exists e1, e2, d2. rewrite <- !app_assoc. reflexivity.
Qed.

(** C2 (as amended): when every write attempt fails, open_channel and
    close_channel of RelayDevice (relay_unified.py) make exactly max_retries
    = 3 write attempts of the padded frame with the fixed 100 ms pause
    between consecutive attempts, then return False and mark the device
    disconnected; set_relay of the serial RelayController makes a single
    attempt to write the command frame, without pause, and returns False on
    that first failure. *)
Theorem write_failure_attempts {Dh} `{HidDevice Dh} {D} `{SerialDevice D}
    (hs : RelayDevice.state Dh) (ss : Serial.state D) (n : Z) (st : bool) :
  (forall f h, exists e h', hid_write f h = (Raise e, h')) ->
  (forall f d, exists e d', dev_write f d = (Raise e, d')) ->
  RelayDevice.platform hs = "darwin" ->
  RelayDevice.device_set hs = true ->
  RelayDevice.connected hs = true ->
  Serial.connected ss = true ->
  Serial.protocol ss = Some (Serial.Protocol true) ->
  length (Serial.relay_states ss) = 2%nat ->
  n = 1 \/ n = 2 ->
  let retried (set_channel : Z -> M (RelayDevice.state Dh) (option bool)) (opcode : Z) :=
    exists e hs',
      set_channel n hs = (Return (Some false), hs')
      /\ added (trace (RelayDevice.outside hs)) (trace (RelayDevice.outside hs'))
         = [EvWrite [0x0; opcode; n; 0; 0; 0; 0; 0]; EvSleep 100;
            EvWrite [0x0; opcode; n; 0; 0; 0; 0; 0]; EvSleep 100;
            EvWrite [0x0; opcode; n; 0; 0; 0; 0; 0];
            EvErrorExn "Command error" e]
      /\ length (writes (added (trace (RelayDevice.outside hs))
                               (trace (RelayDevice.outside hs'))))
         = RelayDevice.max_retries
      /\ RelayDevice.connected hs' = false in
  retried RelayDevice.open_channel 0xFF
  /\ retried RelayDevice.close_channel 0xFD
  /\ (exists e1 e2 ss',
        RelayController.set_relay n st ss = (Return false, ss')
        /\ added (trace (Serial.outside ss)) (trace (Serial.outside ss'))
           = [EvWrite [QUERY_CMD]; EvErrorExn "Error reading relay states" e1;
              EvWrite (frame_of n st); EvErrorExn "Error setting relay" e2]
        /\ commands (added (trace (Serial.outside ss)) (trace (Serial.outside ss')))
           = [frame_of n st]
        /\ sleeps (added (trace (Serial.outside ss)) (trace (Serial.outside ss'))) = []).
Proof.
  intros Hhid Hser Hpf Hds Hcn Hc Hp Hl Hn.
  destruct hs as [pf ds cn [h hk ht]]. cbn in Hpf, Hds, Hcn. subst pf ds cn.
  destruct ss as [p c l [d k t]]. cbn in Hc, Hp, Hl. subst p c.
  destruct l as [|c0 [|c1 [|c2 l]]]; try discriminate Hl.
  cbv zeta. split; [|split].
  - destruct (unified_send_all_fail "OPEN_ONE" (fun channel => [0x0; 0xFF; channel])
                n h hk ht Hhid eq_refl) as (e & h' & E).
    exists e. eexists. split; [exact E|].
    cbn [RelayDevice.outside trace RelayDevice.connected]. rewrite added_app.
    repeat split.
  - destruct (unified_send_all_fail "CLOSE_ONE" (fun channel => [0x0; 0xFD; channel])
                n h hk ht Hhid eq_refl) as (e & h' & E).
    exists e. eexists. split; [exact E|].
    cbn [RelayDevice.outside trace RelayDevice.connected]. rewrite added_app.
    repeat split.
  - destruct (set_relay_all_fail n st c0 c1 d k t Hser) as (e1 & e2 & d' & ->).
    { now apply valid_relay_iff. }
    exists e1, e2. eexists. split; [reflexivity|].
    cbn [Serial.outside trace]. rewrite added_app. repeat split.
Qed.

End WriteFailures.

Lemma write_failure_attempts_witness :
  fst (RelayDevice.open_channel 1 lost_unified) = Return (Some false)
  /\ fst (RelayDevice.close_channel 1 lost_unified) = Return (Some false)
  /\ fst (RelayController.set_relay 1 true (lost_session [false; false])) = Return false.
Proof.
  destruct (write_failure_attempts lost_unified (lost_session [false; false]) 1 true)
    as ((e & hs' & Hu & _) & (e' & hs'' & Hu' & _) & (e1 & e2 & ss' & Hs & _)).
  - intros f h. exists (IOFault "write error"), h. reflexivity.
  - intros f d. exists (IOFault "write failed"), d. reflexivity.
  - reflexivity.
  - reflexivity.
  - reflexivity.
  - reflexivity.
  - reflexivity.
  - reflexivity.
  - left. reflexivity.
  - rewrite Hu, Hu', Hs. repeat split.
Defined.

(** C2, the claim as stated fails for the serial controller: with every
    write failing, set_relay(1, True) tries the command frame once, not
    max_retries times, sleeps between nothing, and returns False on that
    first failure. *)
Lemma serial_set_relay_single_attempt :
  let s := lost_session [false; false] in
  let s' := snd (RelayController.set_relay 1 true s) in
  fst (RelayController.set_relay 1 true s) = Return false
  /\ commands (trace (Serial.outside s')) = [[0xA0; 0x01; 0x01; 0xA2]]
  /\ length (commands (trace (Serial.outside s'))) <> RelayDevice.max_retries
  /\ sleeps (trace (Serial.outside s')) = [].
Proof. vm_compute. repeat split; discriminate. Qed.

(** ** cleanup *)

Section Cleanup.
Import RelayProtocol Serial RelayController.
Context {D : Type} `{SerialDevice D}.

(** [set_relay] of a connected controller whose port is closed: both the
    query and the command raise before any write. *)
Lemma set_relay_port_closed n st c0 c1 (d : D) k t :
  valid_relay n = true ->
  set_relay n st (State (Some (Protocol false)) true [c0; c1] (World d k t))
  = (Return false,
     State (Some (Protocol false)) true [c0; c1]
       (World d k
          (t ++ [EvErrorExn "Error reading relay states" (RuntimeError "Serial port not open");
                 EvErrorExn "Error setting relay" (RuntimeError "Serial port not open")]))).
Proof.
  intros Hv. unfold set_relay. mrun. rewrite Hv. mrun.
  unfold get_relay_states. mrun.
  unfold query_status. unfold bind at 1. rewrite send_command_closed by reflexivity.
  mrun.
  change ([c0; c1] !! Z.to_nat 0) with (Some c0).
  change ([c0; c1] !! Z.to_nat 1) with (Some c1). mrun.
  unfold Serial.set_relay. rewrite (build_command_valid n st Hv).
  rewrite send_command_closed by reflexivity. mrun.
  rewrite <- app_assoc. reflexivity.
Qed.

(** [cleanup] of a connected controller on an open port. *)
Lemma cleanup_open l (d : D) k t :
  length l = 2%nat ->
  exists l' d' k' t1 t2,
    cleanup (State (Some (Protocol true)) true l (World d k t))
    = (Return tt,
       State (Some (Protocol false)) true l'
         (World d' k' (t ++ t1 ++ [EvSleep 100] ++ t2 ++ [EvSleep 100; EvClose])))
    /\ commands t1 = [frame_of 1 false]
    /\ commands t2 = [frame_of 2 false]
    /\ length l' = 2%nat.
Proof.
  intros Hl. unfold cleanup. mrun. cbn [switch_off]. mrun.
  destruct (set_relay_spec 1 false (Some (Protocol true)) true l d k t)
    as (b1 & l1 & d1 & k1 & t1 & -> & Hl1 & _ & Hc1 & _).
  mrun.
  destruct (set_relay_spec 2 false (Some (Protocol true)) true l1
              (dev_tick 100 d1) (k1 + 100) ((t ++ t1) ++ [EvSleep 100]))
    as (b2 & l2 & d2 & k2 & t2 & -> & Hl2 & _ & Hc2 & _).
  mrun. unfold close. mrun.
  exists l2, (dev_tick 100 d2), (k2 + 100), t1, t2.
  split; [|split; [|split]]; auto.
  rewrite <- !app_assoc. reflexivity.
Qed.

(** [cleanup] once more, the port being closed: both [set_relay] fail
    before any write and sleep all the same; the device is only left to
    tick, the cache and the flags are as they were. *)
Lemma cleanup_closed c0 c1 (d : D) k t :
  cleanup (State (Some (Protocol false)) true [c0; c1] (World d k t))
  = (Return tt,
     State (Some (Protocol false)) true [c0; c1]
       (World (dev_tick 100 (dev_tick 100 d)) (k + 100 + 100)
          (t ++ [EvErrorExn "Error reading relay states" (RuntimeError "Serial port not open");
                 EvErrorExn "Error setting relay" (RuntimeError "Serial port not open");
                 EvSleep 100;
                 EvErrorExn "Error reading relay states" (RuntimeError "Serial port not open");
                 EvErrorExn "Error setting relay" (RuntimeError "Serial port not open");
                 EvSleep 100]))).
Proof.
  unfold cleanup. mrun. cbn [switch_off]. mrun.
  rewrite set_relay_port_closed by reflexivity. mrun.
  rewrite set_relay_port_closed by reflexivity. mrun.
  unfold close. mrun. rewrite <- !app_assoc. reflexivity.
Qed.

End Cleanup.

(** ** What the driver is handed: the trace against a tap on the device *)

Section Keeping.
Import Tap.

Lemma keeps_ret {S A} (P : S -> Prop) (a : A) : keeps P (ret a).
Proof. intros s Hs. exact Hs. Qed.

Lemma keeps_raise {S A} (P : S -> Prop) (e : exn) : keeps P (@raise S A e).
Proof. intros s Hs. exact Hs. Qed.

Lemma keeps_get {S} (P : S -> Prop) : keeps P get.
Proof. intros s Hs. exact Hs. Qed.

Lemma keeps_modify {S} (P : S -> Prop) (f : S -> S) :
  (forall s, P s -> P (f s)) -> keeps P (modify f).
Proof. intros Hf s Hs. apply Hf, Hs. Qed.

Lemma keeps_bind {S A B} (P : S -> Prop) (m : M S A) (k : A -> M S B) :
  keeps P m -> (forall a, keeps P (k a)) -> keeps P (bind m k).
Proof.
  intros Hm Hk s Hs. unfold bind. specialize (Hm s Hs).
  destruct (m s) as [[a|e] s']; cbn [snd] in *; [apply Hk|]; assumption.
Qed.

Lemma keeps_try {S A} (P : S -> Prop) (m : M S A) (h : exn -> M S A) :
  keeps P m -> (forall e, keeps P (h e)) -> keeps P (try_except m h).
Proof.
  intros Hm Hh s Hs. unfold try_except. specialize (Hm s Hs).
  destruct (m s) as [[a|e] s']; cbn [snd] in *; [|apply Hh]; assumption.
Qed.

End Keeping.

Section Tapping.
Import RelayProtocol Serial RelayController Tap.
Context {D : Type} `{SerialDevice D}.
#[local] Existing Instance tapped_serial.

Lemma heard_lift {A} base (m : M (world (tapped D)) A) :
  keeps (heard base) m -> keeps (heard_by base) (lift m).
Proof.
  intros Hm [p c l w] Hs. unfold lift. cbn [outside]. specialize (Hm w Hs).
  destruct (m w) as [r w']. exact Hm.
Qed.

Lemma heard_fields base (f : state (tapped D) -> state (tapped D)) :
  (forall s, outside (f s) = outside s) -> keeps (heard_by base) (modify f).
Proof.
  intros Hf. apply keeps_modify. intros s Hs. unfold heard_by. rewrite Hf. exact Hs.
Qed.

Lemma heard_log base (e : event) :
  writes [e] = [] -> keeps (heard (D:=D) base) (log e).
Proof.
  intros He [d k t] Hs. unfold heard in *. cbn [log modify snd trace device] in *.
  rewrite writes_app, He, app_nil_r. exact Hs.
Qed.

Lemma heard_sleep base ms : keeps (heard (D:=D) base) (sleep dev_tick ms).
Proof.
  intros [[d sn cl] k t] Hs. unfold heard in *. cbn [sleep modify snd trace device] in *.
  rewrite writes_app, app_nil_r. exact Hs.
Qed.

Lemma heard_now base : keeps (heard (D:=D) base) now.
Proof. intros w Hs. exact Hs. Qed.

Lemma heard_in_waiting base : keeps (heard (D:=D) base) (io dev_in_waiting).
Proof.
  intros [[d sn cl] k t] Hs. unfold heard, io in *. cbn [device trace] in *.
  cbn [dev_in_waiting tapped_serial inner seen closes].
  destruct (dev_in_waiting d) as [r d1]. exact Hs.
Qed.

Lemma heard_read_until base : keeps (heard (D:=D) base) (io dev_read_until).
Proof.
  intros [[d sn cl] k t] Hs. unfold heard, io in *. cbn [device trace] in *.
  cbn [dev_read_until tapped_serial inner seen closes].
  destruct (dev_read_until d) as [r d1]. exact Hs.
Qed.

(** [send_command] is where the frame is handed to the driver: the trace
    and the tap get it together. *)
Lemma heard_send_command base cmd : keeps (heard_by base) (send_command cmd).
Proof.
  intros [p c l [[d sn cl] k t]] Hs. unfold send_command, serial_is_open. mrun.
  destruct p as [[[|]]|]; mrun; try exact Hs.
  cbn [dev_write tapped_serial inner seen closes].
  destruct (dev_write cmd d) as [[n|e] d1];
    unfold heard_by, heard in *; cbn [snd outside trace device seen] in *;
    rewrite writes_app, Hs, app_assoc; reflexivity.
Qed.

Ltac keeping :=
  repeat first
    [ assumption
    | match goal with
      | H : forall _, _ |- keeps _ _ => solve [apply H]
      | |- keeps _ (ret _) => apply keeps_ret
      | |- keeps _ (raise _) => apply keeps_raise
      | |- keeps _ get => apply keeps_get
      | |- keeps _ (send_command _) => apply heard_send_command
      | |- keeps _ (lift _) =>
          apply heard_lift;
          first [ apply heard_now | apply heard_in_waiting | apply heard_read_until
                | apply heard_sleep | apply heard_log; reflexivity ]
      | |- keeps _ (modify _) => apply heard_fields; intros ?; reflexivity
      | |- keeps _ (bind _ _) => apply keeps_bind; [|intros ?; cbv beta]
      | |- keeps _ (try_except _ _) => apply keeps_try; [|intros ?; cbv beta]
      | |- keeps _ (if ?b then _ else _) => destruct b
      | |- keeps _ (match ?x with _ => _ end) => destruct x
      end ].

Lemma heard_poll base fuel : forall start tm, keeps (heard_by base) (poll fuel start tm).
Proof.
  induction fuel as [|fuel IH]; intros start tm; cbn [poll].
  - keeping.
  - unfold decode_ascii. keeping.
Qed.

Lemma heard_read_response base tm : keeps (heard_by base) (read_response tm).
Proof.
  pose proof (heard_poll base) as Hp.
  unfold read_response, serial_is_open. keeping.
Qed.

Lemma heard_query_status base : keeps (heard_by base) query_status.
Proof.
  pose proof (heard_read_response base) as Hr.
  unfold query_status. keeping.
Qed.

Lemma heard_get_relay_states base : keeps (heard_by base) get_relay_states.
Proof.
  pose proof (heard_query_status base) as Hq.
  unfold get_relay_states, error, error_exn, cached, set_relay_states. keeping.
Qed.

Lemma heard_set_relay base n st : keeps (heard_by base) (set_relay n st).
Proof.
  pose proof (heard_get_relay_states base) as Hg.
  unfold set_relay, Serial.set_relay, setitem_relay_states, set_relay_states,
    error, error_exn, getitem.
  keeping.
Qed.

Lemma heard_cleanup base : keeps (heard_by base) cleanup.
Proof.
  pose proof (heard_set_relay base 1 false) as H1.
  pose proof (heard_set_relay base 2 false) as H2.
  unfold cleanup, close, serial_is_open, set_protocol, error_exn. cbn [switch_off].
  keeping.
Qed.

End Tapping.

Section HidTapping.
Import Tap.
Context {H : Type} `{HidDevice H}.
#[local] Existing Instance tapped_hid.

(** [HIDRelay.send_command] with a tap on the device: the driver's write
    is called once, with the report id 0 followed by the data; the handle
    is not closed. *)
Lemma hid_send_command_tap data (h : H) sn cl k t :
  exists b h' k' t',
    HIDRelay.send_command data (HIDRelay.State true (World (Tapped h sn cl) k t))
    = (Return b,
       HIDRelay.State true (World (Tapped h' (sn ++ [0x00 :: data]) cl) k' (t ++ t'))).
Proof.
  unfold HIDRelay.send_command. hrun.
  cbn [hid_write hid_read hid_tick tapped_hid inner seen closes].
  change ([0] ++ data) with (0 :: data).
  destruct (hid_write (0 :: data) h) as [[n|e] h1].
  - cbn [inner seen closes]. destruct (hid_read 64 100 (hid_tick 50 h1)) as [[resp|e] h2];
      eexists true, _, _, _; rewrite <- !app_assoc; reflexivity.
  - eexists false, _, _, _. rewrite <- !app_assoc. reflexivity.
Qed.

(** [HIDRelay.close] with a tap on the device: the driver's write has been
    handed the all-off frame, and nothing else, and the driver's close has
    been called once. *)
Lemma hid_close_tap (h : H) k t :
  let h1 := device (HIDRelay.outside
                      (snd (HIDRelay.close (HIDRelay.State true (World (Tapped h [] 0) k t))))) in
  seen h1 = [[0x00; 0x00]] /\ closes h1 = 1%nat.
Proof.
  cbv zeta. unfold HIDRelay.close. hrun. unfold HIDRelay.set_all_relays.
  destruct (hid_send_command_tap [0x00] h [] 0%nat k t) as (b & h1 & k1 & t1 & ->).
  hrun. cbn [hid_close tapped_hid inner seen closes].
  destruct (hid_close h1) as [[[]|e] h2]; split; reflexivity.
Qed.

End HidTapping.

Section CleanupClaim.
Import RelayProtocol Serial RelayController Tap.
#[local] Existing Instance tapped_serial.
#[local] Existing Instance tapped_hid.

(** C5 (as amended): cleanup of a connected controller on an open port
    hands the driver the off frame of channel 1 and then of channel 2 (a
    tap on the driver's write sees exactly these two command frames),
    whatever the cache held and whatever the device does with them, never
    fails, and closes the port.  It never clears [connected]: a second call
    returns normally and calls the driver no more (the device is only left
    to tick), the port, the cache and the flags stay, but it is not a
    no-op: both [set_relay] fail on the closed port, four errors are logged
    and the two pauses of 100 ms are slept.  Only on a controller whose
    [connected] is False is cleanup a no-op.  The HID close hands the driver
    its single all-off frame and calls the driver's close once, swallowing
    every error; it never resets [self.device], so a second close hands the
    driver the same frame again; without a device it is a no-op. *)
Theorem cleanup_switches_off_and_closes {D} `{SerialDevice D} {Dh} `{HidDevice Dh}
    (s : state D) (hs : HIDRelay.state Dh) :
  length (relay_states s) = 2%nat ->
  (connected s = false -> cleanup s = (Return tt, s))
  /\ (connected s = true -> protocol s = Some (Protocol true) ->
      let s1 := snd (cleanup s) in
      let s2 := snd (cleanup s1) in
      fst (cleanup s) = Return tt
      /\ commands (added (trace (outside s)) (trace (outside s1)))
         = [[0xA0; 0x01; 0x00; 0xA1]; [0xA0; 0x02; 0x00; 0xA2]]
      /\ List.filter (fun frame => negb (is_query frame))
           (seen (device (outside (snd (cleanup (tap_serial s))))))
         = [[0xA0; 0x01; 0x00; 0xA1]; [0xA0; 0x02; 0x00; 0xA2]]
      /\ In EvClose (added (trace (outside s)) (trace (outside s1)))
      /\ protocol s1 = Some (Protocol false)
      /\ connected s1 = true
      /\ fst (cleanup s1) = Return tt
      /\ added (trace (outside s1)) (trace (outside s2))
         = [EvErrorExn "Error reading relay states" (RuntimeError "Serial port not open");
            EvErrorExn "Error setting relay" (RuntimeError "Serial port not open");
            EvSleep 100;
            EvErrorExn "Error reading relay states" (RuntimeError "Serial port not open");
            EvErrorExn "Error setting relay" (RuntimeError "Serial port not open");
            EvSleep 100]
      /\ device (outside s2) = dev_tick 100 (dev_tick 100 (device (outside s1)))
      /\ protocol s2 = Some (Protocol false)
      /\ relay_states s2 = relay_states s1
      /\ connected s2 = true)
  /\ (HIDRelay.device_set hs = false -> HIDRelay.close hs = (Return tt, hs))
  /\ (HIDRelay.device_set hs = true ->
      let h1 := snd (HIDRelay.close hs) in
      let h2 := snd (HIDRelay.close h1) in
      fst (HIDRelay.close hs) = Return tt
      /\ writes (added (trace (HIDRelay.outside hs)) (trace (HIDRelay.outside h1)))
         = [[0x00; 0x00]]
      /\ seen (device (HIDRelay.outside (snd (HIDRelay.close (tap_hid hs)))))
         = [[0x00; 0x00]]
      /\ closes (device (HIDRelay.outside (snd (HIDRelay.close (tap_hid hs))))) = 1%nat
      /\ In EvClose (added (trace (HIDRelay.outside hs)) (trace (HIDRelay.outside h1)))
      /\ HIDRelay.device_set h1 = true
      /\ fst (HIDRelay.close h1) = Return tt
      /\ writes (added (trace (HIDRelay.outside h1)) (trace (HIDRelay.outside h2)))
         = [[0x00; 0x00]]
      /\ In EvClose (added (trace (HIDRelay.outside h1)) (trace (HIDRelay.outside h2)))).
Proof.
  destruct s as [p c l [d k t]]. destruct hs as [ds [h hk ht]].
  cbn [relay_states connected protocol outside trace HIDRelay.device_set HIDRelay.outside].
  intros Hl. split; [|split; [|split]].
  - intros ->. reflexivity.
  - intros -> ->. cbv zeta.
    assert (Htap : List.filter (fun frame => negb (is_query frame))
              (seen (device (outside (snd (cleanup
                 (tap_serial (State (Some (Protocol true)) true l (World d k t))))))))
            = [[0xA0; 0x01; 0x00; 0xA1]; [0xA0; 0x02; 0x00; 0xA2]]).
    { pose proof (heard_cleanup (writes t)
                    (tap_serial (State (Some (Protocol true)) true l (World d k t)))) as Hk.
      unfold heard_by, heard in Hk.
      unfold tap_serial in *. cbn [protocol connected relay_states outside device clock trace] in *.
      destruct (cleanup_open l (Tapped d [] 0%nat) k t Hl)
        as (l' & d' & k' & t1 & t2 & E & Hc1 & Hc2 & _).
      rewrite E in *. cbn [snd outside trace device seen] in *.
      specialize (Hk (eq_sym (app_nil_r _))).
      rewrite writes_app in Hk. apply app_inv_head in Hk. rewrite <- Hk.
      change (List.filter (fun frame => negb (is_query frame))
                (writes (t1 ++ [EvSleep 100] ++ t2 ++ [EvSleep 100; EvClose])))
        with (commands (t1 ++ [EvSleep 100] ++ t2 ++ [EvSleep 100; EvClose])).
      rewrite !commands_app, Hc1, Hc2. reflexivity. }
    destruct (cleanup_open l d k t Hl) as (l' & d' & k' & t1 & t2 & -> & Hc1 & Hc2 & Hl').
    cbn [fst snd outside trace protocol relay_states connected device].
    destruct l' as [|c0 [|c1 [|c2 l']]]; try discriminate Hl'.
    rewrite cleanup_closed.
    cbn [fst snd outside trace protocol relay_states connected device].
    rewrite !added_app, !commands_app, Hc1, Hc2.
    split; [reflexivity|]. split; [reflexivity|]. split; [exact Htap|].
    split; [|repeat split].
    rewrite !in_app_iff. do 3 right. right. left. reflexivity.
  - intros ->. reflexivity.
  - intros ->. cbv zeta.
    destruct (hid_close_tap h hk ht) as [Htap Hcl].
    destruct (hid_close_frame h hk ht) as (h' & k' & t' & -> & Hw & Hin).
    cbn [fst snd HIDRelay.outside HIDRelay.device_set trace].
    destruct (hid_close_frame h' k' (ht ++ t')) as (h'' & k'' & t'' & -> & Hw' & Hin').
    cbn [fst snd HIDRelay.outside trace]. rewrite !added_app.
    repeat split; assumption.
Qed.

End CleanupClaim.

Lemma cleanup_switches_off_and_closes_witness :
  fst (RelayController.cleanup (session (Board.stuck 1) [true; true])) = Return tt
  /\ commands (trace (Serial.outside
                        (snd (RelayController.cleanup (session (Board.stuck 1) [true; true])))))
     = [[0xA0; 0x01; 0x00; 0xA1]; [0xA0; 0x02; 0x00; 0xA2]]
  /\ fst (HIDRelay.close hid_session) = Return tt.
Proof.
  destruct (cleanup_switches_off_and_closes (session (Board.stuck 1) [true; true]) hid_session)
    as (_ & Hc & _ & Hh); [reflexivity|].
  destruct Hc as (Hr & Hcmd & _); [reflexivity|reflexivity|].
  destruct Hh as (Hhr & _); [reflexivity|].
  split; [exact Hr|]. split; [exact Hcmd|exact Hhr].
Defined.

(** C5, the claim as stated fails: after a cleanup the port is closed, yet
    [connected] is still True and a second cleanup is not a no-op: it
    changes the controller's world, sleeping twice 100 ms; and a second
    HID close hands the all-off frame to the closed handle again. *)
Lemma cleanup_again_is_not_a_noop :
  let s1 := snd (RelayController.cleanup (session Board.healthy [false; false])) in
  let h1 := snd (HIDRelay.close hid_session) in
  Serial.protocol s1 = Some (Serial.Protocol false)
  /\ Serial.connected s1 = true
  /\ RelayController.cleanup s1 <> (Return tt, s1)
  /\ sleeps (added (trace (Serial.outside s1))
                   (trace (Serial.outside (snd (RelayController.cleanup s1)))))
     = [100; 100]
  /\ HIDRelay.close h1 <> (Return tt, h1)
  /\ writes (added (trace (HIDRelay.outside h1))
                   (trace (HIDRelay.outside (snd (HIDRelay.close h1)))))
     = [[0x00; 0x00]].
Proof. vm_compute. repeat split; discriminate. Qed.

(** ** set_all_relays *)

Section SetAll.
Import RelayProtocol Serial RelayController.

(** C6: set_all_relays of a connected controller sets channel 1, then
    channel 2; a failure of channel 1 ends the call with False in the very
    state that failure left, channel 2 untouched; a failure of channel 2
    ends it with False in the state that failure left, nothing being written
    after it; the only command frames ever written are those of the
    requested state, so nothing is rolled back.  On a board whose relay 2
    is jammed in the other position, channel 1 succeeds, the call reports
    the failure, and relay 1 and its cache stay at the requested state. *)
Theorem set_all_relays_in_order {D} `{SerialDevice D}
    (s : state D) (st r1 c0 c1 : bool) :
  connected s = true ->
  protocol s = Some (Protocol true) ->
  length (relay_states s) = 2%nat ->
  (exists b1 s1,
     set_relay 1 st s = (Return b1, s1)
     /\ commands (added (trace (outside s)) (trace (outside s1))) = [frame_of 1 st]
     /\ (b1 = false -> set_all_relays st s = (Return false, s1))
     /\ (b1 = true ->
         relay_states s1 !! 0%nat = Some st
         /\ exists b2 s2,
              set_relay 2 st (snd (lift (sleep dev_tick 100) s1)) = (Return b2, s2)
              /\ commands (added (trace (outside s)) (trace (outside s2)))
                 = [frame_of 1 st; frame_of 2 st]
              /\ (b2 = false -> set_all_relays st s = (Return false, s2))
              /\ (b2 = true ->
                  set_all_relays st s
                  = (Return true, snd (lift (sleep dev_tick 100) s2)))))
  /\ (let s0 := session (Board.Board true true [2] (r1, negb st) []) [c0; c1] in
      let s' := snd (set_all_relays st s0) in
      fst (set_relay 1 st s0) = Return true
      /\ fst (set_all_relays st s0) = Return false
      /\ Board.relays (device (outside s')) = (st, negb st)
      /\ relay_states s' = [st; negb st]
      /\ commands (trace (outside s')) = [frame_of 1 st; frame_of 2 st]).
Proof.
  destruct s as [p c l [d k t]].
  cbn [relay_states connected protocol outside trace]. intros -> -> Hl.
  split.
  - destruct (set_relay_spec 1 st (Some (Protocol true)) true l d k t)
      as (b1 & l1 & d1 & k1 & t1 & E1 & Hl1 & _ & Hc1 & _ & Ht1).
    exists b1. eexists. split; [exact E1|].
    cbn [outside trace relay_states]. rewrite added_app.
    split; [auto|]. split.
    + intros ->. unfold set_all_relays. mrun. cbn [set_each]. unfold bind at 1.
      rewrite E1. reflexivity.
    + intros ->. split; [apply Ht1; reflexivity|]. mrun.
      destruct (set_relay_spec 2 st (Some (Protocol true)) true l1
                  (dev_tick 100 d1) (k1 + 100) ((t ++ t1) ++ [EvSleep 100]))
        as (b2 & l2 & d2 & k2 & t2 & E2 & Hl2 & _ & Hc2 & _).
      exists b2. eexists. split; [exact E2|].
      cbn [outside trace]. split.
      { rewrite <- !app_assoc, added_app, !commands_app.
        rewrite Hc1, Hc2 by auto. reflexivity. }
      split; intros ->; unfold set_all_relays; mrun; cbn [set_each];
        unfold bind at 1; rewrite E1; mrun; rewrite E2; reflexivity.
  - destruct st, r1, c0, c1; vm_compute; repeat split.
Qed.

End SetAll.

Lemma set_all_relays_in_order_witness :
  let s0 := session (Board.Board true true [2] (false, false) []) [false; false] in
  fst (RelayController.set_all_relays true s0) = Return false
  /\ Board.relays (device (Serial.outside (snd (RelayController.set_all_relays true s0))))
     = (true, false)
  /\ Serial.relay_states (snd (RelayController.set_all_relays true s0)) = [true; false].
Proof.
  destruct (set_all_relays_in_order
              (session (Board.Board true true [2] (false, false) []) [false; false])
              true false false false) as (_ & _ & Hr & Hb & Hc & _);
    [reflexivity|reflexivity|reflexivity|].
  split; [exact Hr|]. split; [exact Hb|exact Hc].
Defined.

(** ** The cache over whole runs *)

Section CacheInvariant.
Import RelayProtocol Serial RelayController.
Context {D : Type} `{SerialDevice D}.

(** A status query never touches the object's cache or flags. *)
Lemma query_status_keeps p c l (w : world D) :
  exists r w', query_status (State p c l w) = (r, State p c l w').
Proof.
  destruct w as [d k t]. destruct p as [[[|]]|].
  - destruct (query_status_footprint c l d k t) as (r & d' & k' & t' & -> & _). eauto.
  - unfold query_status. unfold bind at 1. rewrite send_command_closed by reflexivity. eauto.
  - unfold query_status, send_command. mrun. eauto.
Qed.

Lemma get_relay_states_keeps p c l (w : world D) :
  exists l' w',
    get_relay_states (State p c l w) = (Return l', State p c l' w')
    /\ (l' = l \/ exists r1 r2, l' = [r1; r2]).
Proof.
  unfold get_relay_states. mrun. destruct c; mrun.
  - destruct (query_status_keeps p true l w) as ([[r1 r2]|e] & w' & ->); mrun; eauto 10.
  - eauto 10.
Qed.

Lemma set_each_keeps rs st : forall p c l (w : world D),
  exists b l' w',
    set_each rs st (State p c l w) = (Return b, State p c l' w')
    /\ (length l = 2%nat -> length l' = 2%nat).
Proof.
  induction rs as [|r rs IH]; intros p c l [d k t].
  - exists true, l, (World d k t). split; [reflexivity|auto].
  - cbn [set_each]. unfold bind at 1.
    destruct (set_relay_spec r st p c l d k t) as (b & l1 & d1 & k1 & t1 & -> & Hl1 & _).
    destruct b; mrun.
    + destruct (IH p c l1 (World (dev_tick 100 d1) (k1 + 100) ((t ++ t1) ++ [EvSleep 100])))
        as (b' & l' & w' & -> & Hl').
      exists b', l', w'. split; [reflexivity|auto].
    + eexists false, l1, _. split; [reflexivity|auto].
Qed.

Lemma switch_off_keeps rs : forall p c l (w : world D),
  exists l' w',
    switch_off rs (State p c l w) = (Return tt, State p c l' w')
    /\ (length l = 2%nat -> length l' = 2%nat).
Proof.
  induction rs as [|r rs IH]; intros p c l [d k t].
  - exists l, (World d k t). split; [reflexivity|auto].
  - cbn [switch_off]. unfold bind at 1.
    destruct (set_relay_spec r false p c l d k t) as (b & l1 & d1 & k1 & t1 & -> & Hl1 & _).
    mrun.
    destruct (IH p c l1 (World (dev_tick 100 d1) (k1 + 100) ((t ++ t1) ++ [EvSleep 100])))
      as (l' & w' & -> & Hl').
    exists l', w'. split; [reflexivity|auto].
Qed.

(** Every public operation keeps a cache of two a cache of two. *)
Lemma run_op_length (o : operation) (s : state D) :
  length (relay_states s) = 2%nat -> length (relay_states (run_op o s)) = 2%nat.
Proof.
  destruct s as [p c l w]. cbn [relay_states]. intros Hl.
  destruct o as [| |n st|st|]; cbn [run_op].
  - unfold connect. mrun. destruct w as [d k t].
    destruct (dev_open d) as [[[]|e] d1]; [|exact Hl].
    destruct (query_status_keeps (Some (Protocol true)) c l (World d1 k t))
      as ([[r1 r2]|e] & w' & ->); mrun; [reflexivity|exact Hl].
  - destruct (get_relay_states_keeps p c l w) as (l' & w' & -> & [->|(r1 & r2 & ->)]);
      [exact Hl|reflexivity].
  - destruct w as [d k t].
    destruct (set_relay_spec n st p c l d k t) as (b & l' & d' & k' & t' & -> & Hl' & _).
    auto.
  - unfold set_all_relays. mrun. destruct c; mrun; [|exact Hl].
    destruct (set_each_keeps [1; 2] st p true l w) as (b & l' & w' & -> & Hl'). auto.
  - unfold cleanup. mrun. destruct c; mrun; [|exact Hl].
    destruct (switch_off_keeps [1; 2] p true l w) as (l' & w' & -> & Hl').
    mrun. destruct p as [[[|]]|]; unfold close; mrun; auto.
Qed.

Lemma run_ops_length (ops : list operation) : forall s : state D,
  length (relay_states s) = 2%nat -> length (relay_states (run_ops ops s)) = 2%nat.
Proof.
  induction ops as [|o ops IH]; intros s Hl; [exact Hl|].
  cbn [run_ops fold_left]. apply IH. now apply run_op_length.
Qed.

End CacheInvariant.

Section ConnectionLoss.
Import RelayProtocol Serial RelayController.
Context {D : Type} `{SerialDevice D}.

(** The connection is lost: every write raises. *)
Hypothesis writes_fail : forall f (d : D), exists e d', dev_write f d = (Raise e, d').

Lemma send_command_lost cmd p c l (w : world D) :
  exists e w', send_command cmd (State p c l w) = (Raise e, State p c l w').
Proof.
  destruct w as [d k t]. destruct p as [[[|]]|].
  - rewrite send_command_open. destruct (writes_fail cmd d) as (e & d' & ->). eauto.
  - rewrite send_command_closed by reflexivity. eauto.
  - unfold send_command. mrun. eauto.
Qed.

Lemma get_relay_states_lost p c l (w : world D) :
  exists w', get_relay_states (State p c l w) = (Return l, State p c l w').
Proof.
  unfold get_relay_states. mrun. destruct c; mrun; [|eauto].
  unfold query_status. unfold bind at 1.
  destruct (send_command_lost [QUERY_CMD] p true l w) as (e & [d k t] & ->).
  mrun. eauto.
Qed.

Lemma set_relay_lost n st p c l (w : world D) :
  exists w', set_relay n st (State p c l w) = (Return false, State p c l w').
Proof.
  unfold set_relay. mrun. destruct c; mrun; [|eauto].
  destruct (valid_relay n) eqn:Hv; mrun; [|eauto].
  destruct (get_relay_states_lost p true l w) as ([d1 k1 t1] & ->). mrun.
  destruct (l !! Z.to_nat 0); [|eauto].
  destruct (l !! Z.to_nat 1); [|eauto].
  unfold Serial.set_relay. rewrite (build_command_valid n st Hv).
  destruct (send_command_lost (frame_of n st) p true l (World d1 k1 t1))
    as (e & [d2 k2 t2] & ->).
  mrun. eauto.
Qed.

Lemma set_each_lost rs st p c l (w : world D) :
  exists b w', set_each rs st (State p c l w) = (Return b, State p c l w').
Proof.
  destruct rs as [|r rs]; [cbn; eauto|].
  cbn [set_each]. unfold bind at 1.
  destruct (set_relay_lost r st p c l w) as (w' & ->). mrun. eauto.
Qed.

Lemma switch_off_lost rs : forall p c l (w : world D),
  exists w', switch_off rs (State p c l w) = (Return tt, State p c l w').
Proof.
  induction rs as [|r rs IH]; intros p c l w; [cbn; eauto|].
  cbn [switch_off]. unfold bind at 1.
  destruct (set_relay_lost r false p c l w) as ([d1 k1 t1] & ->). mrun.
  apply IH.
Qed.

(** With the connection lost no public operation changes the cache or the
    connected flag. *)
Lemma run_op_lost (o : operation) (s : state D) :
  relay_states (run_op o s) = relay_states s
  /\ connected (run_op o s) = connected s.
Proof.
  destruct s as [p c l w]. cbn [relay_states connected].
  destruct o as [| |n st|st|]; cbn [run_op].
  - unfold connect. mrun. destruct w as [d k t].
    destruct (dev_open d) as [[[]|e] d1]; [|split; reflexivity].
    unfold query_status. mrun.
    destruct (send_command_lost [QUERY_CMD] (Some (Protocol true)) c l (World d1 k t))
      as (e & [d2 k2 t2] & ->).
    mrun. split; reflexivity.
  - destruct (get_relay_states_lost p c l w) as (w' & ->). split; reflexivity.
  - destruct (set_relay_lost n st p c l w) as (w' & ->). split; reflexivity.
  - unfold set_all_relays. mrun. destruct c; mrun; [|split; reflexivity].
    destruct (set_each_lost [1; 2] st p true l w) as (b & w' & ->). split; reflexivity.
  - unfold cleanup. mrun. destruct c; mrun; [|split; reflexivity].
    destruct (switch_off_lost [1; 2] p true l w) as ([d1 k1 t1] & ->).
    mrun. destruct p as [[[|]]|]; unfold close; mrun; split; reflexivity.
Qed.

Lemma run_ops_lost (ops : list operation) : forall s : state D,
  relay_states (run_ops ops s) = relay_states s
  /\ connected (run_ops ops s) = connected s.
Proof.
  induction ops as [|o ops IH]; intros s; [split; reflexivity|].
  cbn [run_ops fold_left].
  destruct (IH (run_op o s)) as [Hl Hc]. destruct (run_op_lost o s) as [Hl' Hc'].
  unfold run_ops in Hl, Hc. split; congruence.
Qed.

End ConnectionLoss.

Section CacheClaim.
Import RelayProtocol Serial RelayController.

(** C7 (as amended): the cache of the controller is a list of two Python
    booleans, so each channel is cached as Off or On and never as Unknown;
    it is [Off, Off] when the controller is built, before any write; every
    sequence of public operations keeps it a list of two booleans; and when
    the connection is lost (every write raises) every sequence of public
    operations leaves the cache and the connected flag exactly as they
    were. *)
Theorem cache_has_no_unknown {D} `{SerialDevice D}
    (ops : list operation) (s : state D) (w : world D) :
  length (relay_states s) = 2%nat ->
  map cache_view (relay_states (init w)) = [Off; Off]
  /\ length (relay_states (run_ops ops s)) = 2%nat
  /\ Forall (fun c => cache_view c = Off \/ cache_view c = On)
            (relay_states (run_ops ops s))
  /\ ~ In Unknown (map cache_view (relay_states (run_ops ops s)))
  /\ ((forall f (d : D), exists e d', dev_write f d = (Raise e, d')) ->
      relay_states (run_ops ops s) = relay_states s
      /\ connected (run_ops ops s) = connected s).
Proof.
  intros Hl. split; [reflexivity|]. split; [now apply run_ops_length|].
  split; [|split].
  - apply List.Forall_forall. intros [|] _; [right|left]; reflexivity.
  - intros Hin. apply in_map_iff in Hin. destruct Hin as ([|] & Hv & _); discriminate Hv.
  - intros Hfail. now apply run_ops_lost.
Qed.

End CacheClaim.

Lemma cache_has_no_unknown_witness :
  Serial.relay_states
    (run_ops [OpSetRelay 1 false; OpGetRelayStates; OpCleanup] (lost_session [true; false]))
  = [true; false]
  /\ Serial.connected
       (run_ops [OpSetRelay 1 false; OpGetRelayStates; OpCleanup] (lost_session [true; false]))
     = true.
Proof.
  destruct (cache_has_no_unknown [OpSetRelay 1 false; OpGetRelayStates; OpCleanup]
              (lost_session [true; false]) (World Unplugged 0 []))
    as (_ & _ & _ & _ & Hlost); [reflexivity|].
  apply Hlost. intros f d. exists (IOFault "write failed"), d. reflexivity.
Defined.

(** C7, the claim as stated fails: the cable is out, set_relay(1, False)
    fails on the lost connection and a status query fails after it, yet the
    cache still reads channel 1 On and channel 2 Off; no channel is marked
    Unknown, and the controller still counts as connected.  A controller
    that has just been built reads Off for both channels although nothing
    was ever written. *)
Lemma lost_connection_keeps_cache :
  let s' := run_ops [OpSetRelay 1 false; OpGetRelayStates] (lost_session [true; false]) in
  fst (RelayController.set_relay 1 false (lost_session [true; false])) = Return false
  /\ map cache_view (Serial.relay_states s') = [On; Off]
  /\ ~ In Unknown (map cache_view (Serial.relay_states s'))
  /\ Serial.connected s' = true
  /\ map cache_view (Serial.relay_states (RelayController.init (World Unplugged 0 [])))
     = [Off; Off].
Proof.
  vm_compute. repeat split; try reflexivity.
  intros [Hin|[Hin|[]]]; discriminate Hin.
Qed.

(** ** The controller on the serial board *)

Section OnBoard.
Import RelayProtocol Serial RelayController Board.

Lemma status_line_parse r : parse_status (status_line r) = r.
Proof. destruct r as [[|] [|]]; reflexivity. Qed.

(** A frame leaves the board's faults and its pending input alone, and
    receiving it twice is receiving it once. *)
Lemma receive_frame_keeps n st b :
  link_up (receive (frame_of n st) b) = link_up b
  /\ answers (receive (frame_of n st) b) = answers b
  /\ jammed (receive (frame_of n st) b) = jammed b
  /\ rx (receive (frame_of n st) b) = rx b.
Proof.
  unfold receive, frame_of.
  repeat match goal with
         | |- context [if ?c then _ else _] => destruct c
         end; repeat split.
Qed.

(** What a command frame does to the board. *)
Lemma receive_frame n st b :
  receive (frame_of n st) b
  = if negb (is_jammed b n) && valid_relay n
    then with_relays b (if n =? 1 then (st, snd (relays b)) else (fst (relays b), st))
    else b.
Proof.
  unfold receive, frame_of, valid_relay.
  change (160 =? START_FLAG) with true.
  replace ((160 + n + (if st then 1 else 0)) mod 256
           =? calculate_checksum [160; n; if st then 1 else 0]) with true.
  2:{ symmetry. apply Z.eqb_eq. rewrite checksum_mod. unfold sum. cbn [fold_right].
      f_equal. lia. }
  cbn [andb]. destruct (is_jammed b n); cbn [negb andb]; [reflexivity|].
  destruct st; cbn [Z.eqb STATE_ON STATE_OFF];
    destruct (n =? 1); cbn [orb]; try reflexivity;
    destruct (n =? 2); reflexivity.
Qed.

Lemma receive_frame_idempotent n st b :
  receive (frame_of n st) (receive (frame_of n st) b) = receive (frame_of n st) b.
Proof.
  rewrite (receive_frame n st (receive (frame_of n st) b)).
  rewrite !receive_frame.
  destruct (negb (is_jammed b n) && valid_relay n) eqn:Hok; [|rewrite Hok; reflexivity].
  change (is_jammed (with_relays b _) n) with (is_jammed b n). rewrite Hok.
  destruct b as [lk an j [r1 r2] q]. destruct (n =? 1); reflexivity.
Qed.

(** A status query on a drained board: the answer is the board's relays;
    a board that does not answer costs the whole timeout; a cable that is
    out fails the write.  The board is left as it was. *)
Lemma board_query (b : board) c l k t :
  rx b = [] ->
  exists r k' t',
    query_status (State (Some (Protocol true)) c l (World b k t))
    = (r, State (Some (Protocol true)) c l (World b k' (t ++ t')))
    /\ r = (if link_up b then
              if answers b then Return (relays b)
              else Raise (RuntimeError "No response to status query")
            else Raise (IOFault "write failed"))
    /\ benign t'.
Proof.
  destruct b as [lk an j r q]. cbn [rx link_up answers relays]. intros ->.
  destruct lk.
  - destruct an.
    + unfold query_status. unfold bind at 1. rewrite send_command_open.
      cbn [dev_write board_serial link_up]. unfold bind.
      rewrite (read_response_ready c l _ k (t ++ [EvWrite [QUERY_CMD]])
                 (Z.of_nat (String.length (status_line r)) + 0)
                 (Board true true j r [status_line r]) (status_line r)
                 (Board true true j r []));
        try reflexivity.
      * destruct r as [[|] [|]]; eexists _, k, [EvWrite [QUERY_CMD]];
          (split; [reflexivity|]); (split; [reflexivity|]);
          apply benign_query, benign_nil.
      * destruct r as [[|] [|]]; discriminate.
      * destruct r as [[|] [|]]; reflexivity.
    + rewrite (query_status_silent c l (Board true false j r []) k t 1
                 (Board true false j r []));
        [|reflexivity|cbn; repeat (eexists; split; [reflexivity|]); exact I].
      eexists _, (k + 100), _. rewrite <- app_assoc. split; [reflexivity|].
      split; [reflexivity|]. cbn [app]. apply benign_query, benign_sleeps.
      repeat constructor; eexists; reflexivity.
  - unfold query_status. unfold bind at 1. rewrite send_command_open.
    cbn [dev_write board_serial link_up].
    eexists _, k, [EvWrite [QUERY_CMD]]. split; [reflexivity|].
    split; [reflexivity|apply benign_query, benign_nil].
Qed.

Lemma board_get_relay_states (b : board) l k t :
  rx b = [] ->
  exists k' t',
    get_relay_states (State (Some (Protocol true)) true l (World b k t))
    = (let l' := if link_up b && answers b
                 then [fst (relays b); snd (relays b)] else l in
       (Return l', State (Some (Protocol true)) true l' (World b k' (t ++ t'))))
    /\ benign t'.
Proof.
  intros Hrx. unfold get_relay_states. mrun.
  destruct (board_query b true l k t Hrx) as (r & k' & t' & -> & -> & Hb).
  destruct (link_up b), (answers b); mrun; cbn [andb].
  - eauto.
  - eexists k', (t' ++ _). rewrite <- app_assoc. split; [reflexivity|].
    apply benign_app; [exact Hb|apply benign_exn].
  - eexists k', (t' ++ _). rewrite <- app_assoc. split; [reflexivity|].
    apply benign_app; [exact Hb|apply benign_exn].
  - eexists k', (t' ++ _). rewrite <- app_assoc. split; [reflexivity|].
    apply benign_app; [exact Hb|apply benign_exn].
Qed.

Lemma board_write f (b : board) :
  dev_write f b
  = if link_up b then (Return (Z.of_nat (length f)), receive f b)
    else (Raise (IOFault "write failed"), b).
Proof. reflexivity. Qed.

Lemma board_tick ms (b : board) : dev_tick ms b = b.
Proof. reflexivity. Qed.

Lemma lookup_two_length (l : list bool) :
  match l !! Z.to_nat 0, l !! Z.to_nat 1 with
  | Some _, Some _ => (2 <=? length l)%nat = true
  | _, _ => (2 <=? length l)%nat = false
  end.
Proof. destruct l as [|a [|a' l]]; reflexivity. Qed.

(** One [set_relay] on a drained board, seen from outside. *)
Lemma board_set_relay (b : board) n st l k t :
  valid_relay n = true -> rx b = [] ->
  exists r k' t',
    set_relay n st (State (Some (Protocol true)) true l (World b k t))
    = (r, State (Some (Protocol true)) true (cache_next n st l b)
            (World (board_next n st l b) k' t')).
Proof.
  intros Hv Hrx. unfold set_relay, cache_next, board_next. mrun. rewrite Hv. mrun.
  destruct (board_get_relay_states b l k t Hrx) as (k1 & t1 & -> & _).
  assert (Hi : (Z.to_nat (n - 1) < 2)%nat) by (apply valid_relay_iff in Hv; lia).
  destruct (receive_frame_keeps n st b) as (Hlk' & Han' & _ & Hrx').
  rewrite Hrx in Hrx'.
  destruct b as [lk an j [r1 r2] q]. cbn [rx] in Hrx. subst q.
  cbn [link_up answers relays] in *. cbv zeta. mrun.
  destruct lk; [destruct an|]; cbn [andb orb].
  - (* the board answers *)
    change ([r1; r2] !! Z.to_nat 0) with (Some r1).
    change ([r1; r2] !! Z.to_nat 1) with (Some r2). mrun.
    unfold Serial.set_relay. rewrite (build_command_valid n st Hv).
    rewrite send_command_open, board_write. cbn [link_up]. mrun.
    rewrite Z.eqb_refl. unfold setitem_relay_states. mrun. cbn [length].
    replace (Z.to_nat (n - 1) <? 2)%nat with true by (symmetry; now apply Nat.ltb_lt).
    mrun. rewrite board_tick.
    destruct (board_get_relay_states (receive (frame_of n st) (Board true true j (r1, r2) []))
                (<[Z.to_nat (n - 1) := st]> [r1; r2])
                (k1 + 100) (((t ++ t1) ++ [EvWrite (frame_of n st)]) ++ [EvSleep 100]) Hrx')
      as (k2 & t2 & -> & _).
    rewrite Hlk', Han'. cbn [andb]. cbv zeta. mrun.
    change (Z.to_nat 0) with 0%nat. change (Z.to_nat 1) with 1%nat.
    destruct (Z.to_nat (n - 1)) as [|[|m]]; [| |lia]; cbn [lookup list_lookup];
      match goal with
      | |- context [eqb ?a st] => destruct (eqb a st)
      end; mrun; eauto.
  - (* the board does not answer *)
    pose proof (lookup_two_length l) as Hlen.
    destruct (l !! Z.to_nat 0) as [a0|]; [destruct (l !! Z.to_nat 1) as [a1|]|];
      rewrite Hlen; mrun; eauto.
    unfold Serial.set_relay. rewrite (build_command_valid n st Hv).
    rewrite send_command_open, board_write. cbn [link_up]. mrun.
    rewrite Z.eqb_refl. unfold setitem_relay_states. mrun.
    apply Nat.leb_le in Hlen.
    replace (Z.to_nat (n - 1) <? length l)%nat with true
      by (symmetry; apply Nat.ltb_lt; lia).
    mrun. rewrite board_tick.
    destruct (board_get_relay_states (receive (frame_of n st) (Board true false j (r1, r2) []))
                (<[Z.to_nat (n - 1) := st]> l)
                (k1 + 100) (((t ++ t1) ++ [EvWrite (frame_of n st)]) ++ [EvSleep 100]) Hrx')
      as (k2 & t2 & -> & _).
    rewrite Hlk', Han'. cbn [andb]. cbv zeta. mrun.
    rewrite list_lookup_insert_eq by lia. mrun. rewrite eqb_reflx. eauto.
  - (* the cable is out *)
    destruct (l !! Z.to_nat 0) as [a0|]; [destruct (l !! Z.to_nat 1) as [a1|]|];
      mrun; eauto.
    unfold Serial.set_relay. rewrite (build_command_valid n st Hv).
    rewrite send_command_open, board_write. cbn [link_up]. mrun. eauto.
Qed.

Lemma board_next_drained n st l b : rx b = [] -> rx (board_next n st l b) = [].
Proof.
  intros Hrx. unfold board_next.
  destruct (link_up b && (answers b || (2 <=? length l)%nat)); [|exact Hrx].
  destruct (receive_frame_keeps n st b) as (_ & _ & _ & ->). exact Hrx.
Qed.

(** Seen from outside, a second [set_relay] with the same request finds
    nothing left to do. *)
Lemma next_idempotent n st l b :
  cache_next n st (cache_next n st l b) (board_next n st l b) = cache_next n st l b
  /\ board_next n st (cache_next n st l b) (board_next n st l b) = board_next n st l b.
Proof.
  unfold cache_next, board_next.
  destruct (receive_frame_keeps n st b) as (Hlk & Han & _ & _).
  destruct (link_up b) eqn:Elk; cbn [andb]; [|rewrite ?Elk; split; reflexivity].
  destruct (answers b) eqn:Ean; cbn [orb].
  - rewrite ?Hlk, ?Han, ?Elk, ?Ean. cbn [andb orb].
    rewrite receive_frame_idempotent. split; reflexivity.
  - destruct (2 <=? length l)%nat eqn:Elen.
    + rewrite ?Hlk, ?Han, ?Elk, ?Ean, ?length_insert, ?Elen. cbn [andb orb].
      rewrite list_insert_insert_eq, receive_frame_idempotent. split; reflexivity.
    + rewrite ?Elk, ?Ean, ?Elen. split; reflexivity.
Qed.

(** A controller that is not connected, or whose port is not open, or
    that is asked for a channel that does not exist, does no I/O at all. *)
Lemma set_relay_idle {D} `{SerialDevice D} n st p c l (d : D) k t :
  c = false \/ valid_relay n = false \/ p <> Some (Protocol true) ->
  exists r t', set_relay n st (State p c l (World d k t))
               = (r, State p c l (World d k t')).
Proof.
  intros Hidle. unfold set_relay. mrun.
  destruct c; mrun; [|eauto].
  destruct (valid_relay n) eqn:Hv; mrun; [|eauto].
  destruct Hidle as [Hc|[Hf|Hp]]; [discriminate Hc|discriminate Hf|].
  unfold get_relay_states. mrun. unfold query_status, Serial.set_relay.
  rewrite (build_command_valid n st Hv).
  destruct p as [[[|]]|]; [congruence| |].
  - unfold bind at 1. rewrite send_command_closed by reflexivity. mrun.
    destruct (l !! Z.to_nat 0); [|eauto]. destruct (l !! Z.to_nat 1); [|eauto].
    rewrite send_command_closed by reflexivity. mrun. eauto.
  - unfold send_command. mrun.
    destruct (l !! Z.to_nat 0); [|eauto]. destruct (l !! Z.to_nat 1); [|eauto].
    mrun. eauto.
Qed.

(** The drained input buffer matters: with a stale status line waiting,
    every read-back is one answer behind, and the second call ends with a
    cache the first one did not leave. *)
Example stale_input_breaks_idempotence :
  let b := Board true true [] (false, false) [status_line (true, false)] in
  let s := session b [false; false] in
  let once := snd (set_relay 2 true s) in
  let twice := snd (set_relay 2 true once) in
  relay_states once = [false; false] /\ relay_states twice = [false; true].
Proof. vm_compute. split; reflexivity. Qed.

End OnBoard.

(** * Further properties of the code *)

(** ** The codec *)

Section CodecMore.
Import RelayProtocol.

Lemma sum_app (a b : list Z) : sum (a ++ b) = sum a + sum b.
Proof.
  unfold sum. induction a as [|x a IH]; cbn [app fold_right]; [reflexivity|].
  rewrite IH. lia.
Qed.

(** X1: The checksum is a byte whatever integers it is given, and it tells
    apart any two lists that differ in one byte. *)
Theorem checksum_detects_single_byte (before after : list Z) (b b' : Z) :
  0 <= b < 256 -> 0 <= b' < 256 -> b <> b' ->
  0 <= calculate_checksum (before ++ b :: after) < 256
  /\ calculate_checksum (before ++ b :: after)
     <> calculate_checksum (before ++ b' :: after).
Proof.
  intros Hb Hb' Hne. rewrite !checksum_mod. split.
  - apply Z.mod_pos_bound. lia.
  - rewrite !sum_app. unfold sum. cbn [fold_right].
    fold (sum after). fold (sum before).
    intros Heq.
    assert (Hd : (b - b') mod 256 = 0).
    { replace (b - b') with ((sum before + (b + sum after)) - (sum before + (b' + sum after)))
        by lia.
      rewrite Zminus_mod, Heq, Z.sub_diag. reflexivity. }
    apply Z.mod_divide in Hd; [|lia]. destruct Hd as [q Hq]. lia.
Qed.

Lemma checksum_detects_single_byte_witness :
  0 <= calculate_checksum ([0xA0] ++ 1 :: [1]) < 256
  /\ calculate_checksum ([0xA0] ++ 1 :: [1]) <> calculate_checksum ([0xA0] ++ 2 :: [1]).
Proof. apply (checksum_detects_single_byte [0xA0] [1] 1 2); lia. Defined.

(** A frame that [build_command] returns is well formed: four bytes, each
    within 0..255, the start flag first, and the last byte the checksum of
    the three before it, so [bytes(cmd)] cannot fail and a receiver can
    check the frame. *)
Lemma build_command_well_formed (n : Z) (st : bool) (frame : list Z) :
  build_command n st = Return frame ->
  length frame = 4%nat
  /\ Forall (fun b => 0 <= b < 256) frame
  /\ frame !! 0%nat = Some START_FLAG
  /\ frame !! 3%nat = Some (calculate_checksum (take 3 frame)).
Proof.
  intros Hb. split; [|split; [eapply build_command_bytes; eassumption|]].
  - unfold build_command in Hb. destruct (negb (valid_relay n)); [discriminate|].
    injection Hb as <-. reflexivity.
  - unfold build_command in Hb. destruct (negb (valid_relay n)); [discriminate|].
    injection Hb as <-. split; reflexivity.
Qed.

Lemma build_command_well_formed_witness :
  length [0xA0; 0x02; 0x01; 0xA3] = 4%nat
  /\ Forall (fun b => 0 <= b < 256) [0xA0; 0x02; 0x01; 0xA3]
  /\ [0xA0; 0x02; 0x01; 0xA3] !! 0%nat = Some START_FLAG
  /\ [0xA0; 0x02; 0x01; 0xA3] !! 3%nat
     = Some (calculate_checksum (take 3 [0xA0; 0x02; 0x01; 0xA3])).
Proof. apply (build_command_well_formed 2 true). reflexivity. Defined.

(** X2: Two requests that differ in the channel or in the state never get the
    same frame. *)
Theorem build_command_injective (n n' : Z) (st st' : bool) (frame : list Z) :
  build_command n st = Return frame ->
  build_command n' st' = Return frame ->
  n = n' /\ st = st'.
Proof.
  unfold build_command. intros H1 H2.
  destruct (negb (valid_relay n)); [discriminate|].
  destruct (negb (valid_relay n')); [discriminate|].
  injection H1 as <-. injection H2 as Hn Hs _. subst n'.
  split; [reflexivity|]. destruct st, st'; (reflexivity || discriminate).
Qed.

Lemma build_command_injective_witness : 1 = 1 /\ true = true.
Proof.
  apply (build_command_injective 1 1 true true [0xA0; 0x01; 0x01; 0xA2]); reflexivity.
Defined.

End CodecMore.

Section ParseStatus.
Import RelayProtocol.
Local Open Scope string_scope.

Lemma substring_prefix (t s : string) :
  substring 0 (String.length t) s = t -> exists post, s = t ++ post.
Proof.
  revert s. induction t as [|c t IH]; intros s Hs.
  - exists s. reflexivity.
  - destruct s as [|c' s]; [discriminate Hs|].
    cbn in Hs. injection Hs as -> Hs. destruct (IH s Hs) as [post ->].
    exists post. reflexivity.
Qed.

Lemma substring_occurs (t s : string) :
  (exists m, substring m (String.length t) s = t)
  <-> exists pre post, s = pre ++ t ++ post.
Proof.
  split.
  - intros [m Hm]. revert s Hm. induction m as [|m IH]; intros s Hm.
    + destruct (substring_prefix t s Hm) as [post ->]. exists "", post. reflexivity.
    + destruct s as [|c s].
      * destruct t as [|c' t]; [|discriminate Hm]. exists "", "". reflexivity.
      * cbn in Hm. destruct (IH s Hm) as (pre & post & ->).
        exists (String c pre), post. reflexivity.
  - intros (pre & post & ->). exists (String.length pre).
    induction pre as [|c pre IH]; [|exact IH].
    cbn [String.length append]. clear. induction t as [|c t IH]; cbn.
    + destruct post; reflexivity.
    + now rewrite IH.
Qed.

(** X3: [parse_status] reports a channel on exactly when its marker occurs
    somewhere in the response, whatever surrounds it; each channel is read
    independently of the other. *)
Theorem parse_status_markers (response : string) :
  (fst (parse_status response) = true
   <-> exists pre post, response = pre ++ "CH1:ON" ++ post)
  /\ (snd (parse_status response) = true
      <-> exists pre post, response = pre ++ "CH2:ON" ++ post).
Proof.
  unfold parse_status. cbn [fst snd]. split.
  - rewrite contains_occurs by discriminate. apply substring_occurs.
  - rewrite contains_occurs by discriminate. apply substring_occurs.
Qed.

End ParseStatus.

(** ** Reading from the serial port *)

Section ReadingMore.
Import RelayProtocol Serial RelayController.
Context {D : Type} `{SerialDevice D}.

(** The polling loop adds nothing to the trace but sleeps of 10 ms, and
    sleeps less than what is left of the timeout plus 10 ms. *)
Lemma poll_sleeps fuel : forall start tm p c l d k t,
  exists r d' (j : nat),
    poll fuel start tm (State p c l (World d k t))
    = (r, State p c l (World d' (k + 10 * Z.of_nat j) (t ++ repeat (EvSleep 10) j)))
    /\ 10 * Z.of_nat j < Z.max (tm - (k - start)) 0 + 10.
Proof.
  induction fuel as [|fuel IH]; intros start tm p c l d k t.
  - exists (Return None), d, 0%nat. cbn [repeat]. rewrite app_nil_r.
    replace (k + 10 * Z.of_nat 0) with k by lia. split; [reflexivity|lia].
  - cbn [poll]. mrun. destruct (k - start <? tm) eqn:Hlt.
    + apply Z.ltb_lt in Hlt.
      destruct (dev_in_waiting d) as [[n|e] d1].
      * destruct (n =? 0); mrun.
        -- destruct (IH start tm p c l (dev_tick 10 d1) (k + 10) (t ++ [EvSleep 10]))
             as (r & d' & j & -> & Hb).
           exists r, d', (S j). cbn [repeat]. rewrite <- app_assoc.
           replace (k + 10 + 10 * Z.of_nat j) with (k + 10 * Z.of_nat (S j)) by lia.
           split; [reflexivity|lia].
        -- destruct (dev_read_until d1) as [[raw|e] d2].
           ++ unfold decode_ascii. destruct (forallb _ _); mrun;
                eexists _, d2, 0%nat; cbn [repeat]; rewrite app_nil_r;
                replace (k + 10 * Z.of_nat 0) with k by lia; (split; [reflexivity|lia]).
           ++ eexists _, d2, 0%nat. cbn [repeat]. rewrite app_nil_r.
              replace (k + 10 * Z.of_nat 0) with k by lia. split; [reflexivity|lia].
      * eexists _, d1, 0%nat. cbn [repeat]. rewrite app_nil_r.
        replace (k + 10 * Z.of_nat 0) with k by lia. split; [reflexivity|lia].
    + eexists _, d, 0%nat. cbn [repeat]. rewrite app_nil_r.
      replace (k + 10 * Z.of_nat 0) with k by lia. split; [reflexivity|lia].
Qed.

(** X4: [read_response] does nothing but look and sleep: whatever the port
    does, what it leaves in the trace is some number [j] of sleeps of 10 ms
    and nothing else (no frame is written, nothing is logged), the time it
    has slept, [10 * j], stays below the timeout plus 10 ms, and the
    controller's fields are left alone. *)
Theorem read_response_keeps_time (s : state D) (tm : Z) :
  protocol s = Some (Protocol true) ->
  let s' := snd (read_response tm s) in
  exists j : nat,
    added (trace (outside s)) (trace (outside s')) = repeat (EvSleep 10) j
    /\ 10 * Z.of_nat j < Z.max tm 0 + 10
    /\ protocol s' = protocol s /\ connected s' = connected s
    /\ relay_states s' = relay_states s.
Proof.
  destruct s as [p c l [d k t]]. cbn [protocol outside clock trace connected relay_states].
  intros ->. unfold read_response. mrun.
  destruct (poll_sleeps (S (Z.to_nat tm)) k tm (Some (Protocol true)) c l d k t)
    as (r & d' & j & -> & Hb).
  cbn [fst snd outside clock trace protocol connected relay_states].
  exists j. rewrite added_app. repeat split. lia.
Qed.

(** X5: With a timeout that is not positive [read_response] does not look at
    the port at all: it returns None at once, even when data is waiting. *)
Theorem read_response_zero_timeout (s : state D) (tm : Z) :
  protocol s = Some (Protocol true) ->
  tm <= 0 ->
  read_response tm s = (Return None, s).
Proof.
  destruct s as [p c l [d k t]]. cbn [protocol]. intros -> Htm.
  unfold read_response. mrun. cbn [poll]. mrun.
  replace (k - k <? tm) with false by (symmetry; apply Z.ltb_ge; lia).
  reflexivity.
Qed.

Lemma poll_late j : forall fuel start tm p c l d k t n d1 raw d2,
  (j < fuel)%nat ->
  no_data j d ->
  k - start + 10 * Z.of_nat j < tm ->
  dev_in_waiting (idle j d) = (Return n, d1) -> n <> 0 ->
  dev_read_until d1 = (Return raw, d2) ->
  forallb (fun ch => (nat_of_ascii ch <? 128)%nat) (list_ascii_of_string raw) = true ->
  poll fuel start tm (State p c l (World d k t))
  = (Return (Some raw),
     State p c l (World d2 (k + 10 * Z.of_nat j) (t ++ repeat (EvSleep 10) j))).
Proof.
  induction j as [|j IH]; intros fuel start tm p c l d k t n d1 raw d2 Hf Hq Hk Hin Hn Hrd Ha.
  - destruct fuel as [|fuel]; [lia|]. cbn [poll idle] in *. mrun.
    replace (k - start <? tm) with true by (symmetry; apply Z.ltb_lt; lia).
    rewrite Hin. apply Z.eqb_neq in Hn. rewrite Hn. mrun. rewrite Hrd.
    unfold decode_ascii. rewrite Ha. mrun. cbn [repeat]. rewrite app_nil_r.
    replace (k + 10 * Z.of_nat 0) with k by lia. reflexivity.
  - destruct fuel as [|fuel]; [lia|]. cbn [poll idle] in *. mrun.
    replace (k - start <? tm) with true by (symmetry; apply Z.ltb_lt; lia).
    destruct Hq as (d0 & Hw & Hq). rewrite Hw in *. cbn [Z.eqb snd] in *. mrun.
    rewrite (IH fuel start tm p c l (dev_tick 10 d0) (k + 10) (t ++ [EvSleep 10])
               n d1 raw d2); try assumption; try lia.
    rewrite <- app_assoc. cbn [repeat app].
    replace (k + 10 + 10 * Z.of_nat j) with (k + 10 * Z.of_nat (S j)) by lia.
    reflexivity.
Qed.

(** X6: A line that arrives late is still read: when the first [j] looks at
    the port (j < 10) find nothing and the next one finds data, the 100 ms
    [read_response] returns the decoded line after exactly [10 * j] ms of
    sleep. *)
Theorem read_response_late_data (s : state D) (j : nat) (n : Z) (d1 d2 : D) (raw : string) :
  protocol s = Some (Protocol true) ->
  (j < 10)%nat ->
  no_data j (device (outside s)) ->
  dev_in_waiting (idle j (device (outside s))) = (Return n, d1) -> n <> 0 ->
  dev_read_until d1 = (Return raw, d2) ->
  forallb (fun ch => (nat_of_ascii ch <? 128)%nat) (list_ascii_of_string raw) = true ->
  fst (read_response 100 s) = Return (Some raw)
  /\ clock (outside (snd (read_response 100 s))) = clock (outside s) + 10 * Z.of_nat j
  /\ device (outside (snd (read_response 100 s))) = d2
  /\ sleeps (added (trace (outside s)) (trace (outside (snd (read_response 100 s)))))
     = repeat 10 j.
Proof.
  destruct s as [p c l [d k t]]. cbn [protocol outside clock trace device].
  intros -> Hj Hq Hin Hn Hrd Ha. unfold read_response. mrun.
  rewrite (poll_late j (S (Z.to_nat 100)) k 100 (Some (Protocol true)) c l d k t n d1 raw d2);
    try assumption; [|cbn; lia|lia].
  cbn [fst snd outside clock trace device]. rewrite added_app.
  repeat split. clear. induction j as [|j IH]; [reflexivity|]. cbn. now rewrite IH.
Qed.

End ReadingMore.

Lemma read_response_keeps_time_witness :
  exists j : nat,
    sleeps (trace (Serial.outside
                     (snd (Serial.read_response 100 (session Board.mute [false; false])))))
    = repeat 10 j
    /\ 10 * Z.of_nat j < 110.
Proof.
  destruct (read_response_keeps_time (session Board.mute [false; false]) 100 eq_refl)
    as (j & Ht & Hb & _).
  exists j. split; [|exact Hb].
  change (trace (Serial.outside
                   (snd (Serial.read_response 100 (session Board.mute [false; false])))))
    with (added (trace (Serial.outside (session Board.mute [false; false])))
                (trace (Serial.outside
                   (snd (Serial.read_response 100 (session Board.mute [false; false])))))).
  rewrite Ht. clear. induction j as [|j IH]; [reflexivity|]. cbn. now rewrite IH.
Defined.

Lemma read_response_zero_timeout_witness :
  Serial.read_response 0
    (session (Board.Board true true [] (false, false) [Board.status_line (true, true)])
       [false; false])
  = (Return None,
     session (Board.Board true true [] (false, false) [Board.status_line (true, true)])
       [false; false]).
Proof. apply read_response_zero_timeout; [reflexivity|lia]. Defined.


Lemma read_response_late_data_witness :
  fst (Serial.read_response 100
         (Serial.State (Some (Serial.Protocol true)) true [false; false]
            (World (SlowPort.Slow 30 "CH1:ON" false) 0 [])))
  = Return (Some "CH1:ON").
Proof.
  apply (read_response_late_data
           (Serial.State (Some (Serial.Protocol true)) true [false; false]
              (World (SlowPort.Slow 30 "CH1:ON" false) 0 []))
           3 6 (SlowPort.Slow 0 "CH1:ON" false) (SlowPort.Slow 0 "CH1:ON" true) "CH1:ON").
  - reflexivity.
  - lia.
  - cbn. repeat (eexists; split; [reflexivity|]). exact I.
  - reflexivity.
  - lia.
  - reflexivity.
  - reflexivity.
Defined.

(** ** The serial controller: connecting, failing, staying silent *)

Section ControllerMore.
Import RelayProtocol Serial RelayController.
Context {D : Type} `{SerialDevice D}.

(** X8: A response with a byte outside ASCII makes [query_status] raise
    UnicodeDecodeError; [get_relay_states] swallows it and answers from the
    cache, which it leaves alone. *)
Theorem garbled_response_keeps_cache (s : state D) (n m : Z) (d1 d2 d3 : D) (raw : string) :
  protocol s = Some (Protocol true) ->
  connected s = true ->
  dev_write [QUERY_CMD] (device (outside s)) = (Return n, d1) ->
  dev_in_waiting d1 = (Return m, d2) -> m <> 0 ->
  dev_read_until d2 = (Return raw, d3) ->
  forallb (fun ch => (nat_of_ascii ch <? 128)%nat) (list_ascii_of_string raw) = false ->
  fst (query_status s) = Raise UnicodeDecodeError
  /\ fst (get_relay_states s) = Return (relay_states s)
  /\ relay_states (snd (get_relay_states s)) = relay_states s
  /\ connected (snd (get_relay_states s)) = true
  /\ added (trace (outside s)) (trace (outside (snd (get_relay_states s))))
     = [EvWrite [QUERY_CMD]; EvErrorExn "Error reading relay states" UnicodeDecodeError].
Proof.
  destruct s as [p c l [d k t]].
  cbn [protocol connected outside device trace relay_states].
  intros -> -> Hw Hin Hm Hrd Ha.
  assert (Hq : query_status (State (Some (Protocol true)) true l (World d k t))
               = (Raise UnicodeDecodeError,
                  State (Some (Protocol true)) true l
                    (World d3 k (t ++ [EvWrite [QUERY_CMD]])))).
  { unfold query_status. unfold bind at 1. rewrite send_command_open, Hw.
    unfold bind, read_response. mrun. cbn [poll]. mrun.
    rewrite Z.sub_diag. change (0 <? 100) with true. mrun. rewrite Hin.
    apply Z.eqb_neq in Hm. rewrite Hm. mrun. rewrite Hrd.
    unfold decode_ascii. rewrite Ha. reflexivity. }
  split; [rewrite Hq; reflexivity|].
  unfold get_relay_states. mrun. rewrite Hq. mrun.
  cbn [fst snd relay_states connected outside trace].
  rewrite <- app_assoc, added_app. repeat split.
Qed.

(** X9: [connect] on a port that opens and answers the status query: it
    returns True, the controller is connected on an open port, and the
    cache holds what [parse_status] reads in the answer. *)
Theorem connect_seeds_cache (s : state D) (n m : Z) (d0 d1 d2 d3 : D) (raw : string) :
  dev_open (device (outside s)) = (Return tt, d0) ->
  dev_write [QUERY_CMD] d0 = (Return n, d1) ->
  dev_in_waiting d1 = (Return m, d2) -> m <> 0 ->
  dev_read_until d2 = (Return raw, d3) ->
  forallb (fun ch => (nat_of_ascii ch <? 128)%nat) (list_ascii_of_string raw) = true ->
  raw <> EmptyString ->
  connect s
  = (Return true,
     State (Some (Protocol true)) true
       [fst (parse_status raw); snd (parse_status raw)]
       (World d3 (clock (outside s)) (trace (outside s) ++ [EvWrite [QUERY_CMD]]))).
Proof.
  destruct s as [p c l [d k t]]. cbn [outside device clock trace].
  intros Ho Hw Hin Hm Hrd Ha Hne.
  unfold connect. mrun. rewrite Ho. mrun.
  unfold query_status. mrun. rewrite send_command_open, Hw.
  rewrite (read_response_ready c l d1 k (t ++ [EvWrite [QUERY_CMD]]) m d2 raw d3
             Hin Hm Hrd Ha).
  destruct raw as [|ch raw]; [congruence|]. reflexivity.
Qed.

(** X10: [connect] on a port that opens but whose status query cannot be
    written: it returns False and the controller is as connected as before,
    with the cache it had; the new port object stays open, and since a
    controller that is not connected skips its [cleanup], nothing closes
    it. *)
Theorem failed_connect_leaves_port_open (s : state D) (d0 d1 : D) (e : exn) :
  dev_open (device (outside s)) = (Return tt, d0) ->
  dev_write [QUERY_CMD] d0 = (Raise e, d1) ->
  let s' := snd (connect s) in
  fst (connect s) = Return false
  /\ protocol s' = Some (Protocol true)
  /\ connected s' = connected s
  /\ relay_states s' = relay_states s
  /\ (connected s = false -> cleanup s' = (Return tt, s')).
Proof.
  destruct s as [p c l [d k t]]. cbn [outside device].
  intros Ho Hw. cbv zeta. unfold connect. mrun. rewrite Ho. mrun.
  unfold query_status. mrun. rewrite send_command_open, Hw.
  cbn [fst snd protocol connected relay_states].
  repeat split. intros ->. reflexivity.
Qed.

(** X11: A write that the driver reports as incomplete: [set_relay] returns
    False after that single write, without sleeping or reading back, and the
    cache is the one the status query before the write left, the request
    not written into it. *)
Theorem short_write_fails (s : state D) (relay_num : Z) (st : bool) (m : Z) (d2 : D) :
  connected s = true ->
  protocol s = Some (Protocol true) ->
  length (relay_states s) = 2%nat ->
  relay_num = 1 \/ relay_num = 2 ->
  let s1 := snd (get_relay_states s) in
  dev_write (frame_of relay_num st) (device (outside s1)) = (Return m, d2) ->
  m <> 4 ->
  set_relay relay_num st s
  = (Return false,
     State (Some (Protocol true)) true (relay_states s1)
       (World d2 (clock (outside s1))
          (trace (outside s1)
           ++ [EvWrite (frame_of relay_num st); EvError "Failed to send command!"]))).
Proof.
  destruct s as [p c l [d k t]]. cbn [connected protocol relay_states].
  intros -> -> Hl Hn. apply valid_relay_iff in Hn. cbv zeta.
  unfold set_relay. mrun. rewrite Hn. mrun.
  destruct (get_relay_states_footprint (Some (Protocol true)) l d k t)
    as (l1 & d1 & k1 & t1 & -> & Hl1 & _).
  cbn [snd outside device clock trace relay_states]. intros Hw Hm.
  pose proof (fresh_or_same_length _ _ Hl1 Hl) as Hlen.
  destruct l1 as [|a0 [|a1 [|a2 l1]]]; try discriminate Hlen.
  mrun. change ([a0; a1] !! Z.to_nat 0) with (Some a0).
  change ([a0; a1] !! Z.to_nat 1) with (Some a1). mrun.
  unfold Serial.set_relay. rewrite (build_command_valid relay_num st Hn).
  rewrite send_command_open, Hw. mrun.
  replace (m =? Z.of_nat (length (frame_of relay_num st))) with false
    by (symmetry; apply Z.eqb_neq; exact Hm).
  mrun. rewrite <- app_assoc. reflexivity.
Qed.

End ControllerMore.

Lemma garbled_response_keeps_cache_witness :
  let b := Board.Board true false [] (false, false) [String (ascii_of_nat 200) EmptyString] in
  fst (Serial.query_status (session b [true; false])) = Raise UnicodeDecodeError
  /\ fst (RelayController.get_relay_states (session b [true; false])) = Return [true; false].
Proof.
  cbv zeta.
  destruct (garbled_response_keeps_cache
              (session (Board.Board true false [] (false, false)
                          [String (ascii_of_nat 200) EmptyString]) [true; false])
              1 1
              (Board.Board true false [] (false, false) [String (ascii_of_nat 200) EmptyString])
              (Board.Board true false [] (false, false) [String (ascii_of_nat 200) EmptyString])
              (Board.Board true false [] (false, false) [])
              (String (ascii_of_nat 200) EmptyString))
    as (Hq & Hg & _); try reflexivity; [lia|].
  split; [exact Hq|exact Hg].
Defined.

Lemma connect_seeds_cache_witness :
  RelayController.connect
    (RelayController.init (World (Board.Board true true [] (true, false) []) 0 []))
  = (Return true,
     Serial.State (Some (Serial.Protocol true)) true [true; false]
       (World (Board.Board true true [] (true, false) []) 0
          [EvWrite [RelayProtocol.QUERY_CMD]])).
Proof.
  apply (connect_seeds_cache
           (RelayController.init (World (Board.Board true true [] (true, false) []) 0 []))
           1 (Z.of_nat (String.length (Board.status_line (true, false))) + 0)
           (Board.Board true true [] (true, false) [])
           (Board.Board true true [] (true, false) [Board.status_line (true, false)])
           (Board.Board true true [] (true, false) [Board.status_line (true, false)])
           (Board.Board true true [] (true, false) [])
           (Board.status_line (true, false)));
    try reflexivity; discriminate.
Defined.

Lemma failed_connect_leaves_port_open_witness :
  let s := RelayController.init (World ScriptedPort.broken 0 []) in
  fst (RelayController.connect s) = Return false
  /\ Serial.protocol (snd (RelayController.connect s)) = Some (Serial.Protocol true)
  /\ RelayController.cleanup (snd (RelayController.connect s))
     = (Return tt, snd (RelayController.connect s)).
Proof.
  cbv zeta.
  destruct (failed_connect_leaves_port_open
              (RelayController.init (World ScriptedPort.broken 0 []))
              ScriptedPort.broken ScriptedPort.broken (IOFault "write failed"))
    as (Hr & Hp & _ & _ & Hc); try reflexivity.
  split; [exact Hr|]. split; [exact Hp|]. apply Hc. reflexivity.
Defined.

Lemma short_write_fails_witness :
  fst (RelayController.set_relay 1 true
         (Serial.State (Some (Serial.Protocol true)) true [false; false]
            (World ScriptedPort.short 0 [])))
  = Return false.
Proof.
  rewrite (short_write_fails
             (Serial.State (Some (Serial.Protocol true)) true [false; false]
                (World ScriptedPort.short 0 []))
             1 true 3 ScriptedPort.short); try reflexivity; [left; reflexivity|lia].
Defined.

Section ControllerRuns.
Import RelayProtocol Serial RelayController ControllerMain.
Context {D : Type} `{SerialDevice D}.

Lemma run_op_disconnected (o : operation) p l (d : D) k t :
  o <> OpConnect ->
  exists t',
    run_op o (State p false l (World d k t)) = State p false l (World d k (t ++ t'))
    /\ writes t' = [] /\ sleeps t' = [].
Proof.
  intros Ho. destruct o as [| |n st|st|]; [congruence| | | |]; cbn [run_op].
  - unfold get_relay_states. mrun. cbn [snd]. eexists. repeat split.
  - unfold set_relay. mrun. cbn [snd]. eexists. repeat split.
  - unfold set_all_relays. mrun. cbn [snd]. eexists. repeat split.
  - unfold cleanup. mrun. cbn [snd]. exists []. rewrite app_nil_r. repeat split.
Qed.

(** X12: Without [connect] nothing ever reaches the wire: from a controller
    that is not connected, any sequence of the other public operations
    leaves the device, the clock, the port object and the cache as they
    were, writes no frame and does not even sleep. *)
Theorem no_connect_no_io (ops : list operation) (s : state D) :
  ~ In OpConnect ops ->
  connected s = false ->
  let s' := run_ops ops s in
  device (outside s') = device (outside s)
  /\ clock (outside s') = clock (outside s)
  /\ protocol s' = protocol s
  /\ connected s' = false
  /\ relay_states s' = relay_states s
  /\ writes (added (trace (outside s)) (trace (outside s'))) = []
  /\ sleeps (added (trace (outside s)) (trace (outside s'))) = [].
Proof.
  destruct s as [p c l [d k t]]. cbn [connected]. intros Hops ->. cbv zeta.
  assert (Hrun : exists t',
             run_ops ops (State p false l (World d k t))
             = State p false l (World d k (t ++ t'))
             /\ writes t' = [] /\ sleeps t' = []).
  { revert t. induction ops as [|o ops IH]; intros t.
    - exists []. rewrite app_nil_r. repeat split.
    - cbn [run_ops fold_left].
      destruct (run_op_disconnected o p l d k t) as (t1 & -> & Hw1 & Hs1).
      { intros ->. apply Hops. left. reflexivity. }
      destruct (IH (fun Hin => Hops (or_intror Hin)) (t ++ t1)) as (t2 & E & Hw2 & Hs2).
      unfold run_ops in E. rewrite E. exists (t1 ++ t2). rewrite <- app_assoc.
      rewrite writes_app, sleeps_app, Hw1, Hw2, Hs1, Hs2. repeat split. }
  destruct Hrun as (t' & -> & Hw & Hs).
  cbn [outside device clock trace protocol connected relay_states].
  rewrite added_app. repeat split; assumption.
Qed.



End ControllerRuns.

Lemma no_connect_no_io_witness :
  let s := RelayController.init (World Board.healthy 0 []) in
  let ops := [OpSetRelay 1 true; OpSetAllRelays true; OpGetRelayStates; OpCleanup] in
  device (Serial.outside (run_ops ops s)) = Board.healthy
  /\ writes (trace (Serial.outside (run_ops ops s))) = [].
Proof.
  cbv zeta.
  destruct (no_connect_no_io
              [OpSetRelay 1 true; OpSetAllRelays true; OpGetRelayStates; OpCleanup]
              (RelayController.init (World Board.healthy 0 [])))
    as (Hd & _ & _ & _ & _ & Hw & _).
  - intros [Hin|[Hin|[Hin|[Hin|[]]]]]; discriminate Hin.
  - reflexivity.
  - split; [exact Hd|exact Hw].
Defined.

(** ** Verification on the serial board *)

Section BoardVerification.
Import RelayProtocol Serial RelayController Board.

Lemma board_set_relay_result (b : board) n st l k t :
  valid_relay n = true -> rx b = [] -> length l = 2%nat ->
  fst (set_relay n st (State (Some (Protocol true)) true l (World b k t)))
  = Return (if link_up b then
              if answers b
              then Bool.eqb (channel_of n (relays (receive (frame_of n st) b))) st
              else true
            else false).
Proof.
  intros Hv Hrx Hl. unfold set_relay. mrun. rewrite Hv. mrun.
  destruct (board_get_relay_states b l k t Hrx) as (k1 & t1 & -> & _).
  assert (Hi : (Z.to_nat (n - 1) < 2)%nat) by (apply valid_relay_iff in Hv; lia).
  destruct (receive_frame_keeps n st b) as (Hlk' & Han' & _ & Hrx').
  rewrite Hrx in Hrx'.
  destruct l as [|c0 [|c1 [|c2 l]]]; try discriminate Hl.
  destruct b as [lk an j [r1 r2] q]. cbn [rx] in Hrx. subst q.
  cbn [link_up answers relays] in *. cbv zeta. mrun.
  destruct lk; [destruct an|]; cbn [andb orb].
  - change ([r1; r2] !! Z.to_nat 0) with (Some r1).
    change ([r1; r2] !! Z.to_nat 1) with (Some r2). mrun.
    unfold Serial.set_relay. rewrite (build_command_valid n st Hv).
    rewrite send_command_open, board_write. cbn [link_up]. mrun.
    rewrite Z.eqb_refl. unfold setitem_relay_states. mrun. cbn [length].
    replace (Z.to_nat (n - 1) <? 2)%nat with true by (symmetry; now apply Nat.ltb_lt).
    mrun. rewrite board_tick.
    destruct (board_get_relay_states (receive (frame_of n st) (Board true true j (r1, r2) []))
                (<[Z.to_nat (n - 1) := st]> [r1; r2])
                (k1 + 100) (((t ++ t1) ++ [EvWrite (frame_of n st)]) ++ [EvSleep 100]) Hrx')
      as (k2 & t2 & -> & _).
    rewrite Hlk', Han'. cbn [andb]. cbv zeta. mrun.
    change (Z.to_nat 0) with 0%nat. change (Z.to_nat 1) with 1%nat.
    unfold channel_of. mrun.
    apply valid_relay_iff in Hv. destruct Hv as [-> | ->].
    + change (Z.to_nat (1 - 1)) with 0%nat. change (1 =? 1) with true.
      cbn [lookup list_lookup].
      match goal with
      | |- context [eqb ?a st] => destruct (eqb a st)
      end; mrun; reflexivity.
    + change (Z.to_nat (2 - 1)) with 1%nat. change (2 =? 1) with false.
      cbn [lookup list_lookup].
      match goal with
      | |- context [eqb ?a st] => destruct (eqb a st)
      end; mrun; reflexivity.
  - change ([c0; c1] !! Z.to_nat 0) with (Some c0).
    change ([c0; c1] !! Z.to_nat 1) with (Some c1). mrun.
    unfold Serial.set_relay. rewrite (build_command_valid n st Hv).
    rewrite send_command_open, board_write. cbn [link_up]. mrun.
    rewrite Z.eqb_refl. unfold setitem_relay_states. mrun. cbn [length].
    replace (Z.to_nat (n - 1) <? 2)%nat with true by (symmetry; now apply Nat.ltb_lt).
    mrun. rewrite board_tick.
    destruct (board_get_relay_states (receive (frame_of n st) (Board true false j (r1, r2) []))
                (<[Z.to_nat (n - 1) := st]> [c0; c1])
                (k1 + 100) (((t ++ t1) ++ [EvWrite (frame_of n st)]) ++ [EvSleep 100]) Hrx')
      as (k2 & t2 & -> & _).
    rewrite Hlk', Han'. cbn [andb]. cbv zeta. mrun.
    rewrite list_lookup_insert_eq by (cbn [length]; lia). mrun.
    rewrite eqb_reflx. reflexivity.
  - change ([c0; c1] !! Z.to_nat 0) with (Some c0).
    change ([c0; c1] !! Z.to_nat 1) with (Some c1). mrun.
    unfold Serial.set_relay. rewrite (build_command_valid n st Hv).
    rewrite send_command_open, board_write. cbn [link_up]. mrun. reflexivity.
Qed.

End BoardVerification.

Section BoardVerdicts.
Import RelayProtocol Serial RelayController Board.

Lemma eqb_true_eq (a b : bool) : Bool.eqb a b = true <-> a = b.
Proof. destruct a, b; cbn; split; congruence. Qed.

(** X15: On a board that does not answer its status queries nothing is
    verified: once the frame is written [set_relay] returns True and caches
    the request, also when the relay is jammed and has not moved. *)
Theorem unanswered_verification_passes (b : board) (l : list bool) (k : Z)
    (t : list event) (n : Z) (st : bool) :
  n = 1 \/ n = 2 ->
  rx b = [] ->
  length l = 2%nat ->
  link_up b = true ->
  answers b = false ->
  let s := State (Some (Protocol true)) true l (World b k t) in
  let s' := snd (set_relay n st s) in
  fst (set_relay n st s) = Return true
  /\ relay_states s' !! Z.to_nat (n - 1) = Some st
  /\ (is_jammed b n = true -> relays (device (outside s')) = relays b).
Proof.
  intros Hn Hrx Hl Hlk Han. apply valid_relay_iff in Hn. cbv zeta.
  rewrite (board_set_relay_result b n st l k t Hn Hrx Hl).
  destruct (board_set_relay b n st l k t Hn Hrx) as (r & k' & t' & ->).
  cbn [snd outside device relay_states]. unfold cache_next, board_next.
  rewrite Hlk, Han, Hl. cbn [andb orb Nat.leb].
  split; [reflexivity|]. split.
  - apply list_lookup_insert_eq. apply valid_relay_iff in Hn. lia.
  - intros Hj. rewrite receive_frame, Hj. reflexivity.
Qed.

End BoardVerdicts.

Lemma unanswered_verification_passes_witness :
  let b := Board.Board true false [1] (false, false) [] in
  fst (RelayController.set_relay 1 true (session b [false; false])) = Return true
  /\ Board.relays
       (device (Serial.outside (snd (RelayController.set_relay 1 true
                                        (session b [false; false])))))
     = (false, false).
Proof.
  cbv zeta.
  destruct (unanswered_verification_passes
              (Board.Board true false [1] (false, false) []) [false; false] 0 [] 1 true)
    as (Hr & _ & Hj);
    [left; reflexivity|reflexivity|reflexivity|reflexivity|reflexivity|].
  split; [exact Hr|]. apply Hj. reflexivity.
Defined.

(** ** hid_relay.py: send_command, the opcodes and connect *)

Section HidMore.
Context {H : Type} `{HidDevice H} `{HidHandle H}.


(** X18: The opcodes [HIDRelay.set_relay] picks can be told apart: two
    valid requests with the same opcode are the same request, no opcode of a
    single relay is the all-on (0xFF) or all-off (0x00) opcode of
    [set_all_relays], the off opcode of a relay is its number and the on
    opcode is its complement within a byte. *)
Theorem hid_opcode_decodable (n n' : Z) (st st' : bool) :
  RelayProtocol.valid_relay n = true ->
  RelayProtocol.valid_relay n' = true ->
  (HIDRelay.relay_opcode n st = HIDRelay.relay_opcode n' st' -> n = n' /\ st = st')
  /\ HIDRelay.relay_opcode n st <> 0xFF
  /\ HIDRelay.relay_opcode n st <> 0x00
  /\ HIDRelay.relay_opcode n false = n
  /\ HIDRelay.relay_opcode n true = Z.lxor 0xFF (HIDRelay.relay_opcode n false).
Proof.
  intros Hn Hn'. apply valid_relay_iff in Hn. apply valid_relay_iff in Hn'.
  destruct Hn as [-> | ->], Hn' as [-> | ->], st, st';
    cbn; repeat split; try discriminate; try reflexivity.
Qed.


(** X20: A [connect] whose [device.open] raises returns False but leaves
    [self.device] assigned: a later [send_command] does not raise "Device
    not connected", it hands its frame to the handle that was never
    opened. *)
Theorem hid_failed_open_leaves_handle (s : HIDRelay.state H) (h1 h2 : H) (e : exn) :
  hid_enumerate (device (HIDRelay.outside s)) = (Return tt, h1) ->
  hid_open HIDRelayConnect.vendor_id HIDRelayConnect.product_id h1 = (Raise e, h2) ->
  exists s',
    HIDRelayConnect.connect s = (Return false, s')
    /\ HIDRelay.device_set s' = true
    /\ device (HIDRelay.outside s') = h2
    /\ forall data, exists b s'',
         HIDRelay.send_command data s' = (Return b, s'')
         /\ writes (added (trace (HIDRelay.outside s')) (trace (HIDRelay.outside s'')))
            = [0x00 :: data].
Proof.
  destruct s as [ds [h k t]]. cbn [HIDRelay.outside device]. intros He Ho.
  unfold HIDRelayConnect.connect, HIDRelayConnect.set_device. hrun.
  rewrite He, Ho. eexists. split; [reflexivity|].
  cbn [HIDRelay.device_set HIDRelay.outside device trace].
  split; [reflexivity|]. split; [reflexivity|].
  intros data.
  destruct (hid_send_command_frame data h2 k (t ++ [EvErrorExn "Failed to connect" e]))
    as (b & h' & k' & t' & E & Hw).
  exists b. eexists. split; [exact E|].
  cbn [HIDRelay.outside trace]. rewrite added_app. exact Hw.
Qed.

End HidMore.


Lemma hid_opcode_decodable_witness :
  HIDRelay.relay_opcode 2 true = 0xFD /\ HIDRelay.relay_opcode 2 false = 2.
Proof.
  destruct (hid_opcode_decodable 2 2 true true eq_refl eq_refl) as (_ & _ & _ & Hoff & Hon).
  split; [rewrite Hon, Hoff; reflexivity|exact Hoff].
Defined.

Lemma hid_failed_open_leaves_handle_witness :
  exists s',
    HIDRelayConnect.connect (HIDRelay.State false (World Unplugged 0 []))
    = (Return false, s')
    /\ HIDRelay.device_set s' = true.
Proof.
  destruct (hid_failed_open_leaves_handle (HIDRelay.State false (World Unplugged 0 []))
              Unplugged Unplugged (IOFault "open failed"))
    as (s' & E & Hd & _); [reflexivity|reflexivity|].
  exists s'. split; [exact E|exact Hd].
Defined.

(** ** src/relay_unified.py: RelayDevice *)

Section UnifiedSend.
Context {H : Type} `{HidDevice H}.

(** The padding of [_send_command] fills a command up to eight bytes
    with zeros behind it and never cuts: a command of eight bytes or more
    goes out as it is. *)
Lemma pad8_shape (cmd : list Z) :
  firstn (length cmd) (RelayDevice.pad8 cmd) = cmd
  /\ skipn (length cmd) (RelayDevice.pad8 cmd) = repeat 0 (8 - length cmd)%nat
  /\ length (RelayDevice.pad8 cmd) = Nat.max 8 (length cmd).
Proof.
  unfold RelayDevice.pad8.
  replace (Z.to_nat (8 - Z.of_nat (length cmd))) with (8 - length cmd)%nat by lia.
  split; [apply take_app_length|]. split; [apply drop_app_length|].
  rewrite length_app, repeat_length. lia.
Qed.

(** The retry loop touches neither the platform nor the two flags. *)
Lemma attempts_footprint full_cmd todo : forall pf ds c (w : world H),
  exists r w',
    RelayDevice.attempts full_cmd todo (RelayDevice.State pf ds c w)
    = (r, RelayDevice.State pf ds c w').
Proof.
  induction todo as [|attempt rest IH]; intros pf ds c [h k t].
  - do 2 eexists. reflexivity.
  - cbn [RelayDevice.attempts]. urun.
    destruct (hid_write full_cmd h) as [[n|e] h1].
    + destruct (hid_read 8 100 h1) as [[resp|e] h2].
      * do 2 eexists. reflexivity.
      * destruct (attempt =? Z.of_nat RelayDevice.max_retries - 1).
        -- do 2 eexists. reflexivity.
        -- apply IH.
    + destruct (attempt =? Z.of_nat RelayDevice.max_retries - 1).
      * do 2 eexists. reflexivity.
      * apply IH.
Qed.

(** [_send_command] always returns; it leaves the platform and the
    handle alone and can only clear [connected]. *)
Lemma send_command_fields name channel pf ds c (w : world H) :
  exists r c' w',
    RelayDevice._send_command name channel (RelayDevice.State pf ds c w)
    = (Return r, RelayDevice.State pf ds c' w')
    /\ (c' = true -> c = true)
    /\ (ds && c = false -> c' = c /\ w' = w).
Proof.
  unfold RelayDevice._send_command. urun.
  destruct ds, c;
    try (do 3 eexists; split;
         [reflexivity|split; [intros E; exact E|intros _; split; reflexivity]]).
  destruct (String.eqb pf "darwin");
    [|do 3 eexists; split; [reflexivity|split; [reflexivity|discriminate]]].
  destruct (RelayDevice.HID_COMMANDS name) as [f|].
  - destruct (attempts_footprint (RelayDevice.pad8 (f channel)) (range RelayDevice.max_retries)
                pf true true w) as ([r|e] & [h k t] & ->);
      do 3 eexists; (split; [reflexivity|split; [reflexivity|discriminate]]).
  - destruct w as [h k t].
    do 3 eexists; (split; [reflexivity|split; [reflexivity|discriminate]]).
Qed.

(** One failed attempt, whether the write or the read raised: the last
    one re-raises, any other pauses and goes on. *)
Lemma attempt_fails_on_step full_cmd attempt rest pf ds c (h h' : H) k t :
  attempt_fails_on full_cmd h h' ->
  exists e,
    RelayDevice.attempts full_cmd (attempt :: rest)
      (RelayDevice.State pf ds c (World h k t))
    = if attempt =? Z.of_nat RelayDevice.max_retries - 1
      then (Raise e, RelayDevice.State pf ds c (World h' k (t ++ [EvWrite full_cmd])))
      else RelayDevice.attempts full_cmd rest
             (RelayDevice.State pf ds c
                (World (hid_tick 100 h') (k + 100)
                   ((t ++ [EvWrite full_cmd]) ++ [EvSleep 100]))).
Proof.
  intros [(e & Hw) | (n & h1 & e & Hw & Hr)]; exists e;
    cbn [RelayDevice.attempts]; urun; rewrite Hw; cbv beta iota; try rewrite Hr;
    destruct (attempt =? Z.of_nat RelayDevice.max_retries - 1); reflexivity.
Qed.

(** One attempt whose write and read both return ends the loop. *)
Lemma attempt_succeeds full_cmd attempt rest pf ds c (h h1 h2 : H) n response k t :
  hid_write full_cmd h = (Return n, h1) ->
  hid_read 8 100 h1 = (Return response, h2) ->
  RelayDevice.attempts full_cmd (attempt :: rest)
    (RelayDevice.State pf ds c (World h k t))
  = (Return (Some true), RelayDevice.State pf ds c (World h2 k (t ++ [EvWrite full_cmd]))).
Proof.
  intros Hw Hr. cbn [RelayDevice.attempts]. urun. rewrite Hw. cbv beta iota.
  rewrite Hr. reflexivity.
Qed.

(** The loop when [j] attempts fail and the next one goes through. *)
Lemma attempts_retry full_cmd pf ds c (h h1 h2 h3 : H) k t j n response :
  (j < RelayDevice.max_retries)%nat ->
  attempts_fail j full_cmd h h1 ->
  hid_write full_cmd h1 = (Return n, h2) ->
  hid_read 8 100 h2 = (Return response, h3) ->
  exists t',
    RelayDevice.attempts full_cmd (range RelayDevice.max_retries)
      (RelayDevice.State pf ds c (World h k t))
    = (Return (Some true),
       RelayDevice.State pf ds c (World h3 (k + 100 * Z.of_nat j) (t ++ t')))
    /\ writes t' = repeat full_cmd (S j)
    /\ sleeps t' = repeat 100 j.
Proof.
  intros Hj Hf Hw Hr. change (range RelayDevice.max_retries) with [0; 1; 2].
  destruct j as [|[|[|j]]]; [| | |unfold RelayDevice.max_retries in Hj; lia].
  - cbn [attempts_fail] in Hf. subst h1.
    rewrite (attempt_succeeds _ _ _ _ _ _ _ _ _ _ _ _ _ Hw Hr).
    exists [EvWrite full_cmd]. replace (k + 100 * Z.of_nat 0) with k by lia.
    repeat split.
  - cbn [attempts_fail] in Hf. destruct Hf as (ha & Ha & ->).
    destruct (attempt_fails_on_step full_cmd 0 [1; 2] pf ds c h ha k t Ha) as [e ->].
    change (0 =? Z.of_nat RelayDevice.max_retries - 1) with false. cbv iota.
    rewrite (attempt_succeeds _ _ _ _ _ _ _ _ _ _ _ _ _ Hw Hr).
    exists [EvWrite full_cmd; EvSleep 100; EvWrite full_cmd].
    replace (k + 100 * Z.of_nat 1) with (k + 100) by lia.
    rewrite <- !app_assoc. repeat split.
  - cbn [attempts_fail] in Hf. destruct Hf as (ha & Ha & hb & Hb & ->).
    destruct (attempt_fails_on_step full_cmd 0 [1; 2] pf ds c h ha k t Ha) as [e ->].
    change (0 =? Z.of_nat RelayDevice.max_retries - 1) with false. cbv iota.
    destruct (attempt_fails_on_step full_cmd 1 [2] pf ds c (hid_tick 100 ha) hb (k + 100)
                ((t ++ [EvWrite full_cmd]) ++ [EvSleep 100]) Hb) as [e' ->].
    change (1 =? Z.of_nat RelayDevice.max_retries - 1) with false. cbv iota.
    rewrite (attempt_succeeds _ _ _ _ _ _ _ _ _ _ _ _ _ Hw Hr).
    exists [EvWrite full_cmd; EvSleep 100; EvWrite full_cmd; EvSleep 100; EvWrite full_cmd].
    replace (k + 100 * Z.of_nat 2) with (k + 100 + 100) by lia.
    rewrite <- !app_assoc. repeat split.
Qed.

(** The loop when all three attempts fail, whatever made each fail. *)
Lemma attempts_exhausted full_cmd pf ds c (h h2 h3 : H) k t :
  attempts_fail 2 full_cmd h h2 ->
  attempt_fails_on full_cmd h2 h3 ->
  exists e,
    RelayDevice.attempts full_cmd (range RelayDevice.max_retries)
      (RelayDevice.State pf ds c (World h k t))
    = (Raise e,
       RelayDevice.State pf ds c
         (World h3 (k + 100 + 100)
            (t ++ [EvWrite full_cmd; EvSleep 100; EvWrite full_cmd; EvSleep 100;
                   EvWrite full_cmd]))).
Proof.
  intros Hf Hl. change (range RelayDevice.max_retries) with [0; 1; 2].
  cbn [attempts_fail] in Hf. destruct Hf as (ha & Ha & hb & Hb & ->).
  destruct (attempt_fails_on_step full_cmd 0 [1; 2] pf ds c h ha k t Ha) as [e ->].
  change (0 =? Z.of_nat RelayDevice.max_retries - 1) with false. cbv iota.
  destruct (attempt_fails_on_step full_cmd 1 [2] pf ds c (hid_tick 100 ha) hb (k + 100)
              ((t ++ [EvWrite full_cmd]) ++ [EvSleep 100]) Hb) as [e' ->].
  change (1 =? Z.of_nat RelayDevice.max_retries - 1) with false. cbv iota.
  destruct (attempt_fails_on_step full_cmd 2 [] pf ds c (hid_tick 100 hb) h3 (k + 100 + 100)
              (((t ++ [EvWrite full_cmd]) ++ [EvSleep 100]) ++ [EvWrite full_cmd]
                 ++ [EvSleep 100]) Hl) as [e'' E].
  rewrite <- !app_assoc in *. cbn [app] in *. rewrite E.
  change (2 =? Z.of_nat RelayDevice.max_retries - 1) with true. cbv iota.
  exists e''. reflexivity.
Qed.

(** X21: When the first [j] attempts of a command fail (j < 3) and the next
    one goes through, [_send_command] returns True and the device stays
    connected; the padded frame was written [j + 1] times with a pause of
    100 ms after each failure. *)
Theorem unified_retry_succeeds (name : string) (cmd : Z -> list Z) (channel : Z)
    (s : RelayDevice.state H) (j : nat) (h1 h2 h3 : H) (n : Z) (response : list Z) :
  RelayDevice.platform s = "darwin" ->
  RelayDevice.device_set s = true ->
  RelayDevice.connected s = true ->
  RelayDevice.HID_COMMANDS name = Some cmd ->
  (j < RelayDevice.max_retries)%nat ->
  attempts_fail j (RelayDevice.pad8 (cmd channel)) (device (RelayDevice.outside s)) h1 ->
  hid_write (RelayDevice.pad8 (cmd channel)) h1 = (Return n, h2) ->
  hid_read 8 100 h2 = (Return response, h3) ->
  exists s',
    RelayDevice._send_command name channel s = (Return (Some true), s')
    /\ RelayDevice.connected s' = true
    /\ device (RelayDevice.outside s') = h3
    /\ clock (RelayDevice.outside s') = clock (RelayDevice.outside s) + 100 * Z.of_nat j
    /\ writes (added (trace (RelayDevice.outside s)) (trace (RelayDevice.outside s')))
       = repeat (RelayDevice.pad8 (cmd channel)) (S j)
    /\ sleeps (added (trace (RelayDevice.outside s)) (trace (RelayDevice.outside s')))
       = repeat 100 j.
Proof.
  destruct s as [pf ds c [h k t]].
  cbn [RelayDevice.platform RelayDevice.device_set RelayDevice.connected
       RelayDevice.outside device clock trace].
  intros -> -> -> Hc Hj Hf Hw Hr.
  destruct (attempts_retry _ "darwin" true true h h1 h2 h3 k t j n response Hj Hf Hw Hr)
    as (t' & E & Hws & Hsl).
  unfold RelayDevice._send_command. urun.
  cbn [String.eqb Ascii.eqb Bool.eqb]. cbv iota. rewrite Hc, E.
  eexists. split; [reflexivity|].
  cbn [RelayDevice.connected RelayDevice.outside device clock trace].
  rewrite added_app. repeat split; assumption.
Qed.

(** X22: When three attempts in a row fail, through the write or through
    the read after it, [_send_command] has written the padded frame three
    times, 100 ms apart, returns False and marks the device disconnected: a
    device that takes the writes and fails the reads gets every command
    three times. *)
Theorem unified_retry_exhausted (name : string) (cmd : Z -> list Z) (channel : Z)
    (s : RelayDevice.state H) (h2 h3 : H) :
  RelayDevice.platform s = "darwin" ->
  RelayDevice.device_set s = true ->
  RelayDevice.connected s = true ->
  RelayDevice.HID_COMMANDS name = Some cmd ->
  attempts_fail 2 (RelayDevice.pad8 (cmd channel)) (device (RelayDevice.outside s)) h2 ->
  attempt_fails_on (RelayDevice.pad8 (cmd channel)) h2 h3 ->
  exists e s',
    RelayDevice._send_command name channel s = (Return (Some false), s')
    /\ RelayDevice.connected s' = false
    /\ device (RelayDevice.outside s') = h3
    /\ added (trace (RelayDevice.outside s)) (trace (RelayDevice.outside s'))
       = [EvWrite (RelayDevice.pad8 (cmd channel)); EvSleep 100;
          EvWrite (RelayDevice.pad8 (cmd channel)); EvSleep 100;
          EvWrite (RelayDevice.pad8 (cmd channel));
          EvErrorExn "Command error" e].
Proof.
  destruct s as [pf ds c [h k t]].
  cbn [RelayDevice.platform RelayDevice.device_set RelayDevice.connected
       RelayDevice.outside device clock trace].
  intros -> -> -> Hc Hf Hl.
  destruct (attempts_exhausted _ "darwin" true true h h2 h3 k t Hf Hl) as (e & E).
  unfold RelayDevice._send_command. urun.
  cbn [String.eqb Ascii.eqb Bool.eqb]. cbv iota. rewrite Hc, E.
  exists e. eexists. split; [reflexivity|].
  cbn [RelayDevice.connected RelayDevice.outside device clock trace].
  rewrite <- app_assoc, added_app. repeat split.
Qed.

(** A command name that is not in HID_COMMANDS: the KeyError is caught,
    nothing is written, and the call returns False with the device marked
    disconnected. *)
Lemma unknown_command_disconnects (name : string) (channel : Z)
    (s : RelayDevice.state H) :
  RelayDevice.platform s = "darwin" ->
  RelayDevice.device_set s = true ->
  RelayDevice.connected s = true ->
  RelayDevice.HID_COMMANDS name = None ->
  RelayDevice._send_command name channel s
  = (Return (Some false),
     RelayDevice.State "darwin" true false
       (World (device (RelayDevice.outside s)) (clock (RelayDevice.outside s))
          (trace (RelayDevice.outside s) ++ [EvErrorExn "Command error" (KeyError name)]))).
Proof.
  destruct s as [pf ds c [h k t]].
  cbn [RelayDevice.platform RelayDevice.device_set RelayDevice.connected
       RelayDevice.outside device clock trace].
  intros -> -> -> Hc. unfold RelayDevice._send_command. urun.
  cbn [String.eqb Ascii.eqb Bool.eqb]. cbv iota. rewrite Hc. reflexivity.
Qed.

End UnifiedSend.

Lemma unified_retry_succeeds_witness :
  fst (RelayDevice.open_channel 1 (flaky_session (FlakyHid.Flaky 2 false [])))
  = Return (Some true).
Proof.
  destruct (unified_retry_succeeds "OPEN_ONE" (fun channel => [0x0; 0xFF; channel]) 1
              (flaky_session (FlakyHid.Flaky 2 false [])) 2
              (FlakyHid.Flaky 0 false []) (FlakyHid.Flaky 0 false [])
              (FlakyHid.Flaky 0 false []) 8 [])
    as (s' & E & _);
    [reflexivity|reflexivity|reflexivity|reflexivity|unfold RelayDevice.max_retries; lia
    | |reflexivity|reflexivity|].
  - exists (FlakyHid.Flaky 1 false []). split; [left; eexists; reflexivity|].
    exists (FlakyHid.Flaky 0 false []). split; [left; eexists; reflexivity|].
    reflexivity.
  - unfold RelayDevice.open_channel. rewrite E. reflexivity.
Defined.

Lemma unified_retry_exhausted_witness :
  exists s',
    RelayDevice.close_channel 2 (flaky_session (FlakyHid.Flaky 0 true []))
    = (Return (Some false), s')
    /\ writes (trace (RelayDevice.outside s'))
       = [[0; 0xFD; 2; 0; 0; 0; 0; 0]; [0; 0xFD; 2; 0; 0; 0; 0; 0];
          [0; 0xFD; 2; 0; 0; 0; 0; 0]].
Proof.
  destruct (unified_retry_exhausted "CLOSE_ONE" (fun channel => [0x0; 0xFD; channel]) 2
              (flaky_session (FlakyHid.Flaky 0 true []))
              (FlakyHid.Flaky 0 true []) (FlakyHid.Flaky 0 true []))
    as (e & s' & E & _ & _ & Ht);
    [reflexivity|reflexivity|reflexivity|reflexivity| | |].
  - exists (FlakyHid.Flaky 0 true []).
    split; [right; do 3 eexists; split; reflexivity|].
    exists (FlakyHid.Flaky 0 true []).
    split; [right; do 3 eexists; split; reflexivity|]. reflexivity.
  - right. do 3 eexists. split; reflexivity.
  - exists s'. split; [exact E|].
    change (trace (RelayDevice.outside s'))
      with (added (trace (RelayDevice.outside (flaky_session (FlakyHid.Flaky 0 true []))))
                  (trace (RelayDevice.outside s'))).
    rewrite Ht. reflexivity.
Defined.

Lemma unknown_command_disconnects_witness :
  fst (RelayDevice._send_command "TOGGLE" 1 (flaky_session (FlakyHid.Flaky 0 false [])))
  = Return (Some false).
Proof.
  rewrite (unknown_command_disconnects "TOGGLE" 1 (flaky_session (FlakyHid.Flaky 0 false []))
             eq_refl eq_refl eq_refl eq_refl).
  reflexivity.
Defined.

(** ** src/relay_unified.py: status, life cycle and cleanup of RelayDevice *)

Section UnifiedLife.
Context {H : Type} `{HidDevice H} `{HidHandle H}.

(** [bool(status & (1 << i))] is bit [i] of [status]. *)
Lemma bit_set_testbit (status i : Z) :
  0 <= i -> RelayDeviceLife.bit_set status i = Z.testbit status i.
Proof.
  intros Hi. unfold RelayDeviceLife.bit_set. rewrite Z.shiftl_1_l.
  destruct (Z.testbit status i) eqn:E.
  - destruct (Z.land status (2 ^ i) =? 0) eqn:E0; [|reflexivity].
    apply Z.eqb_eq in E0.
    assert (Hb : Z.testbit (Z.land status (2 ^ i)) i = true).
    { rewrite Z.land_spec, E, Z.pow2_bits_true by lia. reflexivity. }
    rewrite E0, Z.bits_0 in Hb. discriminate Hb.
  - replace (Z.land status (2 ^ i)) with 0; [reflexivity|].
    symmetry. apply Z.bits_inj'. intros n Hn.
    rewrite Z.land_spec, Z.bits_0, Z.pow2_bits_eqb by lia.
    destruct (Z.eqb_spec i n) as [->|]; [rewrite E; reflexivity|apply andb_false_r].
Qed.

(** X23: [get_status] decodes the report that follows the one [_send_command]
    consumed: after the status frame is written, the first report read is
    dropped and bit 0 and bit 1 of the first byte of the second report are
    relay1 and relay2. *)
Theorem get_status_reads_second_report (s : RelayDevice.state H) (n status : Z)
    (first rest : list Z) (h1 h2 h3 : H) :
  RelayDevice.platform s = "darwin" ->
  RelayDevice.device_set s = true ->
  RelayDevice.connected s = true ->
  hid_write [0; 0; 0; 0; 0; 0; 0; 0] (device (RelayDevice.outside s)) = (Return n, h1) ->
  hid_read 8 100 h1 = (Return first, h2) ->
  hid_read 8 100 h2 = (Return (status :: rest), h3) ->
  RelayDeviceLife.get_status s
  = (Return (Some [("relay1", Z.testbit status 0); ("relay2", Z.testbit status 1)]),
     RelayDevice.State "darwin" true true
       (World h3 (clock (RelayDevice.outside s))
          (trace (RelayDevice.outside s) ++ [EvWrite [0; 0; 0; 0; 0; 0; 0; 0]]))).
Proof.
  destruct s as [pf ds c [h k t]].
  cbn [RelayDevice.platform RelayDevice.device_set RelayDevice.connected
       RelayDevice.outside device clock trace].
  intros -> -> -> Hw Hr1 Hr2.
  unfold RelayDeviceLife.get_status. urun.
  cbn [String.eqb Ascii.eqb Bool.eqb]. cbv iota.
  unfold RelayDevice._send_command. urun.
  cbn [String.eqb Ascii.eqb Bool.eqb]. cbv iota.
  change (RelayDevice.HID_COMMANDS "GET_STATUS") with (Some (fun _ : Z => [0; 0; 0])).
  cbv iota beta. change (RelayDevice.pad8 [0; 0; 0]) with [0; 0; 0; 0; 0; 0; 0; 0].
  change (range RelayDevice.max_retries) with [0; 1; 2].
  rewrite (attempt_succeeds _ _ _ _ _ _ _ _ _ _ _ _ _ Hw Hr1).
  cbv beta iota. rewrite Hr2. cbv beta iota.
  change ((status :: rest) !! Z.to_nat 0) with (Some status).
  unfold RelayDeviceLife.status_dict.
  rewrite !bit_set_testbit by lia. reflexivity.
Qed.

(** X24: A device that has no second report to give (the read returns an
    empty list): [get_status] catches the IndexError, returns None and marks
    the device disconnected, although the write and both reads went
    through. *)
Theorem get_status_empty_report (s : RelayDevice.state H) (n : Z)
    (first : list Z) (h1 h2 h3 : H) :
  RelayDevice.platform s = "darwin" ->
  RelayDevice.device_set s = true ->
  RelayDevice.connected s = true ->
  hid_write [0; 0; 0; 0; 0; 0; 0; 0] (device (RelayDevice.outside s)) = (Return n, h1) ->
  hid_read 8 100 h1 = (Return first, h2) ->
  hid_read 8 100 h2 = (Return [], h3) ->
  RelayDeviceLife.get_status s
  = (Return None,
     RelayDevice.State "darwin" true false
       (World h3 (clock (RelayDevice.outside s))
          (trace (RelayDevice.outside s)
             ++ [EvWrite [0; 0; 0; 0; 0; 0; 0; 0]; EvErrorExn "Status error" IndexError]))).
Proof.
  destruct s as [pf ds c [h k t]].
  cbn [RelayDevice.platform RelayDevice.device_set RelayDevice.connected
       RelayDevice.outside device clock trace].
  intros -> -> -> Hw Hr1 Hr2.
  unfold RelayDeviceLife.get_status. urun.
  cbn [String.eqb Ascii.eqb Bool.eqb]. cbv iota.
  unfold RelayDevice._send_command. urun.
  cbn [String.eqb Ascii.eqb Bool.eqb]. cbv iota.
  change (RelayDevice.HID_COMMANDS "GET_STATUS") with (Some (fun _ : Z => [0; 0; 0])).
  cbv iota beta. change (RelayDevice.pad8 [0; 0; 0]) with [0; 0; 0; 0; 0; 0; 0; 0].
  change (range RelayDevice.max_retries) with [0; 1; 2].
  rewrite (attempt_succeeds _ _ _ _ _ _ _ _ _ _ _ _ _ Hw Hr1).
  cbv beta iota. rewrite Hr2. cbv beta iota.
  change (@nil Z !! Z.to_nat 0) with (@None Z). cbv beta iota.
  rewrite <- app_assoc. reflexivity.
Qed.

(** [close] always returns; it leaves the platform alone and keeps
    [connected] from outliving the handle. *)
Lemma close_fields pf ds c (w : world H) :
  (c = true -> ds = true) ->
  exists ds' c' w',
    RelayDeviceLife.close (RelayDevice.State pf ds c w)
    = (Return tt, RelayDevice.State pf ds' c' w')
    /\ (c' = true -> ds' = true)
    /\ (c = false -> c' = false /\ w' = w)
    /\ ((forall h, returns (fst (hid_close h))) -> c' = false).
Proof.
  intros Hinv. destruct w as [h k t].
  unfold RelayDeviceLife.close, RelayDeviceLife.set_device. urun.
  destruct ds, c; cbn [andb]; cbv iota;
    try (do 3 eexists; split; [reflexivity|];
         split; [discriminate|]; split; [intros _; split; reflexivity|reflexivity]).
  - destruct (String.eqb pf "darwin").
    + destruct (hid_close h) as [[[]|e] h1] eqn:Ec.
      * do 3 eexists. split; [reflexivity|].
        split; [discriminate|]. split; [discriminate|reflexivity].
      * do 3 eexists. split; [reflexivity|].
        split; [reflexivity|]. split; [discriminate|].
        intros Hret. destruct (Hret h) as [a Ha]. rewrite Ec in Ha. discriminate Ha.
    + do 3 eexists. split; [reflexivity|].
      split; [discriminate|]. split; [discriminate|reflexivity].
  - specialize (Hinv eq_refl). discriminate Hinv.
Qed.

(** X25: [cleanup] after a CLOSE_ALL that failed three times: [_send_command]
    has marked the device disconnected, so [close] drops the handle without
    closing it; nothing is raised. *)
Theorem unified_cleanup_skips_close (s : RelayDevice.state H) (h2 h3 : H) :
  RelayDevice.platform s = "darwin" ->
  RelayDevice.device_set s = true ->
  RelayDevice.connected s = true ->
  attempts_fail 2 [0; 0xFD; 0; 0; 0; 0; 0; 0] (device (RelayDevice.outside s)) h2 ->
  attempt_fails_on [0; 0xFD; 0; 0; 0; 0; 0; 0] h2 h3 ->
  exists e,
    RelayDeviceLife.cleanup s
    = (Return tt,
       RelayDevice.State "darwin" false false
         (World (hid_tick 100 h3) (clock (RelayDevice.outside s) + 100 + 100 + 100)
            (trace (RelayDevice.outside s)
               ++ [EvWrite [0; 0xFD; 0; 0; 0; 0; 0; 0]; EvSleep 100;
                   EvWrite [0; 0xFD; 0; 0; 0; 0; 0; 0]; EvSleep 100;
                   EvWrite [0; 0xFD; 0; 0; 0; 0; 0; 0];
                   EvErrorExn "Command error" e; EvSleep 100]))).
Proof.
  destruct s as [pf ds c [h k t]].
  cbn [RelayDevice.platform RelayDevice.device_set RelayDevice.connected
       RelayDevice.outside device clock trace].
  intros -> -> -> Hf Hl.
  destruct (attempts_exhausted _ "darwin" true true h h2 h3 k t Hf Hl) as (e & E).
  exists e. unfold RelayDeviceLife.cleanup. urun.
  unfold RelayDeviceLife.close_all_channels, RelayDevice._send_command. urun.
  cbn [String.eqb Ascii.eqb Bool.eqb]. cbv iota.
  change (RelayDevice.HID_COMMANDS "CLOSE_ALL") with (Some (fun _ : Z => [0; 0xFD; 0])).
  cbv iota beta. change (RelayDevice.pad8 [0; 0xFD; 0]) with [0; 0xFD; 0; 0; 0; 0; 0; 0].
  rewrite E. cbv beta iota.
  unfold RelayDeviceLife.close, RelayDeviceLife.set_device. urun.
  cbn [andb]. cbv iota. rewrite <- !app_assoc. reflexivity.
Qed.

(** X26: [cleanup] when the CLOSE_ALL command goes through at once and the
    handle closes: one frame, the pause of 100 ms, the close; the object
    ends disconnected with no handle. *)
Theorem unified_cleanup_closes (s : RelayDevice.state H) (n : Z) (response : list Z)
    (h1 h2 h3 : H) :
  RelayDevice.platform s = "darwin" ->
  RelayDevice.device_set s = true ->
  RelayDevice.connected s = true ->
  hid_write [0; 0xFD; 0; 0; 0; 0; 0; 0] (device (RelayDevice.outside s)) = (Return n, h1) ->
  hid_read 8 100 h1 = (Return response, h2) ->
  hid_close (hid_tick 100 h2) = (Return tt, h3) ->
  RelayDeviceLife.cleanup s
  = (Return tt,
     RelayDevice.State "darwin" false false
       (World h3 (clock (RelayDevice.outside s) + 100)
          (trace (RelayDevice.outside s)
             ++ [EvWrite [0; 0xFD; 0; 0; 0; 0; 0; 0]; EvSleep 100; EvClose]))).
Proof.
  destruct s as [pf ds c [h k t]].
  cbn [RelayDevice.platform RelayDevice.device_set RelayDevice.connected
       RelayDevice.outside device clock trace].
  intros -> -> -> Hw Hr Hc.
  unfold RelayDeviceLife.cleanup. urun.
  unfold RelayDeviceLife.close_all_channels, RelayDevice._send_command. urun.
  cbn [String.eqb Ascii.eqb Bool.eqb]. cbv iota.
  change (RelayDevice.HID_COMMANDS "CLOSE_ALL") with (Some (fun _ : Z => [0; 0xFD; 0])).
  cbv iota beta. change (RelayDevice.pad8 [0; 0xFD; 0]) with [0; 0xFD; 0; 0; 0; 0; 0; 0].
  change (range RelayDevice.max_retries) with [0; 1; 2].
  rewrite (attempt_succeeds _ _ _ _ _ _ _ _ _ _ _ _ _ Hw Hr). cbv beta iota.
  unfold RelayDeviceLife.close, RelayDeviceLife.set_device. urun.
  cbn [andb String.eqb Ascii.eqb Bool.eqb]. cbv iota. rewrite Hc. cbv beta iota.
  rewrite <- !app_assoc. reflexivity.
Qed.

(** What every operation of RelayDevice keeps: it returns, the platform
    stays, and [connected] never holds without a handle. *)
Lemma unified_op_fields (o : unified_operation) pf ds c (w : world H) :
  (c = true -> ds = true) ->
  unified_op_returns o (RelayDevice.State pf ds c w)
  /\ exists ds' c' w',
       run_unified_op o (RelayDevice.State pf ds c w) = RelayDevice.State pf ds' c' w'
       /\ (c' = true -> ds' = true)
       /\ (c = false -> is_open_op o = false -> c' = false /\ w' = w).
Proof.
  intros Hinv.
  assert (Hsend : forall name channel,
    returns (fst (RelayDevice._send_command name channel (RelayDevice.State pf ds c w)))
    /\ exists ds' c' w',
         snd (RelayDevice._send_command name channel (RelayDevice.State pf ds c w))
         = RelayDevice.State pf ds' c' w'
         /\ (c' = true -> ds' = true)
         /\ (c = false -> false = false -> c' = false /\ w' = w)).
  { intros name channel.
    destruct (send_command_fields name channel pf ds c w) as (r & c' & w' & -> & Hc & Hk).
    split; [eexists; reflexivity|]. exists ds, c', w'. split; [reflexivity|].
    split; [intros Hc'; apply Hinv, Hc, Hc'|].
    intros -> _. destruct Hk as [-> ->]; [apply andb_false_r|]. split; reflexivity. }
  destruct o; cbn [unified_op_returns run_unified_op is_open_op];
    try apply Hsend.
  - (* open *)
    destruct w as [h k t]. unfold RelayDeviceLife.open. urun.
    destruct ds; [|split; [eexists; reflexivity|];
                   do 3 eexists; split; [reflexivity|]; split; [exact Hinv|discriminate]].
    destruct (String.eqb pf "darwin");
      [|split; [eexists; reflexivity|];
        do 3 eexists; split; [reflexivity|]; split; [reflexivity|discriminate]].
    destruct (hid_open 5824 1503 h) as [[[]|e] h1];
      [|split; [eexists; reflexivity|];
        do 3 eexists; split; [reflexivity|]; split; [reflexivity|discriminate]].
    destruct (hid_get_manufacturer_string h1) as [[[]|e] h2];
      split; try (eexists; reflexivity);
      do 3 eexists; (split; [reflexivity|]); (split; [reflexivity|discriminate]).
  - (* close *)
    destruct (close_fields pf ds c w Hinv) as (ds' & c' & w' & E & Hc & Hk & _).
    rewrite E. split; [eexists; reflexivity|]. exists ds', c', w'.
    split; [reflexivity|]. split; [exact Hc|]. intros Hf _. apply Hk, Hf.
  - (* get_status *)
    unfold RelayDeviceLife.get_status. urun.
    destruct ds, c; cbn [andb];
      try (split; [eexists; reflexivity|];
           do 3 eexists; split; [reflexivity|];
           split; [discriminate|intros _ _; split; reflexivity]).
    + destruct (String.eqb pf "darwin");
        [|split; [eexists; reflexivity|];
          do 3 eexists; split; [reflexivity|]; split; [reflexivity|discriminate]].
      destruct (send_command_fields "GET_STATUS" 1 pf true true w)
        as (r & c' & [h k t] & -> & _ & _).
      urun. destruct (hid_read 8 100 h) as [[resp|e] h1];
        [|split; [eexists; reflexivity|];
          do 3 eexists; split; [reflexivity|]; split; [discriminate|discriminate]].
      destruct (resp !! Z.to_nat 0);
        (split; [eexists; reflexivity|]);
        do 3 eexists; (split; [reflexivity|]);
        (split; [reflexivity || discriminate|discriminate]).
    + specialize (Hinv eq_refl). discriminate Hinv.
  - (* cleanup *)
    unfold RelayDeviceLife.cleanup. urun.
    destruct c;
      [|split; [eexists; reflexivity|];
        do 3 eexists; split; [reflexivity|];
        split; [discriminate|intros _ _; split; reflexivity]].
    unfold RelayDeviceLife.close_all_channels.
    destruct (send_command_fields "CLOSE_ALL" 1 pf ds true w)
      as (r & c' & [h k t] & -> & _ & _).
    urun. rewrite (Hinv eq_refl).
    destruct (close_fields pf true c'
                (World (hid_tick 100 h) (k + 100) (t ++ [EvSleep 100])))
      as (ds' & c'' & w' & -> & Hc & _); [reflexivity|].
    split; [eexists; reflexivity|].
    exists ds', c'', w'. split; [reflexivity|]. split; [exact Hc|discriminate].
Qed.


(** What [__init__] builds when it returns: the object has a handle on
    macOS when [hid.device()] could be made and none otherwise, and it is
    not connected. *)
Lemma init_fields (platform_name : string) (new_handle registered : result unit)
    (w : world H) (s0 : RelayDevice.state H) :
  RelayDeviceLife.init platform_name new_handle registered w = Return s0 ->
  exists ds w',
    s0 = RelayDevice.State platform_name ds false w'
    /\ (platform_name <> "darwin" ->
        ds = false
        /\ w' = World (device w) (clock w)
                  (trace w ++ [EvErrorExn "Device initialization error"
                                 (RuntimeError ("Platform " ++ platform_name
                                                ++ " not supported"))])).
Proof.
  destruct w as [h k t].
  unfold RelayDeviceLife.init, RelayDeviceLife._init_device, RelayDeviceLife.fresh,
    RelayDeviceLife.set_device.
  urun. destruct (String.eqb_spec platform_name "darwin") as [->|Hp].
  - destruct new_handle as [[]|e]; destruct registered as [[]|e'];
      intros E; try discriminate E; injection E as <-;
      do 2 eexists; (split; [reflexivity|]); intros F; now contradiction F.
  - destruct registered as [[]|e']; intros E; try discriminate E; injection E as <-.
    do 2 eexists. split; [reflexivity|]. intros _. split; reflexivity.
Qed.


(** X28: Nothing reaches the device before [open]: on an object that is not
    connected, any sequence of the other operations writes nothing, reads
    nothing, logs nothing and leaves it not connected. *)
Theorem unified_no_io_before_open (ops : list unified_operation)
    (s : RelayDevice.state H) :
  RelayDevice.connected s = false ->
  forallb (fun o => negb (is_open_op o)) ops = true ->
  RelayDevice.outside (run_unified ops s) = RelayDevice.outside s
  /\ RelayDevice.connected (run_unified ops s) = false.
Proof.
  revert s. induction ops as [|o ops IH]; intros [pf ds c w];
    cbn [RelayDevice.connected RelayDevice.outside]; intros -> Hops.
  - split; reflexivity.
  - cbn [forallb] in Hops. apply andb_prop in Hops as [Ho Hops].
    apply negb_true_iff in Ho.
    unfold run_unified. cbn [fold_left]. fold (run_unified ops).
    destruct (unified_op_fields o pf ds false w) as (_ & ds' & c' & w' & -> & _ & Hk);
      [discriminate|].
    destruct (Hk eq_refl Ho) as [-> ->].
    apply (IH (RelayDevice.State pf ds' false w) eq_refl Hops).
Qed.

(** X29: On a platform other than macOS the object [__init__] builds has no
    handle, and no sequence of operations, [open] included, does anything
    to it or to the device. *)
Theorem unified_inert_off_mac (platform_name : string) (new_handle registered : result unit)
    (ops : list unified_operation) (w : world H) (s0 : RelayDevice.state H) :
  platform_name <> "darwin" ->
  RelayDeviceLife.init platform_name new_handle registered w = Return s0 ->
  RelayDevice.device_set s0 = false
  /\ device (RelayDevice.outside s0) = device w
  /\ run_unified ops s0 = s0.
Proof.
  intros Hp E. destruct (init_fields _ _ _ _ _ E) as (ds & w' & -> & Hf).
  destruct (Hf Hp) as [-> ->]. clear Hf E.
  split; [reflexivity|]. split; [reflexivity|].
  apply String.eqb_neq in Hp.
  assert (Hstep : forall (o : unified_operation) wd,
            run_unified_op o (RelayDevice.State platform_name false false wd)
            = RelayDevice.State platform_name false false wd).
  { intros o [h k t].
    destruct o; cbn [run_unified_op];
      unfold RelayDeviceLife.open, RelayDeviceLife.close, RelayDeviceLife.set_device,
        RelayDevice.open_channel, RelayDevice.close_channel,
        RelayDeviceLife.open_all_channels, RelayDeviceLife.close_all_channels,
        RelayDeviceLife.get_status, RelayDeviceLife.cleanup, RelayDevice._send_command;
      urun; reflexivity. }
  unfold run_unified.
  induction ops as [|o ops IH]; [reflexivity|].
  cbn [fold_left]. rewrite Hstep. exact IH.
Qed.

(** X30: [cleanup] is safe to run twice (it is registered with atexit and
    called from [main] and the signal handler): when the handle's close does
    not raise, the object is not connected after the first run and a second
    run does nothing at all. *)
Theorem unified_cleanup_twice (s : RelayDevice.state H) :
  (RelayDevice.connected s = true -> RelayDevice.device_set s = true) ->
  (forall h, returns (fst (hid_close h))) ->
  RelayDevice.connected (snd (RelayDeviceLife.cleanup s)) = false
  /\ RelayDeviceLife.cleanup (snd (RelayDeviceLife.cleanup s))
     = (Return tt, snd (RelayDeviceLife.cleanup s)).
Proof.
  destruct s as [pf ds c w].
  cbn [RelayDevice.connected RelayDevice.device_set]. intros Hinv Hclose.
  assert (Hc : RelayDevice.connected
                 (snd (RelayDeviceLife.cleanup (RelayDevice.State pf ds c w))) = false).
  { unfold RelayDeviceLife.cleanup. urun. destruct c; [|reflexivity].
    unfold RelayDeviceLife.close_all_channels.
    destruct (send_command_fields "CLOSE_ALL" 1 pf ds true w)
      as (r & c' & [h k t] & -> & _ & _).
    urun. rewrite (Hinv eq_refl).
    destruct (close_fields pf true c'
                (World (hid_tick 100 h) (k + 100) (t ++ [EvSleep 100])))
      as (ds' & c'' & w' & -> & _ & _ & Hf); [reflexivity|].
    cbn [snd RelayDevice.connected]. apply Hf, Hclose. }
  split; [exact Hc|].
  destruct (snd (RelayDeviceLife.cleanup (RelayDevice.State pf ds c w))) as [pf' ds' c' w'].
  cbn [RelayDevice.connected] in Hc. subst c'. reflexivity.
Qed.

End UnifiedLife.

Lemma get_status_reads_second_report_witness :
  fst (RelayDeviceLife.get_status (flaky_session (FlakyHid.Flaky 0 false [[0]; [2]])))
  = Return (Some [("relay1", false); ("relay2", true)]).
Proof.
  rewrite (get_status_reads_second_report
             (flaky_session (FlakyHid.Flaky 0 false [[0]; [2]])) 8 2 [0] []
             (FlakyHid.Flaky 0 false [[0]; [2]]) (FlakyHid.Flaky 0 false [[2]])
             (FlakyHid.Flaky 0 false [])) by reflexivity.
  reflexivity.
Defined.

Lemma get_status_empty_report_witness :
  exists s',
    RelayDeviceLife.get_status (flaky_session (FlakyHid.Flaky 0 false [[1]]))
    = (Return None, s')
    /\ RelayDevice.connected s' = false.
Proof.
  rewrite (get_status_empty_report
             (flaky_session (FlakyHid.Flaky 0 false [[1]])) 8 [1]
             (FlakyHid.Flaky 0 false [[1]]) (FlakyHid.Flaky 0 false [])
             (FlakyHid.Flaky 0 false [])) by reflexivity.
  eexists. split; reflexivity.
Defined.

Lemma unified_cleanup_skips_close_witness :
  fst (RelayDeviceLife.cleanup lost_unified) = Return tt
  /\ ~ In EvClose (trace (RelayDevice.outside (snd (RelayDeviceLife.cleanup lost_unified)))).
Proof.
  destruct (unified_cleanup_skips_close lost_unified Unplugged Unplugged) as (e & E);
    [reflexivity|reflexivity|reflexivity| | |].
  - exists Unplugged. split; [left; eexists; reflexivity|].
    exists Unplugged. split; [left; eexists; reflexivity|]. reflexivity.
  - left. eexists. reflexivity.
  - rewrite E. split; [reflexivity|].
    cbn. intros [F|[F|[F|[F|[F|[F|[F|[]]]]]]]]; discriminate F.
Defined.

Lemma unified_cleanup_closes_witness :
  writes (trace (RelayDevice.outside
                   (snd (RelayDeviceLife.cleanup (flaky_session (FlakyHid.Flaky 0 false []))))))
  = [[0; 0xFD; 0; 0; 0; 0; 0; 0]].
Proof.
  rewrite (unified_cleanup_closes (flaky_session (FlakyHid.Flaky 0 false [])) 8 []
             (FlakyHid.Flaky 0 false []) (FlakyHid.Flaky 0 false [])
             (FlakyHid.Flaky 0 false [])) by reflexivity.
  reflexivity.
Defined.


Lemma unified_no_io_before_open_witness :
  RelayDevice.outside
    (run_unified [UOpenChannel 1; UGetStatus; UCleanup; UClose]
       (RelayDevice.State "darwin" true false (World (FlakyHid.Flaky 0 false []) 0 [])))
  = World (FlakyHid.Flaky 0 false []) 0 [].
Proof.
  apply (unified_no_io_before_open [UOpenChannel 1; UGetStatus; UCleanup; UClose]
           (RelayDevice.State "darwin" true false (World (FlakyHid.Flaky 0 false []) 0 [])));
    reflexivity.
Defined.

Lemma unified_inert_off_mac_witness :
  exists s0,
    RelayDeviceLife.init "linux" (Return tt) (Return tt) (World (FlakyHid.Flaky 0 false []) 0 [])
    = Return s0
    /\ run_unified [UOpen; UOpenChannel 1; UGetStatus] s0 = s0.
Proof.
  eexists. split; [reflexivity|].
  eapply (unified_inert_off_mac "linux" (Return tt) (Return tt)
            [UOpen; UOpenChannel 1; UGetStatus] (World (FlakyHid.Flaky 0 false []) 0 []));
    [discriminate|reflexivity].
Defined.

Lemma unified_cleanup_twice_witness :
  RelayDevice.connected
    (snd (RelayDeviceLife.cleanup (flaky_session (FlakyHid.Flaky 1 false [])))) = false.
Proof.
  apply (unified_cleanup_twice (flaky_session (FlakyHid.Flaky 1 false []))).
  - reflexivity.
  - intros h. exists tt. reflexivity.
Defined.


(** ** relay_controller_v2.py: main when the relay cannot be reached;
    serial_protocol.py: a port that was closed *)

Section MainAndClose.
Import RelayProtocol Serial RelayController ControllerMain.
Context {D : Type} `{SerialDevice D}.

(** A [connect] that returns False leaves a fresh controller not
    connected, with the cache of [__init__], and has written no command
    frame. *)
Lemma connect_false_fields (w : world D) :
  fst (connect (init w)) = Return false ->
  exists p' w',
    connect (init w) = (Return false, State p' false [false; false] w')
    /\ exists t', trace w' = trace w ++ t' /\ commands t' = [].
Proof.
  destruct w as [d k t]. unfold connect, init. mrun.
  destruct (dev_open d) as [[[]|e] d1].
  - destruct (query_status_footprint false [false; false] d1 k t)
      as ([[r1 r2]|e] & d' & k' & t' & -> & Hs); mrun; cbn [fst]; intros E.
    + discriminate E.
    + do 2 eexists. split; [reflexivity|]. cbn [trace].
      exists (EvWrite [QUERY_CMD] :: t' ++ [EvErrorExn "Connection failed" e]).
      split; [rewrite <- app_assoc; reflexivity|].
      apply (benign_query (t' ++ [EvErrorExn "Connection failed" e])).
      apply benign_app; [apply benign_sleeps, Hs|apply benign_exn].
  - intros _. do 2 eexists. split; [reflexivity|]. cbn [trace].
    exists [EvErrorExn "Connection failed" e]. split; reflexivity.
Qed.

(** X16: When [connect] fails, [main] logs "Failed to connect to relay!" and
    returns: no command frame was written, the test sequence did not run,
    and [cleanup] in the [finally] did nothing, so a port that was opened
    stays open. *)
Theorem main_failed_connect (w : world D) :
  fst (connect (init w)) = Return false ->
  let s1 := snd (connect (init w)) in
  main (init w)
  = (Return tt,
     State (protocol s1) false [false; false]
       (World (device (outside s1)) (clock (outside s1))
          (trace (outside s1) ++ [EvError "Failed to connect to relay!"])))
  /\ commands (added (trace w) (trace (outside s1))) = [].
Proof.
  intros Hf. destruct (connect_false_fields w Hf) as (p' & [d' k' t'] & E & t1 & Ht & Hc).
  cbv zeta. cbn [trace] in Ht.
  split.
  - unfold main, try_finally, try_except. unfold bind at 1. rewrite E.
    cbn [snd protocol outside device clock trace]. mrun.
    unfold cleanup. mrun. reflexivity.
  - rewrite E. cbn [snd outside trace]. rewrite Ht, added_app. exact Hc.
Qed.

(** X7: Once the port is closed it stays closed and refuses everything:
    [close] again does nothing, and [send_command], [read_response],
    [query_status] and [set_relay] with a valid relay number raise "Serial
    port not open" without touching the device; [set_relay] with any other
    number still raises the ValueError of [build_command]. *)
Theorem closed_port_refuses (s : state D) (p : protocol_obj) :
  protocol s = Some p ->
  let s' := snd (close s) in
  fst (close s) = Return tt
  /\ protocol s' = Some (Protocol false)
  /\ writes (added (trace (outside s)) (trace (outside s'))) = []
  /\ close s' = (Return tt, s')
  /\ (forall cmd, send_command cmd s' = (Raise (RuntimeError "Serial port not open"), s'))
  /\ (forall timeout_ms,
        read_response timeout_ms s' = (Raise (RuntimeError "Serial port not open"), s'))
  /\ query_status s' = (Raise (RuntimeError "Serial port not open"), s')
  /\ (forall relay_num st,
        Serial.set_relay relay_num st s'
        = (Raise (if valid_relay relay_num
                  then RuntimeError "Serial port not open"
                  else ValueError "Relay number must be 1 or 2"), s')).
Proof.
  destruct s as [p0 c l [d k t]]. cbn [protocol]. intros ->. cbv zeta.
  destruct p as [[|]]; unfold close; mrun;
    (split; [reflexivity|]); (split; [reflexivity|]);
    (split; [unfold added; rewrite ?drop_app_length, ?skipn_all; reflexivity|]);
    (split; [reflexivity|]);
    (split; [intros cmd; unfold send_command; mrun; reflexivity|]);
    (split; [intros tm; unfold read_response; mrun; reflexivity|]);
    (split; [unfold query_status, send_command; mrun; reflexivity|]);
    intros n st; unfold Serial.set_relay, build_command;
    destruct (valid_relay n); cbn [negb]; unfold send_command, raise; mrun; reflexivity.
Qed.

End MainAndClose.

Lemma main_failed_connect_witness :
  fst (ControllerMain.main (RelayController.init (World Board.cut 0 []))) = Return tt
  /\ writes (trace (Serial.outside
                      (snd (ControllerMain.main (RelayController.init (World Board.cut 0 []))))))
     = [].
Proof.
  destruct (main_failed_connect (World Board.cut 0 [])) as [E _]; [reflexivity|].
  rewrite E. split; reflexivity.
Defined.

Lemma closed_port_refuses_witness :
  fst (Serial.send_command [0xFF]
         (snd (Serial.close (session Board.healthy [false; false]))))
  = Raise (RuntimeError "Serial port not open").
Proof.
  destruct (closed_port_refuses (session Board.healthy [false; false]) (Serial.Protocol true))
    as (_ & _ & _ & _ & Hs & _); [reflexivity|].
  rewrite Hs. reflexivity.
Defined.

(** ** set_relay on a board whose answers take time *)

Section OnLateBoard.
Import RelayProtocol Serial RelayController Board LateBoard.

(** An answer that is [x] ms away, with [x <= 10 * n], is in the input
    buffer after at most [n] looks at an empty buffer, 10 ms apart. *)
Lemma late_wait an jm r lat line (n : nat) : forall x,
  x <= 10 * Z.of_nat n ->
  exists j,
    (j <= n)%nat
    /\ no_data j (arrive (Late (Board true an jm r []) lat [(x, line)]))
    /\ idle j (arrive (Late (Board true an jm r []) lat [(x, line)]))
       = Late (Board true an jm r [line]) lat [].
Proof.
  induction n as [|n IH]; intros x Hx.
  - exists 0%nat. split; [lia|]. split; [exact I|].
    cbn [idle]. unfold arrive. cbn [under_way List.filter fst snd core latency].
    replace (x <=? 0) with true by (symmetry; apply Z.leb_le; lia).
    reflexivity.
  - destruct (Z.leb_spec x 0) as [Hle|Hgt].
    + exists 0%nat. split; [lia|]. split; [exact I|].
      cbn [idle]. unfold arrive. cbn [under_way List.filter fst snd core latency].
      replace (x <=? 0) with true by (symmetry; apply Z.leb_le; lia).
      reflexivity.
    + destruct (IH (x - 10)) as (j & Hj & Hn & Hi); [lia|].
      assert (E : arrive (Late (Board true an jm r []) lat [(x, line)])
                  = Late (Board true an jm r []) lat [(x, line)]).
      { unfold arrive. cbn [under_way List.filter fst snd core latency].
        replace (x <=? 0) with false by (symmetry; apply Z.leb_gt; lia).
        reflexivity. }
      exists (S j). split; [lia|]. rewrite E. split.
      * cbn [no_data]. eexists. split; [reflexivity|]. exact Hn.
      * cbn [idle]. exact Hi.
Qed.

Lemma only_sleeps_repeat j : only_sleeps (repeat (EvSleep 10) j).
Proof. induction j as [|j IH]; constructor; [eexists; reflexivity|exact IH]. Qed.

(** A status query on a board at rest that answers within 90 ms: the
    answer is the board's relays, read after at most nine sleeps; a board
    that does not answer costs the whole timeout; a cable that is out fails
    the write.  The board is at rest again afterwards. *)
Lemma late_query (b : late_board) c l k t :
  at_rest b -> latency b <= 90 ->
  exists r k' t',
    query_status (State (Some (Protocol true)) c l (World b k t))
    = (r, State (Some (Protocol true)) c l (World b k' (t ++ t')))
    /\ r = (if link_up (core b) then
              if answers (core b) then Return (relays (core b))
              else Raise (RuntimeError "No response to status query")
            else Raise (IOFault "write failed"))
    /\ benign t'.
Proof.
  destruct b as [[lk an jm r q] lat uw]. unfold at_rest.
  cbn [core rx under_way latency link_up answers relays]. intros [-> ->] Hlat.
  destruct lk.
  - destruct an.
    + unfold query_status. unfold bind at 1. rewrite send_command_open.
      change (dev_write [QUERY_CMD] (Late (Board true true jm r []) lat []))
        with (Return 1, arrive (Late (Board true true jm r []) lat [(lat, status_line r)])).
      destruct (late_wait true jm r lat (status_line r) 9 lat) as (j & Hj & Hn & Hi); [lia|].
      unfold bind. unfold read_response. mrun.
      rewrite (poll_late j (S (Z.to_nat 100)) k 100 (Some (Protocol true)) c l _ k
                 (t ++ [EvWrite [QUERY_CMD]])
                 (Z.of_nat (String.length (status_line r)) + 0)
                 (Late (Board true true jm r [status_line r]) lat []) (status_line r)
                 (Late (Board true true jm r []) lat []));
        try assumption; try lia.
      * destruct r as [[|] [|]];
          eexists _, (k + 10 * Z.of_nat j), (EvWrite [QUERY_CMD] :: repeat (EvSleep 10) j);
          rewrite <- app_assoc; (split; [reflexivity|]); (split; [reflexivity|]);
          apply benign_query, benign_sleeps, only_sleeps_repeat.
      * rewrite Hi. reflexivity.
      * destruct r as [[|] [|]]; discriminate.
      * reflexivity.
      * destruct r as [[|] [|]]; reflexivity.
    + rewrite (query_status_silent c l (Late (Board true false jm r []) lat []) k t 1
                 (Late (Board true false jm r []) lat []));
        [|reflexivity|cbn; repeat (eexists; split; [reflexivity|]); exact I].
      eexists _, (k + 100), _. rewrite <- app_assoc. split; [reflexivity|].
      split; [reflexivity|]. cbn [app]. apply benign_query, benign_sleeps.
      repeat constructor; eexists; reflexivity.
  - unfold query_status. unfold bind at 1. rewrite send_command_open.
    cbn [dev_write late_serial core link_up].
    eexists _, k, [EvWrite [QUERY_CMD]]. split; [reflexivity|].
    split; [reflexivity|apply benign_query, benign_nil].
Qed.

Lemma late_get_relay_states (b : late_board) l k t :
  at_rest b -> latency b <= 90 ->
  exists k' t',
    get_relay_states (State (Some (Protocol true)) true l (World b k t))
    = (let l' := if link_up (core b) && answers (core b)
                 then [fst (relays (core b)); snd (relays (core b))] else l in
       (Return l', State (Some (Protocol true)) true l' (World b k' (t ++ t'))))
    /\ benign t'.
Proof.
  intros Hr Hlat. unfold get_relay_states. mrun.
  destruct (late_query b true l k t Hr Hlat) as (r & k' & t' & -> & -> & Hb).
  destruct (link_up (core b)), (answers (core b)); mrun; cbn [andb].
  - eauto.
  - eexists k', (t' ++ _). rewrite <- app_assoc. split; [reflexivity|].
    apply benign_app; [exact Hb|apply benign_exn].
  - eexists k', (t' ++ _). rewrite <- app_assoc. split; [reflexivity|].
    apply benign_app; [exact Hb|apply benign_exn].
  - eexists k', (t' ++ _). rewrite <- app_assoc. split; [reflexivity|].
    apply benign_app; [exact Hb|apply benign_exn].
Qed.

(** A command frame goes to the relays at once; the answers under way
    are not touched. *)
Lemma late_write n st (c : board) lat uw :
  dev_write (frame_of n st) (Late c lat uw)
  = if link_up c then (Return 4, Late (Board.receive (frame_of n st) c) lat uw)
    else (Raise (IOFault "write failed"), Late c lat uw).
Proof. reflexivity. Qed.

(** Time passes over a board at rest without a trace. *)
Lemma late_tick ms (c : board) lat :
  rx c = [] -> dev_tick ms (Late c lat []) = Late c lat [].
Proof. destruct c as [lk an jm r q]. cbn [rx]. intros ->. reflexivity. Qed.

(** One [set_relay] on a board at rest that answers within 90 ms, seen
    from outside: the board and the cache end as on a board that answers
    at once, and the board is at rest again. *)
Lemma late_set_relay (b : late_board) n st l k t :
  valid_relay n = true -> at_rest b -> latency b <= 90 ->
  exists r k' t',
    set_relay n st (State (Some (Protocol true)) true l (World b k t))
    = (r, State (Some (Protocol true)) true (cache_next n st l (core b))
            (World (Late (board_next n st l (core b)) (latency b) []) k' t'))
    /\ r = Return (if link_up (core b) then
                     if answers (core b)
                     then Bool.eqb (channel_of n (relays (Board.receive (frame_of n st) (core b))))
                                   st
                     else if (2 <=? length l)%nat then true else false
                   else false).
Proof.
  intros Hv Hr Hlat. unfold set_relay, cache_next, board_next. mrun. rewrite Hv. mrun.
  destruct (late_get_relay_states b l k t Hr Hlat) as (k1 & t1 & -> & _).
  assert (Hi : (Z.to_nat (n - 1) < 2)%nat) by (apply valid_relay_iff in Hv; lia).
  destruct b as [cb lat uw]. destruct Hr as [Hrx Huw].
  cbn [core under_way latency] in *. subst uw.
  destruct (receive_frame_keeps n st cb) as (Hlk' & Han' & _ & Hrx').
  rewrite Hrx in Hrx'.
  destruct cb as [lk an j [r1 r2] q]. cbn [rx] in Hrx. subst q.
  cbn [link_up answers relays] in *. cbv zeta. mrun.
  destruct lk; [destruct an|]; cbn [andb orb].
  - (* the board answers *)
    change ([r1; r2] !! Z.to_nat 0) with (Some r1).
    change ([r1; r2] !! Z.to_nat 1) with (Some r2). mrun.
    unfold Serial.set_relay. rewrite (build_command_valid n st Hv).
    rewrite send_command_open, late_write. cbn [link_up]. mrun.
    change (4 =? Z.of_nat (length (frame_of n st))) with true. cbv iota.
    unfold setitem_relay_states. mrun. cbn [length].
    replace (Z.to_nat (n - 1) <? 2)%nat with true by (symmetry; now apply Nat.ltb_lt).
    mrun. rewrite (late_tick 100 _ lat Hrx').
    destruct (late_get_relay_states
                (Late (Board.receive (frame_of n st) (Board true true j (r1, r2) [])) lat [])
                (<[Z.to_nat (n - 1) := st]> [r1; r2])
                (k1 + 100) (((t ++ t1) ++ [EvWrite (frame_of n st)]) ++ [EvSleep 100]))
      as (k2 & t2 & -> & _); [split; [exact Hrx'|reflexivity]|exact Hlat|].
    cbn [core]. rewrite Hlk', Han'. cbn [andb]. cbv zeta. mrun.
    change (Z.to_nat 0) with 0%nat. change (Z.to_nat 1) with 1%nat.
    unfold channel_of. mrun.
    apply valid_relay_iff in Hv. destruct Hv as [-> | ->].
    + change (Z.to_nat (1 - 1)) with 0%nat. change (1 =? 1) with true.
      cbn [lookup list_lookup].
      match goal with
      | |- context [eqb ?a st] => destruct (eqb a st)
      end; mrun; eauto.
    + change (Z.to_nat (2 - 1)) with 1%nat. change (2 =? 1) with false.
      cbn [lookup list_lookup].
      match goal with
      | |- context [eqb ?a st] => destruct (eqb a st)
      end; mrun; eauto.
  - (* the board does not answer *)
    pose proof (lookup_two_length l) as Hlen.
    destruct (l !! Z.to_nat 0) as [a0|]; [destruct (l !! Z.to_nat 1) as [a1|]|];
      rewrite Hlen; mrun; eauto.
    unfold Serial.set_relay. rewrite (build_command_valid n st Hv).
    rewrite send_command_open, late_write. cbn [link_up]. mrun.
    change (4 =? Z.of_nat (length (frame_of n st))) with true. cbv iota.
    unfold setitem_relay_states. mrun.
    apply Nat.leb_le in Hlen.
    replace (Z.to_nat (n - 1) <? length l)%nat with true
      by (symmetry; apply Nat.ltb_lt; lia).
    mrun. rewrite (late_tick 100 _ lat Hrx').
    destruct (late_get_relay_states
                (Late (Board.receive (frame_of n st) (Board true false j (r1, r2) [])) lat [])
                (<[Z.to_nat (n - 1) := st]> l)
                (k1 + 100) (((t ++ t1) ++ [EvWrite (frame_of n st)]) ++ [EvSleep 100]))
      as (k2 & t2 & -> & _); [split; [exact Hrx'|reflexivity]|exact Hlat|].
    cbn [core]. rewrite Hlk', Han'. cbn [andb]. cbv zeta. mrun.
    rewrite list_lookup_insert_eq by lia. mrun. rewrite eqb_reflx. eauto.
  - (* the cable is out *)
    destruct (l !! Z.to_nat 0) as [a0|]; [destruct (l !! Z.to_nat 1) as [a1|]|];
      mrun; eauto.
    unfold Serial.set_relay. rewrite (build_command_valid n st Hv).
    rewrite send_command_open, late_write. cbn [link_up]. mrun. eauto.
Qed.

(** C9 (as amended): on a serial relay board that is at rest when the
    first call begins (nothing unread in the host's input buffer, no answer
    on its way) and answers a status query within 90 ms, in time for the
    100 ms read, or not at all, calling set_relay(n, s) twice in succession
    leaves the board (relays, input buffer, faults) and the controller
    (cache, port, connected flag) exactly as calling it once does, and
    leaves the board at rest; this holds for every state of the controller,
    every cache, every position of the relays and every injected fault
    (cable out, board not answering, relays jammed).  The one call of a
    connected controller on an open port is the one that hands the board
    the command frame ([board_next]) and caches the board's answer, or the
    request when there is none ([cache_next]). *)
Theorem set_relay_idempotent (s : state late_board) (n : Z) (st : bool) :
  n = 1 \/ n = 2 ->
  at_rest (device (outside s)) ->
  latency (device (outside s)) <= 90 ->
  let once := snd (set_relay n st s) in
  let twice := snd (set_relay n st once) in
  device (outside twice) = device (outside once)
  /\ relay_states twice = relay_states once
  /\ protocol twice = protocol once
  /\ connected twice = connected once
  /\ at_rest (device (outside once))
  /\ (connected s = true -> protocol s = Some (Protocol true) ->
      core (device (outside once))
      = board_next n st (relay_states s) (core (device (outside s)))
      /\ relay_states once
         = cache_next n st (relay_states s) (core (device (outside s)))).
Proof.
  intros Hn Hr Hlat. apply valid_relay_iff in Hn. cbv zeta.
  destruct s as [p c l [b k t]]. cbn [outside device] in Hr, Hlat.
  assert (Hcase : (c = true /\ p = Some (Protocol true))
                  \/ (c = false \/ valid_relay n = false \/ p <> Some (Protocol true))).
  { destruct c; [|auto]. destruct p as [[[|]]|]; [auto| |]; right; right; right; congruence. }
  destruct Hcase as [[-> ->]|Hidle].
  - destruct (late_set_relay b n st l k t Hn Hr Hlat) as (r1 & k1 & t1 & -> & _).
    cbn [snd].
    assert (Hr' : at_rest (Late (board_next n st l (core b)) (latency b) [])).
    { split; [|reflexivity]. cbn [core]. apply board_next_drained. apply Hr. }
    destruct (late_set_relay (Late (board_next n st l (core b)) (latency b) []) n st
                (cache_next n st l (core b)) k1 t1 Hn Hr' Hlat) as (r2 & k2 & t2 & -> & _).
    cbn [snd protocol connected relay_states outside device core latency].
    destruct (next_idempotent n st l (core b)) as [Hc Hb].
    rewrite Hc, Hb. repeat split. apply Hr'.
  - destruct (set_relay_idle n st p c l b k t Hidle) as (r1 & t1 & ->). cbn [snd].
    destruct (set_relay_idle n st p c l b k t1 Hidle) as (r2 & t2 & ->). cbn [snd].
    cbn [protocol connected relay_states outside device].
    do 4 (split; [reflexivity|]). split; [exact Hr|].
    intros -> ->. destruct Hidle as [F|[F|F]]; [discriminate F|congruence|congruence].
Qed.

(** X14: On a board that is at rest and answers its status queries within
    90 ms, in time for the 100 ms read, the verdict of [set_relay] is the
    truth: it returns True exactly when the relay of the channel is in the
    requested position afterwards, which is always the case for a relay
    that is not jammed; and the cache ends as the board's relays. *)
Theorem answered_verification_is_sound (b : late_board) (l : list bool) (k : Z)
    (t : list event) (n : Z) (st : bool) :
  n = 1 \/ n = 2 ->
  at_rest b ->
  latency b <= 90 ->
  link_up (core b) = true ->
  answers (core b) = true ->
  let s := State (Some (Protocol true)) true l (World b k t) in
  let verdict := fst (set_relay n st s) in
  let s' := snd (set_relay n st s) in
  (verdict = Return true \/ verdict = Return false)
  /\ (verdict = Return true <-> channel_of n (relays (core (device (outside s')))) = st)
  /\ relay_states s'
     = [fst (relays (core (device (outside s')))); snd (relays (core (device (outside s'))))]
  /\ (is_jammed (core b) n = false -> verdict = Return true).
Proof.
  intros Hn Hr Hlat Hlk Han. apply valid_relay_iff in Hn. cbv zeta.
  destruct (late_set_relay b n st l k t Hn Hr Hlat) as (r & k' & t' & -> & ->).
  cbn [fst snd outside device relay_states core]. unfold cache_next, board_next.
  rewrite Hlk, Han. cbn [andb orb].
  split; [destruct (Bool.eqb _ st); auto|].
  split; [|split; [reflexivity|]].
  - rewrite <- eqb_true_eq. split; congruence.
  - intros Hj. f_equal. apply eqb_true_eq.
    rewrite receive_frame, Hj, Hn. cbn [negb andb]. unfold channel_of.
    destruct (core b) as [lk an j [r1 r2] q]. destruct (n =? 1); reflexivity.
Qed.

End OnLateBoard.

Lemma set_relay_idempotent_witness :
  let s := Serial.State (Some (Serial.Protocol true)) true [false; true]
             (World (LateBoard.Late (Board.stuck 2) 35 []) 0 []) in
  let once := snd (RelayController.set_relay 2 true s) in
  let twice := snd (RelayController.set_relay 2 true once) in
  device (Serial.outside twice) = device (Serial.outside once)
  /\ Serial.relay_states twice = Serial.relay_states once.
Proof.
  cbv zeta.
  destruct (set_relay_idempotent
              (Serial.State (Some (Serial.Protocol true)) true [false; true]
                 (World (LateBoard.Late (Board.stuck 2) 35 []) 0 [])) 2 true)
    as (Hd & Hc & _);
    [right; reflexivity|split; reflexivity|cbn; lia|].
  split; [exact Hd|exact Hc].
Defined.

(** C9, the claim as stated fails: on a healthy board at rest whose
    answers take 150 ms, the first set_relay(1, True) switches the relay,
    times out on both status queries and leaves the cache at [False,
    False]; the second call, in succession, reads the late answers and
    leaves the cache at [True, False]. *)
Lemma late_answer_breaks_idempotence :
  let s := Serial.State (Some (Serial.Protocol true)) true [false; false]
             (World (LateBoard.Late Board.healthy 150 []) 0 []) in
  let once := snd (RelayController.set_relay 1 true s) in
  let twice := snd (RelayController.set_relay 1 true once) in
  Board.relays (LateBoard.core (device (Serial.outside once))) = (true, false)
  /\ Serial.relay_states once = [false; false]
  /\ Serial.relay_states twice = [true; false]
  /\ Serial.relay_states twice <> Serial.relay_states once.
Proof. vm_compute. repeat split; discriminate. Qed.

Lemma answered_verification_is_sound_witness :
  fst (RelayController.set_relay 2 true
         (Serial.State (Some (Serial.Protocol true)) true [false; false]
            (World (LateBoard.Late Board.healthy 90 []) 0 [])))
  = Return true.
Proof.
  destruct (answered_verification_is_sound (LateBoard.Late Board.healthy 90 [])
              [false; false] 0 [] 2 true)
    as (_ & _ & _ & Hv);
    [right; reflexivity|split; reflexivity|cbn; lia|reflexivity|reflexivity|].
  apply Hv. reflexivity.
Defined.
